(** * Mall Billing System: cart, promo codes, checkout and sales reports

    A shallow embedding of [mall_billing_system/app.py] (a Flask
    application) and the properties of its point-of-sale flow.

    - [Py] models the Python runtime pieces the handlers rely on: binary64
      floats with [round], [max], [min], [int()] on strings, [str()],
      [str.strip], [str.upper], insertion-ordered dicts and [datetime].
    - [Mall] embeds the models ([Product], [Order], [OrderItem],
      [PromoCode]), the session cart, and the handlers [pos], [checkout],
      [admin_sales_summary], [promocode_new], [promocode_toggle] and
      [product_new].

    Amounts are Rocq's primitive floats, which are IEEE 754 binary64 like
    Python's [float]; quantities, stock and identifiers are [Z]. *)

From Stdlib Require Import ZArith List String Ascii Bool Lia.
From Stdlib Require Import Sorted Permutation.
From Stdlib Require Import DecimalString DecimalPos.
From Stdlib Require Import Floats.
Import ListNotations.

Set Warnings "-inexact-float".

Open Scope Z_scope.

(* ===================================================================== *)
(** * The Python runtime                                                  *)
(* ===================================================================== *)

Module Py.

(** ** Exceptions raised by the builtins the handlers call *)

Inductive exception : Type :=
| ValueError
| TypeError
| OverflowError
| AttributeError.

(** ** Floats *)

(** [max(a, b)] keeps its first argument unless the second one compares
    greater; [min(a, b)] keeps it unless the second one compares less. *)
Definition max (a b : float) : float := if (a <? b)%float then b else a.
Definition min (a b : float) : float := if (b <? a)%float then b else a.

(** Nearest integer to [num / den] ([den > 0]), ties to the even one. *)
Definition half_even (num den : Z) : Z :=
  let q := num / den in
  let r := num mod den in
  match 2 * r ?= den with
  | Lt => q
  | Gt => q + 1
  | Eq => if Z.even q then q else q + 1
  end.

(** [scaled nd m e]: the integer nearest to [10^nd * m * 2^e]. *)
Definition scaled (nd : nat) (m : positive) (e : Z) : Z :=
  let k := 10 ^ Z.of_nat nd in
  match e with
  | Zneg p => half_even (k * Zpos m) (Z.pow_pos 2 p)
  | _ => k * Zpos m * 2 ^ e
  end.

(** [round(x, nd)] for a float [x] and [nd >= 0]: the exact value of [x]
    is rounded half-even to [nd] decimals (the correctly rounded decimal
    string of CPython's [double_round]) and that decimal is converted back
    to the nearest float.  Infinities and NaN round to themselves; the sign
    is kept when the result is zero. *)
Definition round (x : float) (nd : nat) : float :=
  match Prim2SF x with
  | S754_finite s m e =>
      match scaled nd m e with
      | Zpos n =>
          match 10 ^ Z.of_nat nd with
          | Zpos k =>
              SF2Prim (SFdiv prec emax (S754_finite s n 0) (S754_finite false k 0))
          | _ => x
          end
      | _ => SF2Prim (S754_zero s)
      end
  | _ => x
  end.

(** Conversion of an [int] operand in mixed arithmetic ([float * int]):
    correctly rounded, [OverflowError] when the integer is too large. *)
Definition float_of_int (z : Z) : exception + float :=
  match binary_normalize prec emax z 0 false with
  | S754_infinity _ => inl OverflowError
  | sf => inr (SF2Prim sf)
  end.

(** [x * n] with [x] a float and [n] an int. *)
Definition mul_int (x : float) (n : Z) : exception + float :=
  match float_of_int n with
  | inl e => inl e
  | inr f => inr (x * f)%float
  end.

(** ** Strings (ASCII; bytes above 127 are never whitespace, digits or
    letters here, whereas Python would decode them first) *)

Definition code (c : ascii) : Z := Z.of_nat (nat_of_ascii c).

(** Whitespace skipped by [int()] around the digits. *)
Definition is_space_int (c : ascii) : bool :=
  ((9 <=? code c) && (code c <=? 13)) || (code c =? 32).

(** Whitespace removed by [str.strip()]. *)
Definition is_space (c : ascii) : bool :=
  is_space_int c || ((28 <=? code c) && (code c <=? 31)).

Definition is_digit (c : ascii) : bool := (48 <=? code c) && (code c <=? 57).

Fixpoint lstrip_by (sp : ascii -> bool) (cs : list ascii) : list ascii :=
  match cs with
  | c :: rest => if sp c then lstrip_by sp rest else cs
  | [] => []
  end.

Definition strip_by (sp : ascii -> bool) (cs : list ascii) : list ascii :=
  rev (lstrip_by sp (rev (lstrip_by sp cs))).

(** [s.strip()] *)
Definition strip (s : string) : string :=
  string_of_list_ascii (strip_by is_space (list_ascii_of_string s)).

Definition upper_char (c : ascii) : ascii :=
  if (97 <=? code c) && (code c <=? 122)
  then ascii_of_nat (nat_of_ascii c - 32)
  else c.

(** [s.upper()] *)
Definition upper (s : string) : string :=
  string_of_list_ascii (List.map upper_char (list_ascii_of_string s)).

(** Digits with single underscores between them. *)
Fixpoint digits (cs : list ascii) (acc : Z) (after_digit : bool) : option Z :=
  match cs with
  | [] => if after_digit then Some acc else None
  | c :: rest =>
      if is_digit c then digits rest (10 * acc + (code c - 48)) true
      else if (code c =? 95) && after_digit then digits rest acc false
      else None
  end.

(** Default of [sys.get_int_max_str_digits()]. *)
Definition int_max_str_digits : Z := 4300.

(** [int(s)] for a string: surrounding whitespace, an optional sign, then
    decimal digits; [ValueError] otherwise. *)
Definition int (s : string) : exception + Z :=
  let cs := strip_by is_space_int (list_ascii_of_string s) in
  let '(neg, ds) :=
    match cs with
    | c :: rest =>
        if code c =? 45 then (true, rest)
        else if code c =? 43 then (false, rest)
        else (false, cs)
    | [] => (false, cs)
    end in
  if int_max_str_digits <? Z.of_nat (List.length (List.filter is_digit ds))
  then inl ValueError
  else
    match digits ds 0 false with
    | Some n => inr (if neg then - n else n)
    | None => inl ValueError
    end.

(** [str(n)] for an int. *)
Definition str (n : Z) : string := NilZero.string_of_int (Z.to_int n).

(** [f"{n:02d}"] *)
Definition fmt02 (n : Z) : string :=
  if (0 <=? n) && (n <? 10) then String "0" (str n) else str n.

(** ** Dicts, in insertion order *)

(** Keys are compared with [==]. *)
Class Key (K : Type) : Type := { key_eqb : K -> K -> bool }.

#[global] Instance string_key : Key string := {| key_eqb := String.eqb |}.

(** A key read from a form is a string, or [None] when the field is
    missing. *)
#[global] Instance option_string_key : Key (option string) :=
  {| key_eqb := fun a b =>
       match a, b with
       | Some x, Some y => String.eqb x y
       | None, None => true
       | _, _ => false
       end |}.

Definition dict (K V : Type) : Type := list (K * V).

(** [d.get(k)] *)
Fixpoint dict_get {K V : Type} `{Key K} (d : dict K V) (k : K) : option V :=
  match d with
  | [] => None
  | (k', v) :: rest => if key_eqb k' k then Some v else dict_get rest k
  end.

(** [d.get(k, default)] *)
Definition dict_get_default {K V : Type} `{Key K}
    (d : dict K V) (k : K) (default : V) : V :=
  match dict_get d k with
  | Some v => v
  | None => default
  end.

(** [d[k] = v]: an existing key keeps its position, a new key goes last. *)
Fixpoint dict_set {K V : Type} `{Key K} (d : dict K V) (k : K) (v : V) : dict K V :=
  match d with
  | [] => [(k, v)]
  | (k', v') :: rest =>
      if key_eqb k' k then (k', v) :: rest else (k', v') :: dict_set rest k v
  end.

(** [d.pop(k, None)] *)
Fixpoint dict_pop {K V : Type} `{Key K} (d : dict K V) (k : K) : dict K V :=
  match d with
  | [] => []
  | (k', v') :: rest =>
      if key_eqb k' k then rest else (k', v') :: dict_pop rest k
  end.

(** ** Dates and datetimes (naive, as [datetime.utcnow()] returns them) *)

Record date : Type := mk_date { year : Z; month : Z; day : Z }.

Record datetime : Type := mk_datetime {
  dt_date : date;
  hour : Z;
  minute : Z;
  second : Z;
  microsecond : Z
}.

Definition MINYEAR : Z := 1.
Definition MAXYEAR : Z := 9999.

Definition is_leap (y : Z) : bool :=
  (y mod 4 =? 0) && (negb (y mod 100 =? 0) || (y mod 400 =? 0)).

Definition days_in_month (y m : Z) : Z :=
  match m with
  | 2 => if is_leap y then 29 else 28
  | 4 | 6 | 9 | 11 => 30
  | _ => 31
  end.

Definition valid_date (d : date) : bool :=
  (MINYEAR <=? year d) && (year d <=? MAXYEAR)
  && (1 <=? month d) && (month d <=? 12)
  && (1 <=? day d) && (day d <=? days_in_month (year d) (month d)).

Definition valid_datetime (t : datetime) : bool :=
  valid_date (dt_date t)
  && (0 <=? hour t) && (hour t <? 24)
  && (0 <=? minute t) && (minute t <? 60)
  && (0 <=? second t) && (second t <? 60)
  && (0 <=? microsecond t) && (microsecond t <? 1000000).

(** [datetime(y, m, d)]: midnight of a checked date. *)
Definition datetime_ymd (y m d : Z) : exception + datetime :=
  let dd := mk_date y m d in
  if valid_date dd then inr (mk_datetime dd 0 0 0 0) else inl ValueError.

(** Datetimes compare field by field, most significant first. *)
Definition datetime_fields (t : datetime) : list Z :=
  [year (dt_date t); month (dt_date t); day (dt_date t);
   hour t; minute t; second t; microsecond t].

Fixpoint lex_compare (a b : list Z) : comparison :=
  match a, b with
  | x :: a', y :: b' =>
      match x ?= y with
      | Eq => lex_compare a' b'
      | c => c
      end
  | [], [] => Eq
  | [], _ :: _ => Lt
  | _ :: _, [] => Gt
  end.

Definition datetime_compare (a b : datetime) : comparison :=
  lex_compare (datetime_fields a) (datetime_fields b).

(** [a < b] and [a >= b] *)
Definition datetime_lt (a b : datetime) : bool :=
  match datetime_compare a b with Lt => true | _ => false end.
Definition datetime_ge (a b : datetime) : bool := negb (datetime_lt a b).

(** Calendar arithmetic of the [datetime] module (proleptic Gregorian
    ordinals, day 1 is 0001-01-01). *)
Definition days_before_year (y : Z) : Z :=
  let p := y - 1 in p * 365 + p / 4 - p / 100 + p / 400.

Definition days_before_month (y m : Z) : Z :=
  (match m with
   | 1 => 0 | 2 => 31 | 3 => 59 | 4 => 90 | 5 => 120 | 6 => 151
   | 7 => 181 | 8 => 212 | 9 => 243 | 10 => 273 | 11 => 304 | _ => 334
   end)
  + (if (2 <? m) && is_leap y then 1 else 0).

(** [d.toordinal()] *)
Definition ymd2ord (d : date) : Z :=
  days_before_year (year d) + days_before_month (year d) (month d) + day d.

Definition MAXORDINAL : Z := 3652059.

(** [date.fromordinal(n)] *)
Definition ord2ymd (n : Z) : date :=
  let n := n - 1 in
  let n400 := n / 146097 in
  let n := n mod 146097 in
  let n100 := n / 36524 in
  let n := n mod 36524 in
  let n4 := n / 1461 in
  let n := n mod 1461 in
  let n1 := n / 365 in
  let n := n mod 365 in
  let y := n400 * 400 + 1 + n100 * 100 + n4 * 4 + n1 in
  if (n1 =? 4) || (n100 =? 4) then mk_date (y - 1) 12 31
  else
    let leapyear := (n1 =? 3) && (negb (n4 =? 24) || (n100 =? 3)) in
    let m := Z.shiftr (n + 50) 5 in
    let preceding :=
      days_before_month 1 m + (if (2 <? m) && leapyear then 1 else 0) in
    if n <? preceding then
      let m' := m - 1 in
      let preceding' :=
        preceding - (days_in_month 1 m' + (if (m' =? 2) && leapyear then 1 else 0)) in
      mk_date y m' (n - preceding' + 1)
    else mk_date y m (n - preceding + 1).

(** [d - timedelta(days=k)] for a date. *)
Definition date_sub_days (d : date) (k : Z) : exception + date :=
  let o := ymd2ord d - k in
  if (0 <? o) && (o <=? MAXORDINAL) then inr (ord2ymd o) else inl OverflowError.

(** [t - timedelta(days=k)] for a datetime: the time of day is kept. *)
Definition datetime_sub_days (t : datetime) (k : Z) : exception + datetime :=
  match date_sub_days (dt_date t) k with
  | inl e => inl e
  | inr d => inr (mk_datetime d (hour t) (minute t) (second t) (microsecond t))
  end.

(** [%U]: week of the year, weeks starting on Sunday, days before the
    first Sunday in week 0. *)
Definition week_U (d : date) : Z :=
  let yday := ymd2ord d - ymd2ord (mk_date (year d) 1 1) in
  let wday := ymd2ord d mod 7 in
  (yday + 7 - wday) / 7.

(** [d.strftime('%Y-%m-%d')] and [d.strftime("%Y-W%U")]; the year is
    printed without padding, as the C library of Linux does. *)
Definition strftime_Ymd (d : date) : string :=
  (str (year d) ++ "-" ++ fmt02 (month d) ++ "-" ++ fmt02 (day d))%string.

Definition strftime_YWU (d : date) : string :=
  (str (year d) ++ "-W" ++ fmt02 (week_U d))%string.

(** [sum(xs)] of floats, added left to right from zero as before Python
    3.12 (which compensates the rounding errors); the empty sum, the int
    [0] in Python, is the float zero here. *)
Definition sum (xs : list float) : float :=
  List.fold_left PrimFloat.add xs 0%float.

(** [sorted(d.items())] for a dict with string keys: by key. *)
Fixpoint insert_by_key {V : Type} (kv : string * V) (l : list (string * V))
    : list (string * V) :=
  match l with
  | [] => [kv]
  | kv' :: rest =>
      if String.leb (fst kv) (fst kv') then kv :: l
      else kv' :: insert_by_key kv rest
  end.

Definition sorted_items {V : Type} (d : dict string V) : list (string * V) :=
  List.fold_right insert_by_key [] d.

(** [l[-n:]] *)
Definition last_n {A : Type} (n : nat) (l : list A) : list A :=
  List.skipn (List.length l - n) l.

(** [range(n - 1, -1, -1)] *)
Definition range_down (n : nat) : list Z :=
  List.map Z.of_nat (List.rev (List.seq 0 n)).

(** Sequencing of computations that may raise. *)
Definition and_then {A B : Type} (x : exception + A) (k : A -> exception + B)
    : exception + B :=
  match x with
  | inl e => inl e
  | inr a => k a
  end.

(** A loop body run over a list, results collected in order. *)
Fixpoint for_each {A B : Type} (f : A -> exception + B) (l : list A)
    : exception + list B :=
  match l with
  | [] => inr []
  | a :: rest =>
      and_then (f a) (fun b =>
      and_then (for_each f rest) (fun bs => inr (b :: bs)))
  end.

(** ** Reading decimal digits *)

(** The value of a run of decimal digits read after [acc], as [int()]
    accumulates it. *)
Fixpoint uint_value (d : Decimal.uint) (acc : Z) : Z :=
  match d with
  | Decimal.Nil => acc
  | Decimal.D0 l => uint_value l (10 * acc + 0)
  | Decimal.D1 l => uint_value l (10 * acc + 1)
  | Decimal.D2 l => uint_value l (10 * acc + 2)
  | Decimal.D3 l => uint_value l (10 * acc + 3)
  | Decimal.D4 l => uint_value l (10 * acc + 4)
  | Decimal.D5 l => uint_value l (10 * acc + 5)
  | Decimal.D6 l => uint_value l (10 * acc + 6)
  | Decimal.D7 l => uint_value l (10 * acc + 7)
  | Decimal.D8 l => uint_value l (10 * acc + 8)
  | Decimal.D9 l => uint_value l (10 * acc + 9)
  end.

(** The decimal digit [k] written in front of the digits [rest]. *)
Definition digit_uint (k : Z) (rest : Decimal.uint) : Decimal.uint :=
  match k with
  | 0 => Decimal.D0 rest
  | 1 => Decimal.D1 rest
  | 2 => Decimal.D2 rest
  | 3 => Decimal.D3 rest
  | 4 => Decimal.D4 rest
  | 5 => Decimal.D5 rest
  | 6 => Decimal.D6 rest
  | 7 => Decimal.D7 rest
  | 8 => Decimal.D8 rest
  | _ => Decimal.D9 rest
  end.

(** The order in which [sorted] leaves the items of a dict: by key. *)
Definition key_le {V : Type} (a b : string * V) : Prop :=
  String.leb (fst a) (fst b) = true.

(** ** [datetime.strptime] with the format ['%Y-%m-%d'] *)

(** The value of a digit character. *)
Definition digit_value (c : ascii) : Z := code c - 48.

Definition in_range (lo hi : Z) (c : ascii) : bool :=
  (lo <=? code c) && (code c <=? hi).

(** The month of ['%m']: [1[0-2]|0[1-9]|[1-9]], then the dash. *)
Definition strptime_month (cs : list ascii) : option (Z * list ascii) :=
  match cs with
  | a :: b :: dash :: rest =>
      if (code dash =? 45)
         && (((code a =? 49) && in_range 48 50 b)
             || ((code a =? 48) && in_range 49 57 b))
      then Some (10 * digit_value a + digit_value b, rest)
      else if in_range 49 57 a && (code b =? 45)
      then Some (digit_value a, dash :: rest)
      else None
  | [a; dash] =>
      if in_range 49 57 a && (code dash =? 45)
      then Some (digit_value a, [])
      else None
  | _ => None
  end.

(** The day of ['%d']: [3[01]|[12]\d|0[1-9]|[1-9]| [1-9]], then the end of
    the text. *)
Definition strptime_day (cs : list ascii) : option Z :=
  match cs with
  | [a; b] =>
      if ((code a =? 51) && in_range 48 49 b)
         || (in_range 49 50 a && is_digit b)
         || ((code a =? 48) && in_range 49 57 b)
      then Some (10 * digit_value a + digit_value b)
      else if (code a =? 32) && in_range 49 57 b
      then Some (digit_value b)
      else None
  | [a] => if in_range 49 57 a then Some (digit_value a) else None
  | _ => None
  end.

(** [datetime.strptime(s, '%Y-%m-%d')]: four digits, a dash, the month, a
    dash, the day; [ValueError] when the text does not match, or when the
    date does not exist. *)
Definition strptime_Ymd (s : string) : exception + datetime :=
  match list_ascii_of_string s with
  | y1 :: y2 :: y3 :: y4 :: dash :: rest =>
      if is_digit y1 && is_digit y2 && is_digit y3 && is_digit y4
         && (code dash =? 45)
      then
        match strptime_month rest with
        | Some (m, rest') =>
            match strptime_day rest' with
            | Some d =>
                datetime_ymd
                  (1000 * digit_value y1 + 100 * digit_value y2
                   + 10 * digit_value y3 + digit_value y4) m d
            | None => inl ValueError
            end
        | None => inl ValueError
        end
      else inl ValueError
  | _ => inl ValueError
  end.

(** [bool(s)] for an optional string. *)
Definition truthy (s : option string) : bool :=
  match s with
  | Some t => negb (String.eqb t "")
  | None => false
  end.

End Py.

(* ===================================================================== *)
(** * The application                                                     *)
(* ===================================================================== *)

Module Mall.

Open Scope string_scope.
Open Scope Z_scope.

(** ** Models *)

Module Product.
Record t : Type := mk {
  id : Z;
  name : string;
  barcode : string;
  price : float;
  stock : Z;
  low_stock : bool;
  image_url : option string
}.
End Product.

Module Order.
Record t : Type := mk {
  id : Z;
  cashier_id : Z;
  total : float;
  paid_cash : float;
  change_due : float;
  created_at : Py.datetime;
  payment_method : string
}.
End Order.

Module OrderItem.
Record t : Type := mk {
  id : Z;
  order_id : Z;
  product_id : Z;
  quantity : Z;
  unit_price : float
}.
End OrderItem.

Module PromoCode.
Record t : Type := mk {
  id : Z;
  code : string;
  discount_type : string;
  discount_value : float;
  active : bool;
  expires_at : option Py.datetime
}.
End PromoCode.

(** The four tables the handlers touch, rows in primary-key order. *)
Record database : Type := mk_database {
  products : list Product.t;
  orders : list Order.t;
  order_items : list OrderItem.t;
  promocodes : list PromoCode.t
}.

(** [session["cart"]]: product id as text (or [None]) to quantity. *)
Definition cart : Type := Py.dict (option string) Z.

(** ** Responses *)

(** One line of the POS page (the dict appended to [items]). *)
Record cart_line : Type := mk_cart_line {
  line_id : Z;
  line_name : string;
  line_barcode : string;
  line_price : float;
  line_qty : Z;
  line_stock : Z;
  line_total : float
}.

(** The values [pos] hands to [pos.html] (the quick-add product list and
    its search text are left out). *)
Record pos_page : Type := mk_pos_page {
  items : list cart_line;
  subtotal : float;
  promo_code : string;
  promo_discount : float;
  total_after_discount : float
}.

Inductive response : Type :=
| redirect_pos (promo : option string)
| redirect_receipt (order_id : Z)
| render_pos (page : pos_page)
| abort (status : Z).

(** ** Handler computations

    A handler runs against the SQLAlchemy session ([working]: the rows as
    its queries see them, pending changes included), the committed
    database, the session cart and the flashed messages.  It ends with a
    value, with an early [return] of a response, or with an exception. *)

Record hstate : Type := mk_hstate {
  committed : database;
  working : database;
  session_cart : option cart;
  flashes : list (string * string)
}.

Inductive result (A : Type) : Type :=
| Val (a : A)
| Return (r : response)
| Raise (e : Py.exception).
Arguments Val {A} a.
Arguments Return {A} r.
Arguments Raise {A} e.

Definition H (A : Type) : Type := hstate -> result A * hstate.

Definition ret {A : Type} (a : A) : H A := fun st => (Val a, st).

Definition bind {A B : Type} (c : H A) (k : A -> H B) : H B :=
  fun st =>
    match c st with
    | (Val a, st') => k a st'
    | (Return r, st') => (Return r, st')
    | (Raise e, st') => (Raise e, st')
    end.

Notation "x <- c ;; k" := (bind c (fun x => k))
  (at level 61, c at next level, right associativity).
Notation "' pat <- c ;; k" := (bind c (fun x => match x with pat => k end))
  (at level 61, pat pattern, c at next level, right associativity).
Notation "c ;;; k" := (bind c (fun _ => k))
  (at level 61, right associativity).

(** [return r] *)
Definition return_ {A : Type} (r : response) : H A := fun st => (Return r, st).

(** A builtin that may raise. *)
Definition lift {A : Type} (x : Py.exception + A) : H A :=
  fun st => match x with inl e => (Raise e, st) | inr a => (Val a, st) end.

(** [flash(message, category)] *)
Definition flash (message category : string) : H unit :=
  fun st =>
    (Val tt, mk_hstate (committed st) (working st) (session_cart st)
               (flashes st ++ [(message, category)])%list).

(** [get_cart()]: [session.setdefault("cart", {})] *)
Definition get_cart : H cart :=
  fun st =>
    match session_cart st with
    | Some c => (Val c, st)
    | None => (Val [], mk_hstate (committed st) (working st) (Some []) (flashes st))
    end.

(** [set_cart(cart)] *)
Definition set_cart (c : cart) : H unit :=
  fun st => (Val tt, mk_hstate (committed st) (working st) (Some c) (flashes st)).

(** Read and update the rows of the SQLAlchemy session. *)
Definition query : H database := fun st => (Val (working st), st).

Definition update (f : database -> database) : H unit :=
  fun st =>
    (Val tt, mk_hstate (committed st) (f (working st)) (session_cart st) (flashes st)).

(** [db.session.commit()] *)
Definition commit : H unit :=
  fun st =>
    (Val tt, mk_hstate (working st) (working st) (session_cart st) (flashes st)).

Definition raise {A : Type} (e : Py.exception) : H A := fun st => (Raise e, st).

(** ** Queries *)

(** [Product.query.get(i)] *)
Definition Product_get (rows : list Product.t) (i : Z) : option Product.t :=
  List.find (fun p => Product.id p =? i) rows.

(** [Product.query.filter_by(barcode=code).first()] *)
Definition Product_by_barcode (rows : list Product.t) (code : string)
    : option Product.t :=
  List.find (fun p => String.eqb (Product.barcode p) code) rows.

(** [PromoCode.query.filter_by(code=code, active=True).first()] *)
Definition PromoCode_active (rows : list PromoCode.t) (code : string)
    : option PromoCode.t :=
  List.find
    (fun pc => String.eqb (PromoCode.code pc) code && PromoCode.active pc) rows.

(** Assignment to an attribute of the row that [Product.query.get(i)]
    returned. *)
Fixpoint Product_set (rows : list Product.t) (i : Z) (f : Product.t -> Product.t)
    : list Product.t :=
  match rows with
  | [] => []
  | p :: rest =>
      if Product.id p =? i then f p :: rest else p :: Product_set rest i f
  end.

Definition with_stock (v : Z) (p : Product.t) : Product.t :=
  Product.mk (Product.id p) (Product.name p) (Product.barcode p)
    (Product.price p) v (Product.low_stock p) (Product.image_url p).

Definition with_low_stock (v : bool) (p : Product.t) : Product.t :=
  Product.mk (Product.id p) (Product.name p) (Product.barcode p)
    (Product.price p) (Product.stock p) v (Product.image_url p).

Definition with_products (f : list Product.t -> list Product.t) (db : database)
    : database :=
  mk_database (f (products db)) (orders db) (order_items db) (promocodes db).

(** The primary key given to a new row. *)
Definition next_id (ids : list Z) : Z := 1 + List.fold_right Z.max 0 ids.

(** [db.session.add(order)] followed by [flush()]. *)
Definition add_order (o : Order.t) (db : database) : database :=
  mk_database (products db) (orders db ++ [o])%list (order_items db)
    (promocodes db).

(** [db.session.add(OrderItem(...))] *)
Definition add_order_item (order_id product_id quantity : Z) (unit_price : float)
    (db : database) : database :=
  let it :=
    OrderItem.mk (next_id (List.map OrderItem.id (order_items db)))
      order_id product_id quantity unit_price in
  mk_database (products db) (orders db) (order_items db ++ [it])%list
    (promocodes db).

(** ** Request helpers *)

(** [int(pid)] for a cart key. *)
Definition int_of_key (k : option string) : Py.exception + Z :=
  match k with
  | Some s => Py.int s
  | None => inl Py.TypeError
  end.

(** [int(request.form.get(name))] and [int(request.form.get(name, d))]. *)
Definition form_int (field : option string) (default : option Z)
    : Py.exception + Z :=
  match field, default with
  | Some s, _ => Py.int s
  | None, Some d => inr d
  | None, None => inl Py.TypeError
  end.

(** [request.form.get(name, default)] *)
Definition form_get (field : option string) (default : string) : string :=
  match field with
  | Some s => s
  | None => default
  end.

Definition nonempty (s : string) : bool := negb (String.eqb s "").

(** ** Promo codes (the same lines in [pos] and in [checkout]) *)

(** [pc.expires_at is None or pc.expires_at >= datetime.utcnow()] *)
Definition not_expired (pc : PromoCode.t) (now : Py.datetime) : bool :=
  match PromoCode.expires_at pc with
  | None => true
  | Some t => Py.datetime_ge t now
  end.

Definition discount_of (pc : PromoCode.t) (subtotal : float) : float :=
  if String.eqb (PromoCode.discount_type pc) "percent"
  then Py.round (subtotal * (PromoCode.discount_value pc / 100)) 2
  else Py.min subtotal (PromoCode.discount_value pc).

(** ** Cashier: POS *)

Record pos_form : Type := mk_pos_form {
  action : option string;
  form_barcode : option string;
  form_pid : option string;
  form_qty : option string
}.

(** [cart[k] = cart.get(k, 0) + 1; set_cart(cart)].  The handlers change
    the dict of the session in place and store it back at once; here the
    new dict is stored. *)
Definition cart_add (c : cart) (k : option string) : cart :=
  Py.dict_set c k (Py.dict_get_default c k 0 + 1).

Definition mark_low (form : pos_form) (v : bool) (word : string) : H unit :=
  pid <- lift (form_int (form_pid form) None) ;;
  db <- query ;;
  match Product_get (products db) pid with
  | None => return_ (abort 404)
  | Some product =>
      update (with_products (fun rows => Product_set rows pid (with_low_stock v))) ;;;
      commit ;;;
      flash (word ++ " '" ++ Product.name product ++
             (if v then "' as low stock." else "' from low stock.")) "info"
  end.

(** [action == name], where [action] may be [None]. *)
Definition action_is (form : pos_form) (name : string) : bool :=
  match action form with
  | Some a => String.eqb a name
  | None => false
  end.

(** [pos] on a POST request. *)
Definition pos_post (form : pos_form) : H response :=
  cart <- get_cart ;;
  (if action_is form "add_by_barcode" then
     let code := Py.strip (form_get (form_barcode form) "") in
     if nonempty code then
       db <- query ;;
       match Product_by_barcode (products db) code with
       | None => flash "Product not found." "danger"
       | Some product =>
           set_cart (cart_add cart (Some (Py.str (Product.id product))))
       end
     else flash "Scan or enter a barcode." "warning"
   else if action_is form "update_qty" then
     let pid := form_pid form in
     n <- lift (form_int (form_qty form) (Some 1)) ;;
     let qty := Z.max 0 n in
     if qty =? 0 then set_cart (Py.dict_pop cart pid)
     else set_cart (Py.dict_set cart pid qty)
   else if action_is form "clear" then set_cart []
   else if action_is form "mark_low" then mark_low form true "Marked"
   else if action_is form "unmark_low" then mark_low form false "Unmarked"
   else if action_is form "add_by_id" then
     pid <- lift (form_int (form_pid form) None) ;;
     db <- query ;;
     match Product_get (products db) pid with
     | Some product =>
         set_cart (cart_add cart (Some (Py.str (Product.id product))))
     | None => ret tt
     end
   else ret tt) ;;;
  ret (redirect_pos None).

(** The loop building the detailed cart of the POS page. *)
Fixpoint pos_lines (entries : cart) (items : list cart_line) (subtotal : float)
    : H (list cart_line * float) :=
  match entries with
  | [] => ret (items, subtotal)
  | (pid, qty) :: rest =>
      i <- lift (int_of_key pid) ;;
      db <- query ;;
      match Product_get (products db) i with
      | Some product =>
          line_total <- lift (Py.mul_int (Product.price product) qty) ;;
          pos_lines rest
            (items ++ [mk_cart_line (Product.id product) (Product.name product)
                         (Product.barcode product) (Product.price product) qty
                         (Product.stock product) line_total])%list
            (subtotal + line_total)%float
      | None => pos_lines rest items subtotal
      end
  end.

(** The promo code block of [pos]: a code that cannot be used is flashed
    and the page goes on without a discount. *)
Definition pos_promo (now : Py.datetime) (promo_code : string) (subtotal : float)
    : H float :=
  if nonempty promo_code then
    db <- query ;;
    match PromoCode_active (promocodes db) promo_code with
    | Some pc =>
        if not_expired pc now then ret (discount_of pc subtotal)
        else flash "Invalid or expired promo code." "warning" ;;; ret 0%float
    | None => flash "Invalid or expired promo code." "warning" ;;; ret 0%float
    end
  else ret 0%float.

(** [pos] on a GET request; [promo] is [request.args.get('promo')]. *)
Definition pos_get (now : Py.datetime) (promo : option string) : H response :=
  cart <- get_cart ;;
  '(items, subtotal) <- pos_lines cart [] 0%float ;;
  let promo_code := Py.upper (Py.strip (form_get promo "")) in
  promo_discount <- pos_promo now promo_code subtotal ;;
  let total_after_discount :=
    Py.max 0 (Py.round (subtotal - promo_discount) 2) in
  ret (render_pos
         (mk_pos_page items subtotal promo_code promo_discount total_after_discount)).

(** ** Checkout *)

Record checkout_form : Type := mk_checkout_form {
  form_payment_method : option string;
  form_promo_code : option string;
  (** the text of [paid_cash] as [float()] reads it; [None]: field missing *)
  form_paid_cash : option (Py.exception + float)
}.

(** [float(request.form.get("paid_cash", 0.0))] *)
Definition tendered (form : checkout_form) : Py.exception + float :=
  match form_paid_cash form with
  | Some parsed => parsed
  | None => inr 0%float
  end.

(** The first loop of [checkout]: stock validation and subtotal. *)
Fixpoint checkout_totals (entries : cart) (subtotal : float) : H float :=
  match entries with
  | [] => ret subtotal
  | (pid, qty) :: rest =>
      i <- lift (int_of_key pid) ;;
      db <- query ;;
      match Product_get (products db) i with
      | None =>
          flash "Insufficient stock for Unknown" "danger" ;;;
          return_ (redirect_pos None)
      | Some product =>
          if Product.stock product <? qty then
            flash ("Insufficient stock for " ++ Product.name product) "danger" ;;;
            return_ (redirect_pos None)
          else
            line_total <- lift (Py.mul_int (Product.price product) qty) ;;
            checkout_totals rest (subtotal + line_total)%float
      end
  end.

(** The second loop of [checkout]: order items and stock update. *)
Fixpoint checkout_items (order_id : Z) (entries : cart) : H unit :=
  match entries with
  | [] => ret tt
  | (pid, qty) :: rest =>
      i <- lift (int_of_key pid) ;;
      db <- query ;;
      match Product_get (products db) i with
      | None => raise Py.AttributeError
      | Some product =>
          update (add_order_item order_id (Product.id product) qty
                    (Product.price product)) ;;;
          update (with_products (fun rows =>
                    Product_set rows i (with_stock (Product.stock product - qty)))) ;;;
          checkout_items order_id rest
      end
  end.

(** The promo code block of [checkout]. *)
Definition checkout_promo (now : Py.datetime) (promo_code : string)
    (subtotal : float) : H float :=
  if nonempty promo_code then
    db <- query ;;
    match PromoCode_active (promocodes db) promo_code with
    | Some pc =>
        if not_expired pc now then ret (discount_of pc subtotal)
        else
          flash "Invalid or expired promo code." "warning" ;;;
          return_ (redirect_pos (Some promo_code))
    | None =>
        flash "Invalid or expired promo code." "warning" ;;;
        return_ (redirect_pos (Some promo_code))
    end
  else ret 0%float.

(** The payment block of [checkout]: amount paid and change due. *)
Definition checkout_payment (form : checkout_form)
    (payment_method promo_code : string) (total_due : float)
    : H (float * float) :=
  if String.eqb payment_method "cash" then
    amount_paid <- lift (tendered form) ;;
    if (amount_paid <? total_due)%float then
      flash "Paid amount is less than total." "danger" ;;;
      return_ (redirect_pos (Some promo_code))
    else ret (amount_paid, Py.round (amount_paid - total_due) 2)
  else ret (total_due, 0%float).

(** [checkout]: [cashier] is [current_user.id], [now] the clock read for
    the promo code, [stamp] the clock read when the order row is created. *)
Definition checkout (cashier : Z) (now stamp : Py.datetime) (form : checkout_form)
    : H response :=
  cart <- get_cart ;;
  match cart with
  | [] => flash "Cart is empty." "warning" ;;; return_ (redirect_pos None)
  | _ :: _ =>
      subtotal <- checkout_totals cart 0%float ;;
      let payment_method := form_get (form_payment_method form) "cash" in
      let promo_code := Py.upper (Py.strip (form_get (form_promo_code form) "")) in
      promo_discount <- checkout_promo now promo_code subtotal ;;
      let total_due := Py.max 0 (Py.round (subtotal - promo_discount) 2) in
      '(amount_paid, change_due) <-
        checkout_payment form payment_method promo_code total_due ;;
      db <- query ;;
      let order :=
        Order.mk (next_id (List.map Order.id (orders db))) cashier total_due
          amount_paid change_due stamp payment_method in
      update (add_order order) ;;;
      checkout_items (Order.id order) cart ;;;
      commit ;;;
      set_cart [] ;;;
      ret (redirect_receipt (Order.id order))
  end.

(** ** Serving a request

    The handler starts from the committed database; what it did not commit
    is discarded when the request ends.  An exception becomes a 500 reply. *)

Inductive reply : Type :=
| Replied (r : response)
| ServerError (e : Py.exception).

Record served : Type := mk_served {
  db_after : database;
  session_after : option cart;
  flashed : list (string * string);
  answer : reply
}.

Definition serve (h : H response) (db : database) (session : option cart) : served :=
  let '(res, st) := h (mk_hstate db db session []) in
  mk_served (committed st) (session_cart st) (flashes st)
    match res with
    | Val r | Return r => Replied r
    | Raise e => ServerError e
    end.

(** The cart a handler would read from a session. *)
Definition cart_of (session : option cart) : cart :=
  match session with
  | Some c => c
  | None => []
  end.

(** ** Reports *)

(** One day of [summarize_range].  The source keeps the day under ["date"]
    as its ['%Y-%m-%d'] text and the weekly rollup parses that text back
    with the same format; the entry keeps the date itself. *)
Record day_entry : Type := mk_day_entry {
  entry_date : Py.date;
  entry_total : float;
  entry_orders : Z
}.

(** One point of a weekly or monthly series. *)
Record bucket : Type := mk_bucket {
  label : string;
  total : float;
  orders_count : Z
}.

(** [Order.created_at >= start, Order.created_at < end] *)
Definition created_between (start stop : Py.datetime) (o : Order.t) : bool :=
  Py.datetime_ge (Order.created_at o) start
  && Py.datetime_lt (Order.created_at o) stop.

(** [sum(o.total for o in q)] and [q.count()] *)
Definition total_of (q : list Order.t) : float :=
  Py.sum (List.map Order.total q).
Definition count_of (q : list Order.t) : Z := Z.of_nat (List.length q).

Definition daterange_days (now : Py.datetime) (n : nat)
    : Py.exception + list Py.date :=
  let today := Py.dt_date now in
  Py.for_each (fun i => Py.date_sub_days today i) (Py.range_down n).

Definition summarize_range (now : Py.datetime) (rows : list Order.t) (days : nat)
    : Py.exception + list day_entry :=
  Py.and_then (daterange_days now days) (fun dates =>
  Py.for_each
    (fun day =>
       Py.and_then (Py.datetime_ymd (Py.year day) (Py.month day) (Py.day day))
         (fun start =>
       Py.and_then (Py.datetime_sub_days start (-1)) (fun stop =>
       let q := List.filter (created_between start stop) rows in
       inr (mk_day_entry day (Py.round (total_of q) 2) (count_of q)))))
    dates).

(** The weekly loop: [buckets.setdefault(week, ...)] then the two [+=]. *)
Definition weekly_buckets (raw : list day_entry) : Py.dict string bucket :=
  List.fold_left
    (fun buckets d =>
       let week := Py.strftime_YWU (entry_date d) in
       let b := Py.dict_get_default buckets week (mk_bucket week 0 0) in
       Py.dict_set buckets week
         (mk_bucket (label b) (total b + entry_total d)%float
            (orders_count b + entry_orders d)))
    raw [].

Definition weekly_series (raw : list day_entry) : list bucket :=
  Py.last_n 12
    (List.map
       (fun kv => mk_bucket (fst kv) (Py.round (total (snd kv)) 2)
                    (orders_count (snd kv)))
       (Py.sorted_items (weekly_buckets raw))).

(** The months of the monthly rollup, oldest first. *)
Definition monthly_months (now : Py.datetime) : Py.exception + list (Z * Z) :=
  Py.and_then
    (Py.datetime_ymd (Py.year (Py.dt_date now)) (Py.month (Py.dt_date now)) 1)
    (fun first =>
  Py.for_each
    (fun i =>
       Py.and_then (Py.datetime_sub_days first (30 * i)) (fun m =>
       inr (Py.year (Py.dt_date m), Py.month (Py.dt_date m))))
    (Py.range_down 12)).

Definition month_bucket (rows : list Order.t) (ym : Z * Z)
    : Py.exception + bucket :=
  let '(y, m) := ym in
  Py.and_then (Py.datetime_ymd y m 1) (fun start =>
  Py.and_then
    (if m =? 12 then Py.datetime_ymd (y + 1) 1 1 else Py.datetime_ymd y (m + 1) 1)
    (fun stop =>
  let q := List.filter (created_between start stop) rows in
  inr (mk_bucket (Py.str y ++ "-" ++ Py.fmt02 m) (Py.round (total_of q) 2)
         (count_of q)))).

Definition monthly_series (now : Py.datetime) (rows : list Order.t)
    : Py.exception + list bucket :=
  Py.and_then (monthly_months now) (Py.for_each (month_bucket rows)).

(** The JSON body: [{"range": ..., "series": ...}]. *)
Inductive summary : Type :=
| summary_days (range : string) (series : list day_entry)
| summary_buckets (range : string) (series : list bucket).

(** [admin_sales_summary]; [range_arg] is [request.args.get("range")]. *)
Definition admin_sales_summary (now : Py.datetime) (rows : list Order.t)
    (range_arg : option string) : Py.exception + summary :=
  let range_key := form_get range_arg "daily" in
  if String.eqb range_key "daily" then
    Py.and_then (summarize_range now rows 7) (fun data =>
    inr (summary_days "daily" data))
  else if String.eqb range_key "weekly" then
    Py.and_then (summarize_range now rows 84) (fun raw =>
    inr (summary_buckets "weekly" (weekly_series raw)))
  else if String.eqb range_key "monthly" then
    Py.and_then (monthly_series now rows) (fun series =>
    inr (summary_buckets "monthly" series))
  else
    Py.and_then (summarize_range now rows 7) (fun data =>
    inr (summary_days "daily" data)).


(** ** Admin: promo codes and products *)

(** What an admin handler answers: a redirect to an endpoint, a rendered
    template, or an error status. *)
Inductive admin_response : Type :=
| redirect_to (endpoint : string)
| render_template (template : string)
| aborted (status : Z).

(** [request.form[name]]: a missing field is answered 400. *)
Definition required {A : Type} (field : option A) (k : A -> H admin_response)
    : H admin_response :=
  match field with
  | Some a => k a
  | None => ret (aborted 400)
  end.

(** [PromoCode.query.filter_by(code=code).first()] *)
Definition PromoCode_by_code (rows : list PromoCode.t) (code : string)
    : option PromoCode.t :=
  List.find (fun pc => String.eqb (PromoCode.code pc) code) rows.

(** [PromoCode.query.get(i)] *)
Definition PromoCode_get (rows : list PromoCode.t) (i : Z) : option PromoCode.t :=
  List.find (fun pc => PromoCode.id pc =? i) rows.

(** Assignment to an attribute of the row that [PromoCode.query.get(i)]
    returned. *)
Fixpoint PromoCode_set (rows : list PromoCode.t) (i : Z)
    (f : PromoCode.t -> PromoCode.t) : list PromoCode.t :=
  match rows with
  | [] => []
  | pc :: rest =>
      if PromoCode.id pc =? i then f pc :: rest
      else pc :: PromoCode_set rest i f
  end.

Definition with_active (v : bool) (pc : PromoCode.t) : PromoCode.t :=
  PromoCode.mk (PromoCode.id pc) (PromoCode.code pc) (PromoCode.discount_type pc)
    (PromoCode.discount_value pc) v (PromoCode.expires_at pc).

Definition with_promocodes (f : list PromoCode.t -> list PromoCode.t)
    (db : database) : database :=
  mk_database (products db) (orders db) (order_items db) (f (promocodes db)).

Record promocode_form : Type := mk_promocode_form {
  form_code : option string;
  form_discount_type : option string;
  (** the text of [discount_value] as [float()] reads it *)
  form_discount_value : option (Py.exception + float);
  form_active : option string;
  form_expires_at : option string
}.

(** [promocode_new]; [post] is the form of a POST request, [None] on
    GET. *)
Definition promocode_new (post : option promocode_form) : H admin_response :=
  match post with
  | Some form =>
      required (form_code form) (fun raw =>
      let code := Py.upper (Py.strip raw) in
      required (form_discount_type form) (fun discount_type =>
      required (form_discount_value form) (fun parsed =>
      discount_value <- lift parsed ;;
      let active := Py.truthy (form_active form) in
      let expires_at := form_expires_at form in
      db <- query ;;
      match PromoCode_by_code (promocodes db) code with
      | Some _ =>
          flash "Promo code already exists." "danger" ;;;
          ret (redirect_to "promocode_new")
      | None =>
          exp_dt <-
            (if Py.truthy expires_at
             then t <- lift (Py.strptime_Ymd (form_get expires_at "")) ;; ret (Some t)
             else ret None) ;;
          update (with_promocodes (fun rows =>
            rows ++ [PromoCode.mk (next_id (List.map PromoCode.id rows)) code
                       discount_type discount_value active exp_dt])%list) ;;;
          commit ;;;
          flash "Promo code created." "success" ;;;
          ret (redirect_to "promocodes_list")
      end)))
  | None => ret (render_template "promocode_form.html")
  end.

(** [promocode_toggle(pid)] *)
Definition promocode_toggle (pid : Z) : H admin_response :=
  db <- query ;;
  match PromoCode_get (promocodes db) pid with
  | None => ret (aborted 404)
  | Some pc =>
      update (with_promocodes (fun rows =>
        PromoCode_set rows pid (with_active (negb (PromoCode.active pc))))) ;;;
      commit ;;;
      ret (redirect_to "promocodes_list")
  end.

Record product_form : Type := mk_product_form {
  form_name : option string;
  form_product_barcode : option string;
  (** the text of [price] as [float()] reads it *)
  form_price : option (Py.exception + float);
  form_stock : option string;
  form_image_url : option string
}.

(** [product_new] *)
Definition product_new (post : option product_form) : H admin_response :=
  match post with
  | Some form =>
      required (form_name form) (fun raw_name =>
      let name := Py.strip raw_name in
      required (form_product_barcode form) (fun raw_barcode =>
      let barcode := Py.strip raw_barcode in
      required (form_price form) (fun parsed =>
      price <- lift parsed ;;
      stock <- lift (form_int (form_stock form) (Some 0)) ;;
      let image_url := Py.strip (form_get (form_image_url form) "") in
      db <- query ;;
      match Product_by_barcode (products db) barcode with
      | Some _ =>
          flash "Barcode already exists." "danger" ;;;
          ret (redirect_to "product_new")
      | None =>
          update (with_products (fun rows =>
            rows ++ [Product.mk (next_id (List.map Product.id rows)) name barcode
                       price stock false (Some image_url)])%list) ;;;
          commit ;;;
          flash "Product created." "success" ;;;
          ret (redirect_to "products_list")
      end)))
  | None => ret (render_template "product_form.html")
  end.

(** Serving an admin request: as [serve], without a cart. *)
Record admin_served : Type := mk_admin_served {
  admin_db_after : database;
  admin_flashed : list (string * string);
  admin_answer : result admin_response
}.

Definition serve_admin (h : H admin_response) (db : database) : admin_served :=
  let '(res, st) := h (mk_hstate db db None []) in
  mk_admin_served (committed st) (flashes st) res.

(** ** Vocabulary of the specification

    The quantities the specification speaks about, defined on the rows and
    the cart alone, without the handler state. *)

(** The product a cart key stands for. *)
Definition resolve (rows : list Product.t) (k : option string) : option Product.t :=
  match int_of_key k with
  | inr i => Product_get rows i
  | inl _ => None
  end.

(** [product.price * quantity] of a cart entry. *)
Definition line_amount (rows : list Product.t) (e : option string * Z)
    : option float :=
  match resolve rows (fst e) with
  | Some p =>
      match Py.mul_int (Product.price p) (snd e) with
      | inr a => Some a
      | inl _ => None
      end
  | None => None
  end.

Definition amounts (rows : list Product.t) (c : cart) : list float :=
  List.flat_map
    (fun e => match line_amount rows e with Some a => [a] | None => [] end) c.

(** The subtotal: the line amounts added up, nothing rounded. *)
Definition subtotal_of (rows : list Product.t) (c : cart) : float :=
  Py.sum (amounts rows c).

(** A cart entry passes the stock validation of checkout. *)
Definition sellable (rows : list Product.t) (e : option string * Z) : bool :=
  match resolve rows (fst e), line_amount rows e with
  | Some p, Some _ => snd e <=? Product.stock p
  | _, _ => false
  end.

(** The POS page can show a cart entry: its key reads as an integer and,
    when the product exists, the line total can be computed. *)
Definition viewable (rows : list Product.t) (e : option string * Z) : bool :=
  match int_of_key (fst e) with
  | inl _ => false
  | inr i =>
      match Product_get rows i with
      | Some p =>
          match Py.mul_int (Product.price p) (snd e) with
          | inr _ => true
          | inl _ => false
          end
      | None => true
      end
  end.

(** The promo code as the handlers normalise it. *)
Definition normalized (field : option string) : string :=
  Py.upper (Py.strip (form_get field "")).

(** The promo code a request may use: active, found by its normalised
    code, not expired. *)
Definition usable_promo (rows : list PromoCode.t) (now : Py.datetime)
    (code : string) : option PromoCode.t :=
  match PromoCode_active rows code with
  | Some pc => if not_expired pc now then Some pc else None
  | None => None
  end.

(** The discount of a request: zero without a promo code. *)
Definition discount_for (rows : list PromoCode.t) (now : Py.datetime)
    (field : option string) (subtotal : float) : float :=
  if nonempty (normalized field) then
    match usable_promo rows now (normalized field) with
    | Some pc => discount_of pc subtotal
    | None => 0%float
    end
  else 0%float.

(** [totalDue = max(0, round(subtotal - discount, 2))] *)
Definition total_due_of (subtotal discount : float) : float :=
  Py.max 0 (Py.round (subtotal - discount) 2).

(** The checkout gets as far as the payment: the cart is not empty, every
    entry passes the stock validation, and the promo code, if one is
    given, is usable. *)
Definition reaches_payment (db : database) (c : cart) (now : Py.datetime)
    (form : checkout_form) : bool :=
  match c with [] => false | _ :: _ => true end
  && List.forallb (sellable (products db)) c
  && (negb (nonempty (normalized (form_promo_code form)))
      || match usable_promo (promocodes db) now (normalized (form_promo_code form)) with
         | Some _ => true
         | None => false
         end).

(** The total due of a checkout. *)
Definition total_due_for (db : database) (c : cart) (now : Py.datetime)
    (form : checkout_form) : float :=
  total_due_of (subtotal_of (products db) c)
    (discount_for (promocodes db) now (form_promo_code form)
       (subtotal_of (products db) c)).

(** The order row a checkout creates. *)
Definition new_order (db : database) (cashier : Z) (stamp : Py.datetime)
    (form : checkout_form) (total_due amount_paid change_due : float) : Order.t :=
  Order.mk (next_id (List.map Order.id (orders db))) cashier total_due
    amount_paid change_due stamp (form_get (form_payment_method form) "cash").

(** The payment, in the words of the checkout algorithm: cash must cover
    the total and gives change, any other method pays the total. *)
Definition is_cash (form : checkout_form) : bool :=
  String.eqb (form_get (form_payment_method form) "cash") "cash".

Definition paid_and_change (form : checkout_form) (total_due : float)
    : option (float * float) :=
  if is_cash form then
    match tendered form with
    | inr a =>
        if (a <? total_due)%float then None
        else Some (a, Py.round (a - total_due) 2)
    | inl _ => None
    end
  else Some (total_due, 0%float).

(** A checkout goes through: amount paid and change due. *)
Definition settles (db : database) (c : cart) (now : Py.datetime)
    (form : checkout_form) : option (float * float) :=
  if reaches_payment db c now form
  then paid_and_change form (total_due_for db c now form)
  else None.

(** Two handler states that differ at most in the flashed messages. *)
Definition same_data (st st' : hstate) : Prop :=
  committed st' = committed st /\ working st' = working st
  /\ session_cart st' = session_cart st.

(** The product of a cart entry exists. *)
Definition found (rows : list Product.t) (e : option string * Z) : bool :=
  match resolve rows (fst e) with Some _ => true | None => false end.

(** What the sale of a cart leaves in the database: one order item per
    entry and the stock of its product lowered by the quantity. *)
Fixpoint sold (order_id : Z) (entries : cart) (db : database) : database :=
  match entries with
  | [] => db
  | (pid, qty) :: rest =>
      match resolve (products db) pid with
      | Some p =>
          sold order_id rest
            (with_products
               (fun rows =>
                  Product_set rows (Product.id p) (with_stock (Product.stock p - qty)))
               (add_order_item order_id (Product.id p) qty (Product.price p) db))
      | None => db
      end
  end.

(** The order item a cart entry is sold as: the product the key stands
    for, the quantity of the entry, the price of the product. *)
Definition sale_line (rows : list Product.t) (order_id : Z)
    (e : option string * Z) (it : OrderItem.t) : Prop :=
  exists p,
    resolve rows (fst e) = Some p
    /\ OrderItem.order_id it = order_id
    /\ OrderItem.product_id it = Product.id p
    /\ OrderItem.quantity it = snd e
    /\ OrderItem.unit_price it = Product.price p.

(** The quantity of product [j] in a cart: the entries whose key stands
    for [j], added up. *)
Definition sold_qty (rows : list Product.t) (entries : cart) (j : Z) : Z :=
  List.fold_right
    (fun e acc =>
       match resolve rows (fst e) with
       | Some p => if Product.id p =? j then snd e + acc else acc
       | None => acc
       end)
    0 entries.

(** The product identifiers the cart entries stand for. *)
Definition cart_product_ids (rows : list Product.t) (entries : cart)
    : list (option Z) :=
  List.map (fun e => option_map Product.id (resolve rows (fst e))) entries.

(** Sum of [unit_price * quantity] over order items, in row order. *)
Fixpoint items_total (its : list OrderItem.t) (acc : float) : option float :=
  match its with
  | [] => Some acc
  | it :: rest =>
      match Py.mul_int (OrderItem.unit_price it) (OrderItem.quantity it) with
      | inr a => items_total rest (acc + a)%float
      | inl _ => None
      end
  end.

(** The cart a POST to [pos] leaves, in the words of the cart contract:
    [add] for the two add actions, [setQuantity] for [update_qty], and
    [clear]. *)
Definition cart_after (form : pos_form) (rows : list Product.t) (c : cart) : cart :=
  if action_is form "add_by_barcode" then
    match Product_by_barcode rows (Py.strip (form_get (form_barcode form) "")) with
    | Some p =>
        if nonempty (Py.strip (form_get (form_barcode form) ""))
        then cart_add c (Some (Py.str (Product.id p)))
        else c
    | None => c
    end
  else if action_is form "update_qty" then
    match form_int (form_qty form) (Some 1) with
    | inr n =>
        if 0 <? n then Py.dict_set c (form_pid form) n
        else Py.dict_pop c (form_pid form)
    | inl _ => c
    end
  else if action_is form "clear" then []
  else if action_is form "mark_low" then c
  else if action_is form "unmark_low" then c
  else if action_is form "add_by_id" then
    match form_int (form_pid form) None with
    | inr i =>
        match Product_get rows i with
        | Some p => cart_add c (Some (Py.str (Product.id p)))
        | None => c
        end
    | inl _ => c
    end
  else c.

(** A dict holds a key once. *)
Definition keys_unique (c : cart) : Prop := NoDup (List.map fst c).

(** The cart invariant: every quantity present is positive. *)
Definition cart_ok (c : cart) : Prop := Forall (fun e => 0 < snd e) c.

(** An order was created in the calendar month [m] of year [y]. *)
Definition in_month (y m : Z) (o : Order.t) : bool :=
  (Py.year (Py.dt_date (Order.created_at o)) =? y)
  && (Py.month (Py.dt_date (Order.created_at o)) =? m).

(** The month after [(y, m)]. *)
Definition next_month (ym : Z * Z) : Z * Z :=
  if snd ym =? 12 then (fst ym + 1, 1) else (fst ym, snd ym + 1).

(** Twelve consecutive calendar months ending with [(y, m)]. *)
Fixpoint consecutive_until (months : list (Z * Z)) (last : Z * Z) : Prop :=
  match months with
  | [] => False
  | [ym] => ym = last
  | ym :: ((ym' :: _) as rest) => next_month ym = ym' /\ consecutive_until rest last
  end.

(** The first day of the current month, and the month that lies
    [30 * i] days before it. *)
Definition first_of_month (now : Py.datetime) : Py.date :=
  Py.mk_date (Py.year (Py.dt_date now)) (Py.month (Py.dt_date now)) 1.

Definition month_back (now : Py.datetime) (i : Z) : Z * Z :=
  let d := Py.ord2ymd (Py.ymd2ord (first_of_month now) - 30 * i) in
  (Py.year d, Py.month d).

(** The bucket of a calendar month: its label, the total of the orders
    created in it, rounded, and their number. *)
Definition bucket_of_month (rows : list Order.t) (ym : Z * Z) : bucket :=
  mk_bucket (Py.str (fst ym) ++ "-" ++ Py.fmt02 (snd ym))
    (Py.round (total_of (List.filter (in_month (fst ym) (snd ym)) rows)) 2)
    (count_of (List.filter (in_month (fst ym) (snd ym)) rows)).

(** The entry of a day: the orders created from its midnight to the
    next. *)
Definition entry_of_day (rows : list Order.t) (d : Py.date) : day_entry :=
  let start := Py.mk_datetime d 0 0 0 0 in
  let stop := Py.mk_datetime (Py.ord2ymd (Py.ymd2ord d + 1)) 0 0 0 0 in
  mk_day_entry d
    (Py.round (total_of (List.filter (created_between start stop) rows)) 2)
    (count_of (List.filter (created_between start stop) rows)).

(** The day [i] days before today. *)
Definition day_back (now : Py.datetime) (i : Z) : Py.date :=
  Py.ord2ymd (Py.ymd2ord (Py.dt_date now) - i).

(** The ISO 8601 week label [YYYY-Www]: weeks start on Monday and week 1
    is the week of the year's first Thursday ([date.isocalendar()]). *)
Definition iso_week1_monday (y : Z) : Z :=
  let firstday := Py.ymd2ord (Py.mk_date y 1 1) in
  let firstweekday := (firstday + 6) mod 7 in
  let week1monday := firstday - firstweekday in
  if 3 <? firstweekday then week1monday + 7 else week1monday.

Definition iso_year_week (d : Py.date) : Z * Z :=
  let y := Py.year d in
  let today := Py.ymd2ord d in
  let week := (today - iso_week1_monday y) / 7 in
  if week <? 0 then (y - 1, (today - iso_week1_monday (y - 1)) / 7 + 1)
  else if (52 <=? week) && (iso_week1_monday (y + 1) <=? today) then (y + 1, 1)
  else (y, week + 1).

Definition iso_week_label (d : Py.date) : string :=
  Py.str (fst (iso_year_week d)) ++ "-W" ++ Py.fmt02 (snd (iso_year_week d)).

(** ** Further vocabulary: catalogue, POS page, reports, cart keys *)

(** What the catalogue says of a product, the stock apart. *)
Definition listing (p : Product.t)
    : Z * string * string * float * bool * option string :=
  (Product.id p, Product.name p, Product.barcode p, Product.price p,
   Product.low_stock p, Product.image_url p).

(** The product rows with the low-stock flag left out. *)
Definition unflagged (p : Product.t)
    : Z * string * string * float * Z * option string :=
  (Product.id p, Product.name p, Product.barcode p, Product.price p,
   Product.stock p, Product.image_url p).

(** The line of the POS page for a cart entry: none when the product does
    not exist. *)
Definition page_line (rows : list Product.t) (e : option string * Z)
    : list cart_line :=
  match resolve rows (fst e), line_amount rows e with
  | Some p, Some a =>
      [mk_cart_line (Product.id p) (Product.name p) (Product.barcode p)
         (Product.price p) (snd e) (Product.stock p) a]
  | _, _ => []
  end.

Definition page_lines (rows : list Product.t) (c : cart) : list cart_line :=
  List.flat_map (page_line rows) c.

(** The name the stock validation of checkout complains about, if the
    entry fails it. *)
Definition short_of (rows : list Product.t) (e : option string * Z)
    : option string :=
  match int_of_key (fst e) with
  | inr i =>
      match Product_get rows i with
      | None => Some "Unknown"
      | Some p => if Product.stock p <? snd e then Some (Product.name p) else None
      end
  | inl _ => None
  end.

(** An order was created on the calendar day [d]. *)
Definition on_day (d : Py.date) (o : Order.t) : bool :=
  (Py.year (Py.dt_date (Order.created_at o)) =? Py.year d)
  && (Py.month (Py.dt_date (Order.created_at o)) =? Py.month d)
  && (Py.day (Py.dt_date (Order.created_at o)) =? Py.day d).

(** The entry of a day in the words of the report: the orders created on
    that calendar day, their total rounded and their number. *)
Definition entry_on_day (rows : list Order.t) (d : Py.date) : day_entry :=
  mk_day_entry d
    (Py.round (total_of (List.filter (on_day d) rows)) 2)
    (count_of (List.filter (on_day d) rows)).

(** An order was created on one of the [n] days that end today. *)
Definition in_last_days (now : Py.datetime) (n : nat) (o : Order.t) : bool :=
  let today := Py.ymd2ord (Py.dt_date now) in
  let created := Py.ymd2ord (Py.dt_date (Order.created_at o)) in
  (today - Z.of_nat n <? created) && (created <=? today).

(** The [n] consecutive day ordinals that end with [t]. *)
Definition ordinals_until (t : Z) (n : nat) : list Z :=
  List.map (fun k => t - Z.of_nat n + 1 + Z.of_nat k) (List.seq 0 n).

(** The orders of a series of days, added up. *)
Definition orders_total (entries : list day_entry) : Z :=
  List.fold_right Z.add 0 (List.map entry_orders entries).

(** The orders of a list of buckets, added up. *)
Definition buckets_orders (bs : list bucket) : Z :=
  List.fold_right Z.add 0 (List.map orders_count bs).

(** The weekly buckets sorted by label, before [[-12:]] cuts the list. *)
Definition weekly_sorted (raw : list day_entry) : list bucket :=
  List.map
    (fun kv => mk_bucket (fst kv) (Py.round (total (snd kv)) 2)
                 (orders_count (snd kv)))
    (Py.sorted_items (weekly_buckets raw)).

(** Labels in strictly ascending order. *)
Definition label_lt (a b : bucket) : Prop := String.ltb (label a) (label b) = true.

(** A cart key as the add actions write it: the decimal text [str(i)] of
    an integer. *)
Definition canonical_key (k : option string) : bool :=
  match k with
  | Some s =>
      match Py.int s with
      | inr i => String.eqb (Py.str i) s
      | inl _ => false
      end
  | None => false
  end.

Definition canonical (c : cart) : Prop :=
  Forall (fun e => canonical_key (fst e) = true) c.

(** An identifier [int()] reads back from its text. *)
Definition printable (i : Z) : Prop := Z.abs i < 10 ^ Py.int_max_str_digits.

(** The expiry a promo code form asks for: none when the field is missing
    or empty, else the midnight that starts the day written. *)
Definition expiry_of (field : option string)
    : Py.exception + option Py.datetime :=
  if Py.truthy field
  then Py.and_then (Py.strptime_Ymd (form_get field "")) (fun t => inr (Some t))
  else inr None.

(** The row [promocode_new] adds for a form. *)
Definition new_promocode (rows : list PromoCode.t) (form : promocode_form)
    (discount_type : string) (discount_value : float)
    (exp_dt : option Py.datetime) : PromoCode.t :=
  PromoCode.mk (next_id (List.map PromoCode.id rows))
    (normalized (form_code form)) discount_type discount_value
    (Py.truthy (form_active form)) exp_dt.

(** The time of day is midnight. *)
Definition at_midnight (t : Py.datetime) : bool :=
  (Py.hour t =? 0) && (Py.minute t =? 0) && (Py.second t =? 0)
  && (Py.microsecond t =? 0).

(** The row [product_new] adds for a form. *)
Definition new_product (rows : list Product.t) (form : product_form)
    (price : float) (stock : Z) : Product.t :=
  Product.mk (next_id (List.map Product.id rows))
    (Py.strip (form_get (form_name form) ""))
    (Py.strip (form_get (form_product_barcode form) ""))
    price stock false
    (Some (Py.strip (form_get (form_image_url form) ""))).

(** ** Sample data

    A small shop used to run the handlers on concrete requests. *)

Definition sample_now : Py.datetime :=
  Py.mk_datetime (Py.mk_date 2024 3 15) 10 0 0 0.

Definition sample_products : list Product.t :=
  [Product.mk 1 "Shirt" "CLOTH001" 100 5 false None;
   Product.mk 2 "Pen" "STAT001" 0.1 5 false None;
   Product.mk 3 "Gum" "FOOD001" 0.7 5 false None].

Definition sample_promocodes : list PromoCode.t :=
  [PromoCode.mk 1 "SAVE10" "percent" 10 true None;
   PromoCode.mk 2 "FLAT100" "fixed" 100 true None;
   PromoCode.mk 3 "BIG" "percent" 150 true None;
   PromoCode.mk 4 "NEG" "fixed" (-5) true None;
   PromoCode.mk 5 "TODAY" "percent" 100 true (Some sample_now);
   PromoCode.mk 6 "OLD" "percent" 10 true
     (Some (Py.mk_datetime (Py.mk_date 2024 3 15) 9 59 59 999999))].

Definition sample_db : database :=
  mk_database sample_products [] [] sample_promocodes.

(** Two shirts. *)
Definition sample_cart : cart := [(Some "1", 2)].

(** A pen and a gum: 0.1 + 0.7 is 0.7999999999999999 in binary64. *)
Definition small_cart : cart := [(Some "2", 1); (Some "3", 1)].

(** Three shirts under the key ["1"] and three more under ["01"], as
    [update_qty] stores them when it is sent [pid=01]. *)
Definition alias_cart : cart := [(Some "1", 3); (Some "01", 3)].

(** An order of 29 February 2024. *)
Definition sample_orders : list Order.t :=
  [Order.mk 1 7 20.25 20.25 0
     (Py.mk_datetime (Py.mk_date 2024 2 29) 12 0 0 0) "card"].

Definition pay_by (method : string) (promo : option string) : checkout_form :=
  mk_checkout_form (Some method) promo None.

Definition pay_cash (amount : float) (promo : option string) : checkout_form :=
  mk_checkout_form None promo (Some (inr amount)).

End Mall.

(* ===================================================================== *)
(** * Facts about the runtime                                             *)
(* ===================================================================== *)

Module PyFacts.

(** ** Order of floats, from the specification of the primitives *)

Section FloatOrder.

Local Open Scope float_scope.

Lemma ltb_leb (a b : float) : (a <? b) = true -> (a <=? b) = true.
Proof.
  rewrite ltb_spec, leb_spec. unfold SFltb, SFleb.
  destruct (SFcompare (Prim2SF a) (Prim2SF b)) as [[ | | ] | ]; congruence.
Qed.

(** A value that compares with anything is not NaN. *)
Lemma compare_self (x y : spec_float) (c : comparison) :
  SFcompare y x = Some c -> SFcompare x x = Some Eq.
Proof.
  destruct x as [s | s | | s m e]; simpl.
  - reflexivity.
  - destruct s; reflexivity.
  - destruct y; discriminate.
  - intros _. destruct s; rewrite Z.compare_refl, Pos.compare_cont_refl;
      reflexivity.
Qed.

Lemma leb_self (x y : float) : (y <=? x) = true -> (x <=? x) = true.
Proof.
  rewrite !leb_spec. unfold SFleb.
  destruct (SFcompare (Prim2SF y) (Prim2SF x)) as [c | ] eqn:E; [ | discriminate].
  intros _. now rewrite (compare_self _ _ _ E).
Qed.

(** Subtracting a positive zero changes nothing, signed zeros and NaN
    included. *)
Lemma sub_zero (x : float) : x - 0 = x.
Proof.
  apply Prim2SF_inj. rewrite sub_spec.
  change (Prim2SF 0) with (S754_zero false).
  destruct (Prim2SF x) as [[ | ] | [ | ] | | s m e]; reflexivity.
Qed.

Lemma min_bounds (s v : float) :
  (0 <=? s) = true -> (0 <=? v) = true ->
  (0 <=? Py.min s v) = true /\ (Py.min s v <=? s) = true.
Proof.
  intros Hs Hv. unfold Py.min.
  destruct (v <? s) eqn:E.
  - split; [assumption | now apply ltb_leb].
  - split; [assumption | now apply leb_self with (y := 0)].
Qed.

End FloatOrder.

(** ** The calendar *)

Section Calendar.

Lemma days_before_year_step (y : Z) :
  Py.days_before_year (y + 1)
  = Py.days_before_year y + (if Py.is_leap y then 366 else 365).
Proof.
  unfold Py.days_before_year, Py.is_leap. cbv zeta.
  replace (y + 1 - 1) with y by lia.
  destruct (Z.eqb_spec (y mod 4) 0), (Z.eqb_spec (y mod 100) 0),
    (Z.eqb_spec (y mod 400) 0); simpl; Z.div_mod_to_equations; lia.
Qed.

Lemma days_before_year_mono (y y' : Z) :
  y <= y' -> Py.days_before_year y <= Py.days_before_year y'.
Proof.
  unfold Py.days_before_year. cbv zeta. intros H. Z.div_mod_to_equations. lia.
Qed.


Lemma days_before_year_parts (n400 n100 n4 n1 : Z) :
  0 <= n400 -> 0 <= n100 <= 3 -> 0 <= n4 <= 24 -> 0 <= n1 <= 3 ->
  Py.days_before_year (n400 * 400 + 1 + n100 * 100 + n4 * 4 + n1)
  = 146097 * n400 + 36524 * n100 + 1461 * n4 + 365 * n1.
Proof.
  intros H400 H100 H4 H1. unfold Py.days_before_year. cbv zeta.
  Z.div_mod_to_equations. lia.
Qed.

Lemma is_leap_parts (n400 n100 n4 n1 : Z) :
  0 <= n400 -> 0 <= n100 <= 3 -> 0 <= n4 <= 24 -> 0 <= n1 <= 3 ->
  Py.is_leap (n400 * 400 + 1 + n100 * 100 + n4 * 4 + n1)
  = (n1 =? 3) && (negb (n4 =? 24) || (n100 =? 3)).
Proof.
  intros H400 H100 H4 H1. unfold Py.is_leap.
  set (y := n400 * 400 + 1 + n100 * 100 + n4 * 4 + n1).
  destruct (Z.eqb_spec (y mod 4) 0), (Z.eqb_spec (y mod 100) 0),
    (Z.eqb_spec (y mod 400) 0), (Z.eqb_spec n1 3), (Z.eqb_spec n4 24),
    (Z.eqb_spec n100 3); simpl; try reflexivity; exfalso; subst y;
    Z.div_mod_to_equations; lia.
Qed.


Ltac split_divmod a b q r :=
  let E := fresh "E" in
  let B := fresh "B" in
  pose proof (Z.div_mod a b ltac:(lia)) as E;
  pose proof (Z.mod_pos_bound a b ltac:(lia)) as B;
  generalize dependent (a / b); intros q;
  generalize dependent (a mod b); intros r; intros.

Lemma ord2ymd_spec (n : Z) (d : Py.date) :
  1 <= n ->
  Py.ord2ymd n = d ->
  1 <= Py.year d
  /\ 1 <= Py.month d <= 12
  /\ 1 <= Py.day d <= Py.days_in_month (Py.year d) (Py.month d)
  /\ Py.ymd2ord d = n.
Proof.
  intros Hn Ed. unfold Py.ord2ymd in Ed. cbv zeta in Ed.
  assert (En : n = (n - 1) + 1) by lia.
  assert (H0 : 0 <= n - 1) by lia.
  rewrite En. clear En Hn. revert Ed H0. generalize (n - 1). clear n.
  intros n0 Ed H0.
  rewrite Z.shiftr_div_pow2 in Ed by lia. change (2 ^ 5) with 32 in Ed.
  revert Ed.
  split_divmod n0 146097 n400 r1.
  split_divmod r1 36524 n100 r2.
  split_divmod r2 1461 n4 r3.
  split_divmod r3 365 n1 r4.
  split_divmod (r4 + 50) 32 m rm.
  destruct (Z.eqb_spec n1 4) as [E4 | N4]; simpl orb in Ed.
  { subst d. simpl.
    unfold Py.ymd2ord, Py.days_before_month, Py.days_in_month,
      Py.days_before_year, Py.is_leap. simpl Py.year. simpl Py.month. simpl Py.day.
    cbv zeta.
    set (y := n400 * 400 + 1 + n100 * 100 + n4 * 4 + n1 - 1).
    destruct (Z.eqb_spec (y mod 4) 0), (Z.eqb_spec (y mod 100) 0),
      (Z.eqb_spec (y mod 400) 0); simpl; subst y;
      Z.div_mod_to_equations; lia. }
  destruct (Z.eqb_spec n100 4) as [E100 | N100].
  { subst d. simpl.
    unfold Py.ymd2ord, Py.days_before_month, Py.days_in_month,
      Py.days_before_year, Py.is_leap. simpl Py.year. simpl Py.month. simpl Py.day.
    cbv zeta.
    set (y := n400 * 400 + 1 + n100 * 100 + n4 * 4 + n1 - 1).
    destruct (Z.eqb_spec (y mod 4) 0), (Z.eqb_spec (y mod 100) 0),
      (Z.eqb_spec (y mod 400) 0); simpl; subst y;
      Z.div_mod_to_equations; lia. }
  assert (Q400 : 0 <= n400) by lia.
  assert (Q100 : 0 <= n100 <= 3) by lia.
  assert (Q4 : 0 <= n4 <= 24) by lia.
  assert (Q1 : 0 <= n1 <= 3) by lia.
  rewrite <- (is_leap_parts n400 n100 n4 n1 Q400 Q100 Q4 Q1) in Ed.
  pose proof (days_before_year_parts n400 n100 n4 n1 Q400 Q100 Q4 Q1) as Hdby.
  set (y := n400 * 400 + 1 + n100 * 100 + n4 * 4 + n1) in *.
  assert (Hy : 1 <= y) by (subst y; lia).
  assert (Hm : m = 1 \/ m = 2 \/ m = 3 \/ m = 4 \/ m = 5 \/ m = 6 \/ m = 7
               \/ m = 8 \/ m = 9 \/ m = 10 \/ m = 11 \/ m = 12) by lia.
  unfold Py.ymd2ord, Py.days_in_month, Py.days_before_month.
  destruct (Py.is_leap y) eqn:HL;
    repeat (destruct Hm as [Hm | Hm]); subst m;
    cbv [Py.days_before_month Py.days_in_month Py.is_leap] in Ed; simpl in Ed;
    try match type of Ed with
       | context [?a <? ?b] => destruct (Z.ltb_spec a b)
       end.
  all: subst d; simpl; rewrite ?HL; simpl; rewrite ?Hdby; lia.
Qed.


Lemma valid_date_inv (d : Py.date) :
  Py.valid_date d = true ->
  1 <= Py.year d <= 9999
  /\ 1 <= Py.month d <= 12
  /\ 1 <= Py.day d <= Py.days_in_month (Py.year d) (Py.month d).
Proof.
  unfold Py.valid_date, Py.MINYEAR, Py.MAXYEAR. intros H.
  repeat (apply andb_prop in H; destruct H as [H ?]).
  repeat match goal with
         | H : (_ <=? _) = true |- _ => apply Z.leb_le in H
         end.
  lia.
Qed.

Lemma month_cases (m : Z) :
  1 <= m <= 12 ->
  m = 1 \/ m = 2 \/ m = 3 \/ m = 4 \/ m = 5 \/ m = 6 \/ m = 7
  \/ m = 8 \/ m = 9 \/ m = 10 \/ m = 11 \/ m = 12.
Proof. lia. Qed.

(** A date lies within its year. *)
Lemma ymd2ord_in_year (d : Py.date) :
  1 <= Py.month d <= 12 ->
  1 <= Py.day d <= Py.days_in_month (Py.year d) (Py.month d) ->
  Py.days_before_year (Py.year d) + 1 <= Py.ymd2ord d
  /\ Py.ymd2ord d <= Py.days_before_year (Py.year d + 1).
Proof.
  destruct d as [y m dd]. simpl. intros Hm Hd.
  rewrite days_before_year_step.
  unfold Py.ymd2ord, Py.days_before_month, Py.days_in_month in *. simpl in *.
  destruct (Py.is_leap y);
    destruct (month_cases m Hm) as [-> | [-> | [-> | [-> | [-> | [-> | [-> |
      [-> | [-> | [-> | [-> | ->]]]]]]]]]]]; simpl in *; lia.
Qed.

Lemma ymd2ord_year_le (d d' : Py.date) :
  1 <= Py.month d <= 12 ->
  1 <= Py.day d <= Py.days_in_month (Py.year d) (Py.month d) ->
  1 <= Py.month d' <= 12 ->
  1 <= Py.day d' <= Py.days_in_month (Py.year d') (Py.month d') ->
  Py.ymd2ord d <= Py.ymd2ord d' ->
  Py.year d <= Py.year d'.
Proof.
  intros Hm Hd Hm' Hd' Hle.
  destruct (Z.le_gt_cases (Py.year d) (Py.year d')) as [ | Hgt]; [assumption | ].
  pose proof (ymd2ord_in_year d Hm Hd) as [Hlo _].
  pose proof (ymd2ord_in_year d' Hm' Hd') as [_ Hhi].
  pose proof (days_before_year_mono (Py.year d' + 1) (Py.year d) ltac:(lia)).
  lia.
Qed.

Lemma ymd2ord_inj (d d' : Py.date) :
  1 <= Py.month d <= 12 ->
  1 <= Py.day d <= Py.days_in_month (Py.year d) (Py.month d) ->
  1 <= Py.month d' <= 12 ->
  1 <= Py.day d' <= Py.days_in_month (Py.year d') (Py.month d') ->
  Py.ymd2ord d = Py.ymd2ord d' ->
  d = d'.
Proof.
  intros Hm Hd Hm' Hd' E.
  assert (Hy : Py.year d = Py.year d').
  { apply Z.le_antisymm; apply ymd2ord_year_le; try assumption; lia. }
  destruct d as [y m dd], d' as [y' m' dd']. simpl in *. subst y'.
  unfold Py.ymd2ord, Py.days_before_month, Py.days_in_month in *. simpl in *.
  assert (m = m' /\ dd = dd') as [-> ->]; [ | reflexivity].
  destruct (Py.is_leap y);
    destruct (month_cases m Hm) as [-> | [-> | [-> | [-> | [-> | [-> | [-> |
      [-> | [-> | [-> | [-> | ->]]]]]]]]]]];
    destruct (month_cases m' Hm') as [-> | [-> | [-> | [-> | [-> | [-> | [-> |
      [-> | [-> | [-> | [-> | ->]]]]]]]]]]]; simpl in *; lia.
Qed.

Lemma ord2ymd_ymd2ord (d : Py.date) :
  1 <= Py.year d ->
  1 <= Py.month d <= 12 ->
  1 <= Py.day d <= Py.days_in_month (Py.year d) (Py.month d) ->
  Py.ord2ymd (Py.ymd2ord d) = d.
Proof.
  intros Hy Hm Hd.
  pose proof (ymd2ord_in_year d Hm Hd) as [Hlo _].
  pose proof (days_before_year_mono 1 (Py.year d) Hy) as H1.
  change (Py.days_before_year 1) with 0 in H1.
  destruct (ord2ymd_spec (Py.ymd2ord d) _ ltac:(lia) eq_refl)
    as (_ & Hm' & Hd' & E).
  now apply ymd2ord_inj.
Qed.

End Calendar.

(** ** Loops and date arithmetic *)

Section Loops.

Context {A B : Type}.

Lemma for_each_map (f : A -> Py.exception + B) (g : A -> B) (l : list A) :
  (forall a, In a l -> f a = inr (g a)) ->
  Py.for_each f l = inr (List.map g l).
Proof.
  induction l as [ | a l IH]; intros Hf; [reflexivity | ].
  simpl. rewrite (Hf a) by now left. simpl.
  rewrite IH by (intros; apply Hf; now right). reflexivity.
Qed.

End Loops.

Section Dates.

Lemma valid_date_ordinal (d : Py.date) :
  Py.valid_date d = true -> 1 <= Py.ymd2ord d <= Py.MAXORDINAL.
Proof.
  intros Hv. destruct (valid_date_inv d Hv) as (Hy & Hm & Hd).
  destruct (ymd2ord_in_year d Hm Hd) as [Hlo Hhi].
  pose proof (days_before_year_mono 1 (Py.year d) ltac:(lia)) as H1.
  pose proof (days_before_year_mono (Py.year d + 1) 10000 ltac:(lia)) as H2.
  change (Py.days_before_year 1) with 0 in H1.
  change (Py.days_before_year 10000) with 3652059 in H2.
  unfold Py.MAXORDINAL. lia.
Qed.

(** Going back [k] days from a valid date stays within the calendar as
    long as the ordinal stays positive, and does not move to a later
    year. *)
Lemma date_sub_days_ok (d : Py.date) (k : Z) :
  Py.valid_date d = true ->
  0 <= k < Py.ymd2ord d ->
  Py.date_sub_days d k = inr (Py.ord2ymd (Py.ymd2ord d - k))
  /\ Py.valid_date (Py.ord2ymd (Py.ymd2ord d - k)) = true
  /\ Py.year (Py.ord2ymd (Py.ymd2ord d - k)) <= Py.year d
  /\ Py.ymd2ord (Py.ord2ymd (Py.ymd2ord d - k)) = Py.ymd2ord d - k.
Proof.
  intros Hv Hk. pose proof (valid_date_ordinal d Hv) as Ho.
  destruct (valid_date_inv d Hv) as (Hy & Hm & Hd).
  destruct (ord2ymd_spec (Py.ymd2ord d - k) _ ltac:(lia) eq_refl)
    as (Hy' & Hm' & Hd' & E).
  assert (Hle : Py.year (Py.ord2ymd (Py.ymd2ord d - k)) <= Py.year d).
  { apply ymd2ord_year_le; try assumption. lia. }
  repeat split; try assumption.
  - unfold Py.date_sub_days.
    replace (0 <? Py.ymd2ord d - k) with true by (symmetry; apply Z.ltb_lt; lia).
    replace (Py.ymd2ord d - k <=? Py.MAXORDINAL) with true
      by (symmetry; apply Z.leb_le; lia).
    reflexivity.
  - unfold Py.valid_date, Py.MINYEAR, Py.MAXYEAR.
    repeat (apply andb_true_intro; split); apply Z.leb_le; lia.
Qed.

End Dates.

(** ** The order of strings *)

Section StringOrder.

Lemma ascii_compare_lt (a b : ascii) :
  Ascii.compare a b = Lt <-> (N_of_ascii a < N_of_ascii b)%N.
Proof. unfold Ascii.compare. apply N.compare_lt_iff. Qed.

Lemma string_compare_trans (a : string) : forall b c,
  String.compare a b = Lt -> String.compare b c = Lt -> String.compare a c = Lt.
Proof.
  induction a as [ | x a IH]; intros [ | y b] [ | z c]; simpl; try easy.
  destruct (Ascii.compare x y) eqn:Exy; try discriminate;
    destruct (Ascii.compare y z) eqn:Eyz; try discriminate; intros H1 H2.
  - apply Ascii.compare_eq_iff in Exy, Eyz. subst.
    unfold Ascii.compare. rewrite N.compare_refl. now apply (IH b c).
  - apply Ascii.compare_eq_iff in Exy. subst. now rewrite Eyz.
  - apply Ascii.compare_eq_iff in Eyz. subst. now rewrite Exy.
  - apply ascii_compare_lt in Exy. apply ascii_compare_lt in Eyz.
    assert (E : Ascii.compare x z = Lt)
      by (apply ascii_compare_lt; eapply N.lt_trans; eassumption).
    now rewrite E.
Qed.

Lemma string_leb_trans (a b c : string) :
  String.leb a b = true -> String.leb b c = true -> String.leb a c = true.
Proof.
  unfold String.leb.
  destruct (String.compare a b) eqn:Eab; try discriminate;
    destruct (String.compare b c) eqn:Ebc; try discriminate; intros _ _.
  - apply String.compare_eq_iff in Eab, Ebc. subst.
    destruct (String.compare c c) eqn:E; try reflexivity.
    pose proof (String.compare_antisym c c) as A. rewrite E in A. discriminate.
  - apply String.compare_eq_iff in Eab. subst. now rewrite Ebc.
  - apply String.compare_eq_iff in Ebc. subst. now rewrite Eab.
  - now rewrite (string_compare_trans a b c Eab Ebc).
Qed.

Lemma string_leb_ltb (a b : string) :
  String.leb a b = true -> a <> b -> String.ltb a b = true.
Proof.
  unfold String.leb, String.ltb.
  destruct (String.compare a b) eqn:E; try easy.
  apply String.compare_eq_iff in E. contradiction.
Qed.

End StringOrder.

(** ** [int(str(n))] *)

Section IntStr.

#[local] Abbreviation chars d := (list_ascii_of_string (NilEmpty.string_of_uint d)).

Lemma digits_uint (d : Decimal.uint) : forall acc b,
  d <> Decimal.Nil \/ b = true ->
  Py.digits (chars d) acc b = Some (Py.uint_value d acc).
Proof.
  induction d; intros acc b Hb;
    try (cbn [NilEmpty.string_of_uint list_ascii_of_string Py.digits Py.uint_value];
         change (Py.is_digit _) with true; cbv beta iota;
         apply IHd; now right).
  simpl. destruct Hb as [Hb | ->]; [contradiction | reflexivity].
Qed.

Lemma uint_value_pos (d : Decimal.uint) : forall p,
  Py.uint_value d (Zpos p) = Zpos (Pos.of_uint_acc d p).
Proof.
  induction d; intros p; cbn [Py.uint_value Pos.of_uint_acc]; try reflexivity.
  all: rewrite <- IHd; f_equal; lia.
Qed.

Lemma uint_value_0 (d : Decimal.uint) :
  Py.uint_value d 0 = Z.of_N (Pos.of_uint d).
Proof.
  induction d; cbn [Py.uint_value Pos.of_uint]; try reflexivity;
    try exact IHd;
    cbn [Z.mul Z.add Z.of_N]; apply uint_value_pos.
Qed.

Lemma uint_value_to_uint (p : positive) : Py.uint_value (Pos.to_uint p) 0 = Zpos p.
Proof. now rewrite uint_value_0, Unsigned.of_to. Qed.

Lemma chars_digits (d : Decimal.uint) :
  Forall (fun c => Py.is_digit c = true) (chars d).
Proof. induction d; simpl; constructor; try reflexivity; assumption. Qed.

Lemma digit_not_space (c : ascii) :
  Py.is_digit c = true -> Py.is_space_int c = false.
Proof.
  unfold Py.is_digit, Py.is_space_int. generalize (Py.code c). intros x.
  rewrite andb_true_iff, !Z.leb_le. intros H.
  apply orb_false_iff. split.
  - apply andb_false_iff. right. apply Z.leb_gt. lia.
  - apply Z.eqb_neq. lia.
Qed.

Lemma lstrip_by_id (sp : ascii -> bool) (cs : list ascii) :
  Forall (fun c => sp c = false) cs -> Py.lstrip_by sp cs = cs.
Proof. destruct 1 as [ | c cs Hc _]; simpl; [reflexivity | now rewrite Hc]. Qed.

Lemma strip_by_id (sp : ascii -> bool) (cs : list ascii) :
  Forall (fun c => sp c = false) cs -> Py.strip_by sp cs = cs.
Proof.
  intros H. unfold Py.strip_by. rewrite (lstrip_by_id sp cs H).
  rewrite lstrip_by_id by now apply Forall_rev.
  apply rev_involutive.
Qed.

Lemma filter_digits (cs : list ascii) :
  Forall (fun c => Py.is_digit c = true) cs -> List.filter Py.is_digit cs = cs.
Proof.
  induction 1 as [ | c cs Hc _ IH]; simpl; [reflexivity | ].
  now rewrite Hc, IH.
Qed.

Lemma nzhead_no_zero (d l : Decimal.uint) : Decimal.nzhead d <> Decimal.D0 l.
Proof. induction d; simpl; try discriminate; assumption. Qed.

Lemma to_uint_head (p : positive) (l : Decimal.uint) :
  Pos.to_uint p <> Decimal.D0 l.
Proof.
  intros E.
  pose proof (Unsigned.to_of (Pos.to_uint p)) as H.
  rewrite Unsigned.of_to in H. cbn [N.to_uint] in H.
  rewrite E in H at 2. unfold Decimal.unorm in H. cbn [Decimal.nzhead] in H.
  destruct (Decimal.nzhead l) eqn:El.
  - apply (Unsigned.to_uint_nonzero p). exact H.
  - apply (nzhead_no_zero l u). congruence.
  - rewrite E in H. discriminate.
  - rewrite E in H. discriminate.
  - rewrite E in H. discriminate.
  - rewrite E in H. discriminate.
  - rewrite E in H. discriminate.
  - rewrite E in H. discriminate.
  - rewrite E in H. discriminate.
  - rewrite E in H. discriminate.
  - rewrite E in H. discriminate.
Qed.

Lemma uint_value_split (d : Decimal.uint) : forall acc,
  Py.uint_value d acc = acc * 10 ^ Z.of_nat (List.length (chars d)) + Py.uint_value d 0
  /\ 0 <= Py.uint_value d 0.
Proof.
  induction d; intros acc;
    try (cbn [NilEmpty.string_of_uint list_ascii_of_string List.length Py.uint_value];
         rewrite Nat2Z.inj_succ, Z.pow_succ_r by lia;
         destruct (IHd (10 * acc + 0)) as [E0 H0];
         match goal with
         | |- context [Py.uint_value d (10 * acc + ?k)] =>
             destruct (IHd (10 * acc + k)) as [E1 _];
             destruct (IHd (10 * 0 + k)) as [E2 _];
             rewrite E1, E2
         end;
         assert (0 < 10 ^ Z.of_nat (List.length (chars d)))
           by (apply Z.pow_pos_nonneg; lia);
         split; nia).
  simpl. lia.
Qed.

Lemma to_uint_length (p : positive) (k : Z) :
  0 <= k -> Zpos p < 10 ^ k ->
  Z.of_nat (List.length (chars (Pos.to_uint p))) <= k.
Proof.
  intros Hk Hp.
  pose proof (uint_value_to_uint p) as Hv.
  pose proof (to_uint_head p) as Hh.
  pose proof (Unsigned.to_uint_nonnil p) as Hn.
  destruct (Pos.to_uint p) as [ | l | l | l | l | l | l | l | l | l | l ] eqn:E;
    try contradiction; try (now elim (Hh l)).
  all: cbn [Py.uint_value] in Hv;
    cbn [NilEmpty.string_of_uint list_ascii_of_string List.length];
    rewrite Nat2Z.inj_succ;
    match type of Hv with
    | Py.uint_value ?l ?a = _ =>
        destruct (uint_value_split l a) as [Es H0]; rewrite Es in Hv;
        destruct (Z.le_gt_cases (Z.succ (Z.of_nat (List.length (chars l)))) k)
          as [Hle | Hgt]; [exact Hle | exfalso];
        pose proof (Z.pow_le_mono_r 10 k (Z.of_nat (List.length (chars l)))
                      ltac:(lia) ltac:(lia)) as Hpow;
        generalize dependent (10 ^ k);
        generalize dependent (10 ^ Z.of_nat (List.length (chars l)));
        intros; nia
    end.
Qed.

End IntStr.

Section RoundTrip.

Lemma int_str (n : Z) :
  Z.abs n < 10 ^ Py.int_max_str_digits -> Py.int (Py.str n) = inr n.
Proof.
  intros Hn. unfold Py.str, Py.int.
  destruct n as [ | p | p]; [reflexivity | | ].
  - cbn [Z.to_int NilZero.string_of_int].
    assert (Hs : NilZero.string_of_uint (Pos.to_uint p)
                 = NilEmpty.string_of_uint (Pos.to_uint p)).
    { pose proof (Unsigned.to_uint_nonnil p).
      now destruct (Pos.to_uint p). }
    rewrite Hs.
    pose proof (chars_digits (Pos.to_uint p)) as Hd.
    rewrite strip_by_id
      by (eapply Forall_impl; [ | exact Hd]; apply digit_not_space).
    pose proof (Unsigned.to_uint_nonnil p) as Hnil.
    destruct (list_ascii_of_string (NilEmpty.string_of_uint (Pos.to_uint p)))
      as [ | c rest] eqn:Ecs.
    { destruct (Pos.to_uint p); try contradiction; discriminate. }
    assert (Hc : Py.is_digit c = true) by now inversion Hd.
    assert (H45 : (Py.code c =? 45) = false).
    { unfold Py.is_digit in Hc. apply andb_prop in Hc. destruct Hc as [Hc _].
      apply Z.leb_le in Hc. apply Z.eqb_neq. lia. }
    assert (H43 : (Py.code c =? 43) = false).
    { unfold Py.is_digit in Hc. apply andb_prop in Hc. destruct Hc as [Hc _].
      apply Z.leb_le in Hc. apply Z.eqb_neq. lia. }
    rewrite H45, H43. rewrite <- Ecs. rewrite <- Ecs in Hd.
    rewrite filter_digits by exact Hd.
    pose proof (to_uint_length p Py.int_max_str_digits
                  ltac:(unfold Py.int_max_str_digits; lia) Hn) as Hlen.
    replace (Py.int_max_str_digits <? _) with false
      by (symmetry; apply Z.ltb_ge; exact Hlen).
    rewrite digits_uint by now left.
    now rewrite uint_value_to_uint.
  - cbn [Z.to_int NilZero.string_of_int].
    assert (Hs : NilZero.string_of_uint (Pos.to_uint p)
                 = NilEmpty.string_of_uint (Pos.to_uint p)).
    { pose proof (Unsigned.to_uint_nonnil p).
      now destruct (Pos.to_uint p). }
    rewrite Hs.
    pose proof (chars_digits (Pos.to_uint p)) as Hd.
    cbn [list_ascii_of_string].
    rewrite strip_by_id.
    2:{ constructor; [reflexivity | ].
        eapply Forall_impl; [ | exact Hd]. apply digit_not_space. }
    change (Py.code "-" =? 45) with true. cbv beta iota.
    rewrite filter_digits by exact Hd.
    pose proof (to_uint_length p Py.int_max_str_digits
                  ltac:(unfold Py.int_max_str_digits; lia) Hn) as Hlen.
    replace (Py.int_max_str_digits <? _) with false
      by (symmetry; apply Z.ltb_ge; exact Hlen).
    rewrite digits_uint by (left; apply Unsigned.to_uint_nonnil).
    now rewrite uint_value_to_uint.
Qed.

End RoundTrip.

(** ** [strip] and [upper] *)

Section Strings.

Lemma lstrip_by_suffix (sp : ascii -> bool) (cs : list ascii) :
  exists pre, cs = (pre ++ Py.lstrip_by sp cs)%list.
Proof.
  induction cs as [ | c cs (pre & IH)]; [now exists [] | ].
  simpl. destruct (sp c).
  - exists (c :: pre). simpl. now f_equal.
  - now exists [].
Qed.

Lemma lstrip_by_head (sp : ascii -> bool) (cs : list ascii) :
  match Py.lstrip_by sp cs with
  | c :: _ => sp c = false
  | [] => True
  end.
Proof.
  induction cs as [ | c cs IH]; simpl; [exact I | ].
  destruct (sp c) eqn:E; [exact IH | exact E].
Qed.

Lemma lstrip_by_clean (sp : ascii -> bool) (cs : list ascii) :
  match cs with
  | c :: _ => sp c = false
  | [] => True
  end ->
  Py.lstrip_by sp cs = cs.
Proof. destruct cs as [ | c cs]; simpl; [reflexivity | now intros ->]. Qed.

Lemma strip_by_idem (sp : ascii -> bool) (cs : list ascii) :
  Py.strip_by sp (Py.strip_by sp cs) = Py.strip_by sp cs.
Proof.
  unfold Py.strip_by.
  set (A := Py.lstrip_by sp cs).
  set (B := Py.lstrip_by sp (rev A)).
  assert (HA : match A with c :: _ => sp c = false | [] => True end)
    by apply lstrip_by_head.
  assert (HB : match B with c :: _ => sp c = false | [] => True end)
    by apply lstrip_by_head.
  destruct (lstrip_by_suffix sp (rev A)) as (pre & Hpre). fold B in Hpre.
  assert (EA : A = (rev B ++ rev pre)%list).
  { rewrite <- rev_app_distr, <- Hpre. symmetry. apply rev_involutive. }
  assert (Hrev : Py.lstrip_by sp (rev B) = rev B).
  { apply lstrip_by_clean. rewrite EA in HA.
    destruct (rev B) as [ | c l]; [exact I | exact HA]. }
  rewrite Hrev, rev_involutive.
  rewrite (lstrip_by_clean sp B HB). reflexivity.
Qed.

Lemma strip_idem (s : string) : Py.strip (Py.strip s) = Py.strip s.
Proof.
  unfold Py.strip. rewrite list_ascii_of_string_of_list_ascii.
  now rewrite strip_by_idem.
Qed.

Lemma upper_char_space (c : ascii) : Py.is_space (Py.upper_char c) = Py.is_space c.
Proof.
  destruct c as [[|] [|] [|] [|] [|] [|] [|] [|]]; reflexivity.
Qed.

Lemma upper_char_idem (c : ascii) : Py.upper_char (Py.upper_char c) = Py.upper_char c.
Proof.
  destruct c as [[|] [|] [|] [|] [|] [|] [|] [|]]; reflexivity.
Qed.

Lemma lstrip_by_upper (cs : list ascii) :
  Py.lstrip_by Py.is_space (List.map Py.upper_char cs)
  = List.map Py.upper_char (Py.lstrip_by Py.is_space cs).
Proof.
  induction cs as [ | c cs IH]; [reflexivity | ].
  cbn [List.map Py.lstrip_by]. rewrite upper_char_space.
  destruct (Py.is_space c); [exact IH | reflexivity].
Qed.

Lemma strip_upper (s : string) : Py.strip (Py.upper s) = Py.upper (Py.strip s).
Proof.
  unfold Py.strip, Py.upper, Py.strip_by.
  rewrite !list_ascii_of_string_of_list_ascii.
  now rewrite lstrip_by_upper, <- map_rev, lstrip_by_upper, <- map_rev.
Qed.

Lemma upper_idem (s : string) : Py.upper (Py.upper s) = Py.upper s.
Proof.
  unfold Py.upper. rewrite list_ascii_of_string_of_list_ascii, map_map.
  f_equal. apply map_ext. apply upper_char_idem.
Qed.

End Strings.

(** ** Dates in calendar order *)

Section DateOrder.

Lemma month_before (y ma mb : Z) :
  1 <= ma -> ma < mb -> mb <= 12 ->
  Py.days_before_month y ma + Py.days_in_month y ma <= Py.days_before_month y mb.
Proof.
  intros Ha Hab Hb.
  destruct (month_cases ma ltac:(lia)) as [-> | [-> | [-> | [-> | [-> | [-> | [-> |
        [-> | [-> | [-> | [-> | ->]]]]]]]]]]];
  destruct (month_cases mb ltac:(lia)) as [-> | [-> | [-> | [-> | [-> | [-> | [-> |
        [-> | [-> | [-> | [-> | ->]]]]]]]]]]];
  try lia;
  unfold Py.days_before_month, Py.days_in_month; destruct (Py.is_leap y);
    simpl; lia.
Qed.

Lemma date_compare_ordinal (a b : Py.date) :
  Py.valid_date a = true -> Py.valid_date b = true ->
  Py.lex_compare [Py.year a; Py.month a; Py.day a]
    [Py.year b; Py.month b; Py.day b]
  = (Py.ymd2ord a ?= Py.ymd2ord b).
Proof.
  intros Ha Hb.
  destruct (valid_date_inv _ Ha) as (Hya & Hma & Hda).
  destruct (valid_date_inv _ Hb) as (Hyb & Hmb & Hdb).
  destruct (ymd2ord_in_year _ Hma Hda) as [Hloa Hhia].
  destruct (ymd2ord_in_year _ Hmb Hdb) as [Hlob Hhib].
  symmetry. simpl.
  destruct (Z.compare_spec (Py.year a) (Py.year b)) as [Ey | Ly | Ly].
  - unfold Py.ymd2ord. rewrite Ey in *.
    destruct (Z.compare_spec (Py.month a) (Py.month b)) as [Em | Lm | Lm].
    + rewrite Em in *.
      destruct (Z.compare_spec (Py.day a) (Py.day b));
        [apply Z.compare_eq_iff | apply Z.compare_lt_iff | apply Z.compare_gt_iff];
        lia.
    + apply Z.compare_lt_iff.
      pose proof (month_before (Py.year b) (Py.month a) (Py.month b)
                    ltac:(lia) Lm ltac:(lia)). lia.
    + apply Z.compare_gt_iff.
      pose proof (month_before (Py.year b) (Py.month b) (Py.month a)
                    ltac:(lia) Lm ltac:(lia)). lia.
  - apply Z.compare_lt_iff.
    pose proof (days_before_year_mono (Py.year a + 1) (Py.year b) ltac:(lia)). lia.
  - apply Z.compare_gt_iff.
    pose proof (days_before_year_mono (Py.year b + 1) (Py.year a) ltac:(lia)). lia.
Qed.

End DateOrder.

End PyFacts.

(* ===================================================================== *)
(** * Facts about the application                                         *)
(* ===================================================================== *)

Module MallFacts.

Import Mall PyFacts.
Open Scope string_scope.
Open Scope Z_scope.

(** ** The cart as a dict *)

Section Cart.

Implicit Types (c : cart) (k : option string) (v : Z).

#[local] Arguments Py.key_eqb : simpl never.

Lemma key_eqb_eq k k' : Py.key_eqb k k' = true <-> k = k'.
Proof.
  destruct k as [a | ], k' as [b | ];
    cbv [Py.key_eqb Py.option_string_key]; try (split; congruence).
  rewrite String.eqb_eq. split; congruence.
Qed.

Lemma key_eqb_neq k k' : Py.key_eqb k k' = false <-> k <> k'.
Proof.
  rewrite <- key_eqb_eq. destruct (Py.key_eqb k k'); split; congruence.
Qed.

Lemma dict_get_none c k : Py.dict_get c k = None <-> ~ In k (List.map fst c).
Proof.
  induction c as [ | [k' v'] c IH]; simpl.
  - tauto.
  - destruct (Py.key_eqb k' k) eqn:E.
    + apply key_eqb_eq in E. split; [congruence | tauto].
    + apply key_eqb_neq in E. rewrite IH. tauto.
Qed.

Lemma dict_get_set_same c k v : Py.dict_get (Py.dict_set c k v) k = Some v.
Proof.
  induction c as [ | [k' v'] c IH]; simpl.
  - now rewrite (proj2 (key_eqb_eq k k) eq_refl).
  - destruct (Py.key_eqb k' k) eqn:E; simpl; now rewrite E.
Qed.

Lemma dict_get_set_other c k k' v :
  k' <> k -> Py.dict_get (Py.dict_set c k v) k' = Py.dict_get c k'.
Proof.
  intros Hne. induction c as [ | [k0 v0] c IH]; simpl.
  - now rewrite (proj2 (key_eqb_neq k k')) by congruence.
  - destruct (Py.key_eqb k0 k) eqn:E; simpl.
    + apply key_eqb_eq in E. subst k0.
      now rewrite (proj2 (key_eqb_neq k k')) by congruence.
    + now rewrite IH.
Qed.

Lemma dict_set_keys c k v :
  forall x, In x (List.map fst (Py.dict_set c k v)) <-> x = k \/ In x (List.map fst c).
Proof.
  induction c as [ | [k' v'] c IH]; simpl; intros x.
  - intuition congruence.
  - destruct (Py.key_eqb k' k) eqn:E; simpl.
    + apply key_eqb_eq in E. intuition congruence.
    + rewrite IH. tauto.
Qed.

Lemma dict_set_unique c k v : keys_unique c -> keys_unique (Py.dict_set c k v).
Proof.
  unfold keys_unique. induction c as [ | [k' v'] c IH]; simpl; intros Hu.
  - constructor; [tauto | constructor].
  - inversion Hu as [ | ? ? Hnotin Hrest]; subst.
    destruct (Py.key_eqb k' k) eqn:E; simpl.
    + now constructor.
    + constructor; [ | now apply IH].
      rewrite dict_set_keys. apply key_eqb_neq in E. intuition congruence.
Qed.

Lemma dict_pop_keys c k :
  forall x, In x (List.map fst (Py.dict_pop c k)) -> In x (List.map fst c).
Proof.
  induction c as [ | [k' v'] c IH]; simpl; intros x; [tauto | ].
  destruct (Py.key_eqb k' k); simpl; [tauto | ].
  intros [H | H]; [now left | right; now apply IH].
Qed.

Lemma dict_pop_unique c k : keys_unique c -> keys_unique (Py.dict_pop c k).
Proof.
  unfold keys_unique. induction c as [ | [k' v'] c IH]; simpl; intros Hu.
  - constructor.
  - inversion Hu as [ | ? ? Hnotin Hrest]; subst.
    destruct (Py.key_eqb k' k); simpl; [assumption | ].
    constructor; [ | now apply IH].
    intros Hin. apply Hnotin. now apply dict_pop_keys in Hin.
Qed.

Lemma dict_get_pop_same c k :
  keys_unique c -> Py.dict_get (Py.dict_pop c k) k = None.
Proof.
  unfold keys_unique. induction c as [ | [k' v'] c IH]; simpl; intros Hu.
  - reflexivity.
  - inversion Hu as [ | ? ? Hnotin Hrest]; subst.
    destruct (Py.key_eqb k' k) eqn:E; simpl.
    + apply key_eqb_eq in E. subst k'. now apply dict_get_none.
    + rewrite E. now apply IH.
Qed.

Lemma dict_get_pop_other c k k' :
  k' <> k -> Py.dict_get (Py.dict_pop c k) k' = Py.dict_get c k'.
Proof.
  intros Hne. induction c as [ | [k0 v0] c IH]; simpl.
  - reflexivity.
  - destruct (Py.key_eqb k0 k) eqn:E; simpl.
    + apply key_eqb_eq in E. subst k0.
      now rewrite (proj2 (key_eqb_neq k k')) by congruence.
    + now rewrite IH.
Qed.

Lemma dict_set_ok c k v : cart_ok c -> 0 < v -> cart_ok (Py.dict_set c k v).
Proof.
  unfold cart_ok. intros Hc Hv.
  induction c as [ | [k' v'] c IH]; simpl.
  - now repeat constructor.
  - inversion Hc; subst.
    destruct (Py.key_eqb k' k); constructor; auto.
Qed.

Lemma dict_pop_ok c k : cart_ok c -> cart_ok (Py.dict_pop c k).
Proof.
  unfold cart_ok. intros Hc.
  induction c as [ | [k' v'] c IH]; simpl; [constructor | ].
  inversion Hc; subst.
  destruct (Py.key_eqb k' k); [assumption | constructor; auto].
Qed.

Lemma dict_get_default_ok c k : cart_ok c -> 0 <= Py.dict_get_default c k 0.
Proof.
  unfold cart_ok, Py.dict_get_default. intros Hc.
  induction c as [ | [k' v'] c IH]; simpl; [lia | ].
  inversion Hc; subst; simpl in *.
  destruct (Py.key_eqb k' k); [lia | auto].
Qed.

Lemma cart_add_ok c k : cart_ok c -> cart_ok (cart_add c k).
Proof.
  intros Hc. apply dict_set_ok; [assumption | ].
  pose proof (dict_get_default_ok c k Hc). lia.
Qed.

End Cart.

(** ** Running the handlers *)

(** Destructs a scrutinee that contains no other [match]. *)
Ltac inner_match :=
  match goal with
  | |- context [match ?x with _ => _ end] =>
      lazymatch x with
      | context [match _ with _ => _ end] => fail
      | _ => destruct x eqn:?
      end
  end.

Ltac unfold_handler :=
  unfold serve, bind, get_cart, set_cart, ret, lift, flash, query, update,
    commit, return_, raise.

Section PosPost.

Variables (db : database) (session : option cart) (form : pos_form).

(** The cart after a POST is the one the cart contract describes. *)
Lemma pos_post_cart :
  cart_of (session_after (serve (pos_post form) db session))
  = cart_after form (products db) (cart_of session).
Proof.
  unfold cart_after, pos_post, mark_low. unfold_handler.
  destruct session as [c | ]; simpl.
  all: repeat (inner_match; simpl; try reflexivity; try lia).
  all: now rewrite Z.max_r by lia.
Qed.

Lemma cart_after_keeps (c : cart) :
  keys_unique c -> cart_ok c ->
  keys_unique (cart_after form (products db) c)
  /\ cart_ok (cart_after form (products db) c).
Proof.
  intros Hu Hc. unfold cart_after.
  repeat (inner_match; try (split; assumption)).
  - split; [now apply dict_set_unique | now apply cart_add_ok].
  - split; [now apply dict_set_unique | apply dict_set_ok; [assumption | lia]].
  - split; [now apply dict_pop_unique | now apply dict_pop_ok].
  - split; constructor.
  - split; [now apply dict_set_unique | now apply cart_add_ok].
Qed.

Lemma action_is_true (name : string) :
  action_is form name = true -> action form = Some name.
Proof.
  unfold action_is. destruct (action form) as [a | ]; [ | discriminate].
  intros E. apply String.eqb_eq in E. now subst.
Qed.

Lemma cart_after_add (c : cart) (p : Product.t) :
  (action_is form "add_by_id" = true
   /\ exists i, form_int (form_pid form) None = inr i
                /\ Product_get (products db) i = Some p)
  \/ (action_is form "add_by_barcode" = true
      /\ nonempty (Py.strip (form_get (form_barcode form) "")) = true
      /\ Product_by_barcode (products db)
           (Py.strip (form_get (form_barcode form) "")) = Some p) ->
  cart_after form (products db) c = cart_add c (Some (Py.str (Product.id p))).
Proof.
  unfold cart_after. intros [(Ha & i & Hi & Hp) | (Ha & Hn & Hp)].
  - apply action_is_true in Ha. unfold action_is.
    rewrite Ha, Hi, Hp. reflexivity.
  - now rewrite Ha, Hp, Hn.
Qed.

Lemma cart_after_update (c : cart) (n : Z) :
  action_is form "update_qty" = true ->
  form_int (form_qty form) (Some 1) = inr n ->
  cart_after form (products db) c
  = if 0 <? n then Py.dict_set c (form_pid form) n
    else Py.dict_pop c (form_pid form).
Proof.
  unfold cart_after. intros Ha Hn. apply action_is_true in Ha.
  unfold action_is. rewrite Ha, Hn. reflexivity.
Qed.

End PosPost.

(** ** Sequencing *)

Section Bind.

Context {A B : Type} (m : H A) (k : A -> H B) (st st' : hstate).

Lemma bind_Val (a : A) : m st = (Val a, st') -> bind m k st = k a st'.
Proof. unfold bind. now intros ->. Qed.

Lemma bind_Return (r : response) :
  m st = (Return r, st') -> bind m k st = (Return r, st').
Proof. unfold bind. now intros ->. Qed.

Lemma bind_Raise (ex : Py.exception) :
  m st = (Raise ex, st') -> bind m k st = (Raise ex, st').
Proof. unfold bind. now intros ->. Qed.

End Bind.

(** ** The loops and blocks of checkout *)

Section Loops.

Implicit Types (st : hstate) (entries : cart) (rows : list Product.t).


Lemma sellable_resolve rows e :
  sellable rows e = true ->
  exists p a, resolve rows (fst e) = Some p
              /\ Py.mul_int (Product.price p) (snd e) = inr a
              /\ line_amount rows e = Some a
              /\ (Product.stock p <? snd e) = false.
Proof.
  unfold sellable, line_amount.
  destruct (resolve rows (fst e)) as [p | ]; [ | discriminate].
  destruct (Py.mul_int (Product.price p) (snd e)) as [ex | a] eqn:Hm;
    [discriminate | ].
  intros Hs. exists p, a. rewrite Hm. repeat split.
  apply Z.ltb_ge. now apply Z.leb_le.
Qed.

Lemma resolve_get rows k p :
  resolve rows k = Some p ->
  exists i, int_of_key k = inr i /\ Product_get rows i = Some p.
Proof.
  unfold resolve. destruct (int_of_key k) as [ex | i]; [discriminate | eauto].
Qed.

Lemma checkout_totals_ok entries : forall acc st,
  List.forallb (sellable (products (working st))) entries = true ->
  checkout_totals entries acc st
  = (Val (List.fold_left PrimFloat.add (amounts (products (working st)) entries) acc), st).
Proof.
  induction entries as [ | [pid qty] entries IH]; intros acc st Hall.
  - reflexivity.
  - simpl in Hall. apply andb_prop in Hall. destruct Hall as [He Hall].
    destruct (sellable_resolve _ _ He) as (p & a & Hp & Hm & Ha & Hs).
    destruct (resolve_get _ _ _ Hp) as (i & Hi & Hg). simpl in *.
    unfold amounts. simpl. rewrite Ha. simpl.
    unfold bind at 1; unfold lift at 1; rewrite Hi.
    unfold bind at 1; unfold query at 1; rewrite Hg, Hs.
    unfold bind at 1; unfold lift at 1; rewrite Hm.
    now apply IH.
Qed.

Lemma checkout_totals_stop entries : forall acc st,
  List.forallb (sellable (products (working st))) entries = false ->
  exists res st',
    checkout_totals entries acc st = (res, st')
    /\ same_data st st'
    /\ (res = Return (redirect_pos None) \/ exists ex, res = Raise ex).
Proof.
  induction entries as [ | [pid qty] entries IH]; intros acc st Hall.
  - discriminate.
  - simpl in Hall. simpl. unfold_handler.
    unfold sellable, line_amount, resolve in Hall; simpl in Hall.
    destruct (int_of_key pid) as [ex | i].
    { do 2 eexists; repeat split; eauto. }
    destruct (Product_get (products (working st)) i) as [p | ].
    2:{ do 2 eexists; repeat split; eauto. }
    destruct (Product.stock p <? qty) eqn:Hs.
    { do 2 eexists; repeat split; eauto. }
    destruct (Py.mul_int (Product.price p) qty) as [ex | a].
    { do 2 eexists; repeat split; eauto. }
    apply Z.ltb_ge, Z.leb_le in Hs. rewrite Hs in Hall.
    simpl in Hall. now apply IH.
Qed.

(** *** The stock update keeps every product findable *)

Lemma Product_get_set rows i j (f : Product.t -> Product.t) :
  (forall p, Product.id (f p) = Product.id p) ->
  Product_get (Product_set rows i f) j
  = option_map (fun p => if Product.id p =? i then f p else p)
      (Product_get rows j).
Proof.
  intros Hid. unfold Product_get.
  induction rows as [ | p rows IH]; simpl; [reflexivity | ].
  destruct (Product.id p =? i) eqn:Ei; simpl.
  - rewrite Hid. destruct (Product.id p =? j) eqn:Ej; simpl.
    + now rewrite Ei.
    + clear IH. induction rows as [ | q rows IH]; simpl; [reflexivity | ].
      destruct (Product.id q =? j) eqn:Eq; simpl; [ | exact IH].
      apply Z.eqb_eq in Ei, Eq. apply Z.eqb_neq in Ej.
      destruct (Product.id q =? i) eqn:Eqi; [ | reflexivity].
      apply Z.eqb_eq in Eqi. congruence.
  - destruct (Product.id p =? j) eqn:Ej; simpl; [now rewrite Ei | exact IH].
Qed.

Lemma with_stock_id v p : Product.id (with_stock v p) = Product.id p.
Proof. reflexivity. Qed.


Lemma found_set rows i v e :
  found (Product_set rows i (with_stock v)) e = found rows e.
Proof.
  unfold found, resolve. destruct (int_of_key (fst e)) as [ex | j]; [reflexivity | ].
  rewrite Product_get_set by apply with_stock_id.
  now destruct (Product_get rows j).
Qed.

Lemma forallb_found_set rows i v entries :
  List.forallb (found (Product_set rows i (with_stock v))) entries
  = List.forallb (found rows) entries.
Proof.
  induction entries as [ | e entries IH]; simpl; [reflexivity | ].
  now rewrite found_set, IH.
Qed.

Lemma get_id rows i p : Product_get rows i = Some p -> Product.id p = i.
Proof.
  unfold Product_get. intros Hf. apply List.find_some in Hf.
  now apply Z.eqb_eq.
Qed.

(** *** The second loop *)

Lemma checkout_items_ok order_id entries : forall st,
  List.forallb (found (products (working st))) entries = true ->
  checkout_items order_id entries st
  = (Val tt,
     mk_hstate (committed st) (sold order_id entries (working st))
       (session_cart st) (flashes st)).
Proof.
  induction entries as [ | [pid qty] entries IH]; intros st Hall.
  - now destruct st.
  - simpl in Hall. apply andb_prop in Hall. destruct Hall as [He Hall].
    unfold found in He. simpl in He.
    destruct (resolve (products (working st)) pid) as [p | ] eqn:Hp;
      [ | discriminate].
    destruct (resolve_get _ _ _ Hp) as (i & Hi & Hg).
    simpl. rewrite Hp.
    unfold bind at 1; unfold lift at 1; rewrite Hi.
    unfold bind at 1; unfold query at 1; rewrite Hg.
    unfold bind at 1; unfold update at 1.
    unfold bind at 1; unfold update at 1.
    rewrite IH; simpl.
    + now rewrite (get_id _ _ _ Hg).
    + now rewrite forallb_found_set.
Qed.

Lemma checkout_items_frame order_id entries : forall st,
  committed (snd (checkout_items order_id entries st)) = committed st
  /\ session_cart (snd (checkout_items order_id entries st)) = session_cart st
  /\ flashes (snd (checkout_items order_id entries st)) = flashes st.
Proof.
  induction entries as [ | [pid qty] entries IH]; intros st.
  - now simpl.
  - simpl. unfold_handler.
    destruct (int_of_key pid) as [ex | i]; [now simpl | ].
    destruct (Product_get (products (working st)) i) as [p | ]; [ | now simpl].
    match goal with
    | |- context [checkout_items order_id entries ?s] =>
        destruct (IH s) as (Hc & Hs & Hf);
        destruct (checkout_items order_id entries s) as [[u | r | ex] st']
    end; simpl in *; auto.
Qed.

End Loops.

Section Checkout.

Variables (cashier : Z) (now stamp : Py.datetime) (form : checkout_form).
Variables (db : database).

Lemma reaches_payment_inv (c : cart) :
  reaches_payment db c now form = true ->
  (exists e c', c = e :: c')
  /\ List.forallb (sellable (products db)) c = true
  /\ (nonempty (normalized (form_promo_code form)) = false
      \/ exists pc, nonempty (normalized (form_promo_code form)) = true /\
           usable_promo (promocodes db) now (normalized (form_promo_code form))
           = Some pc).
Proof.
  unfold reaches_payment. intros H.
  apply andb_prop in H. destruct H as [H Hpromo].
  apply andb_prop in H. destruct H as [Hc Hall].
  split; [ | split].
  - destruct c as [ | e c']; [discriminate | eauto].
  - exact Hall.
  - destruct (nonempty (normalized (form_promo_code form))); [ | now left].
    simpl in Hpromo.
    destruct (usable_promo (promocodes db) now (normalized (form_promo_code form)))
      as [pc | ]; [right; eauto | discriminate].
Qed.

(** The promo step of [checkout] when the code is usable or absent. *)
Lemma discount_for_usable (subtotal : float) (pc : PromoCode.t) :
  nonempty (normalized (form_promo_code form)) = true ->
  usable_promo (promocodes db) now (normalized (form_promo_code form)) = Some pc ->
  discount_for (promocodes db) now (form_promo_code form) subtotal
  = discount_of pc subtotal.
Proof. unfold discount_for. now intros -> ->. Qed.

Lemma usable_promo_inv (rows : list PromoCode.t) (code : string)
    (pc : PromoCode.t) :
  usable_promo rows now code = Some pc ->
  PromoCode_active rows code = Some pc /\ not_expired pc now = true.
Proof.
  unfold usable_promo.
  destruct (PromoCode_active rows code) as [pc' | ]; [ | discriminate].
  destruct (not_expired pc' now) eqn:E; [ | discriminate].
  intros [= ->]. now split.
Qed.

Implicit Types (st : hstate) (c : cart).

Lemma checkout_promo_usable st (subtotal : float) :
  (nonempty (normalized (form_promo_code form)) = false
   \/ exists pc, nonempty (normalized (form_promo_code form)) = true /\
        usable_promo (promocodes (working st)) now
          (normalized (form_promo_code form)) = Some pc) ->
  checkout_promo now (normalized (form_promo_code form)) subtotal st
  = (Val (discount_for (promocodes (working st)) now (form_promo_code form)
            subtotal), st).
Proof.
  unfold checkout_promo, discount_for.
  intros [-> | (pc & -> & Hpc)]; [reflexivity | ].
  rewrite Hpc. apply usable_promo_inv in Hpc. destruct Hpc as [Ha Hn].
  unfold bind, query. now rewrite Ha, Hn.
Qed.

Lemma checkout_promo_unusable st (subtotal : float) :
  nonempty (normalized (form_promo_code form)) = true ->
  usable_promo (promocodes (working st)) now (normalized (form_promo_code form))
  = None ->
  checkout_promo now (normalized (form_promo_code form)) subtotal st
  = (Return (redirect_pos (Some (normalized (form_promo_code form)))),
     mk_hstate (committed st) (working st) (session_cart st)
       (flashes st ++ [("Invalid or expired promo code.", "warning")])%list).
Proof.
  unfold checkout_promo, usable_promo. intros -> Hpc.
  unfold bind, query, flash, return_.
  destruct (PromoCode_active (promocodes (working st))
              (normalized (form_promo_code form))) as [pc | ]; [ | reflexivity].
  destruct (not_expired pc now); [discriminate | reflexivity].
Qed.

Lemma checkout_payment_paid st (code : string) (total_due paid change : float) :
  paid_and_change form total_due = Some (paid, change) ->
  checkout_payment form (form_get (form_payment_method form) "cash") code
    total_due st
  = (Val (paid, change), st).
Proof.
  unfold paid_and_change, checkout_payment, is_cash.
  destruct (form_get (form_payment_method form) "cash" =? "cash")%string.
  - unfold bind, lift. destruct (tendered form) as [ex | a]; [discriminate | ].
    destruct (a <? total_due)%float; [discriminate | ].
    now intros [= -> ->].
  - now intros [= -> ->].
Qed.

Lemma checkout_payment_unpaid st (code : string) (total_due : float) :
  paid_and_change form total_due = None ->
  exists res st',
    checkout_payment form (form_get (form_payment_method form) "cash") code
      total_due st = (res, st')
    /\ same_data st st'
    /\ (res = Return (redirect_pos (Some code)) \/ exists ex, res = Raise ex).
Proof.
  unfold paid_and_change, checkout_payment, is_cash.
  destruct (form_get (form_payment_method form) "cash" =? "cash")%string;
    [ | discriminate].
  unfold bind, lift, flash, return_.
  destruct (tendered form) as [ex | a].
  - intros _. do 2 eexists. repeat split; eauto.
  - destruct (a <? total_due)%float; [ | discriminate].
    intros _. do 2 eexists. repeat split; eauto.
Qed.

Lemma sellable_found rows entries :
  List.forallb (sellable rows) entries = true ->
  List.forallb (found rows) entries = true.
Proof.
  rewrite !forallb_forall. intros Hall x Hx. specialize (Hall x Hx).
  unfold found. now destruct (sellable_resolve _ _ Hall) as (p & a & -> & _).
Qed.

(** A checkout that settles creates the order, sells the cart, commits
    and clears the cart. *)
Lemma checkout_settled c (paid change : float) :
  settles db c now form = Some (paid, change) ->
  serve (checkout cashier now stamp form) db (Some c)
  = let o := new_order db cashier stamp form (total_due_for db c now form)
               paid change in
    mk_served (sold (Order.id o) c (add_order o db)) (Some []) []
      (Replied (redirect_receipt (Order.id o))).
Proof.
  unfold settles.
  destruct (reaches_payment db c now form) eqn:Hr; [ | discriminate].
  apply reaches_payment_inv in Hr. destruct Hr as ((e & c' & ->) & Hall & Hpromo).
  intros Hpay.
  unfold serve, checkout.
  unfold bind at 1; unfold get_cart at 1; simpl session_cart; cbv beta iota.
  unfold bind at 1. rewrite checkout_totals_ok by exact Hall.
  simpl working. fold (Py.sum (amounts (products db) (e :: c'))).
  fold (subtotal_of (products db) (e :: c')).
  fold (normalized (form_promo_code form)).
  unfold bind at 1. rewrite checkout_promo_usable by exact Hpromo.
  simpl working.
  fold (total_due_of (subtotal_of (products db) (e :: c'))
          (discount_for (promocodes db) now (form_promo_code form)
             (subtotal_of (products db) (e :: c')))).
  fold (total_due_for db (e :: c') now form).
  unfold bind at 1. rewrite (checkout_payment_paid _ _ _ _ _ Hpay).
  unfold bind at 1; unfold query at 1; simpl working.
  unfold bind at 1; unfold update at 1.
  unfold bind at 1. rewrite checkout_items_ok.
  - reflexivity.
  - apply (sellable_found _ _ Hall).
Qed.


(** A checkout that does not settle changes neither the database nor
    the cart, and answers no receipt. *)
Lemma checkout_unsettled (session : option cart) :
  settles db (cart_of session) now form = None ->
  db_after (serve (checkout cashier now stamp form) db session) = db
  /\ cart_of (session_after (serve (checkout cashier now stamp form) db session))
     = cart_of session
  /\ forall oid,
       answer (serve (checkout cashier now stamp form) db session)
       <> Replied (redirect_receipt oid).
Proof.
  intros Hs.
  remember (serve (checkout cashier now stamp form) db session) as r eqn:Er.
  unfold serve, checkout in Er.
  unfold bind at 1 in Er; unfold get_cart at 1 in Er; simpl session_cart in Er.
  destruct session as [[ | e c'] | ]; cbv beta iota in Er.
  1, 3: subst r; repeat split; discriminate.
  unfold settles, reaches_payment in Hs. simpl cart_of in *.
  cbv beta iota in Hs. rewrite andb_true_l in Hs.
  unfold bind at 1 in Er.
  destruct (forallb (sellable (products db)) (e :: c')) eqn:Hall.
  2:{ subst r.
      match goal with
      | |- context [checkout_totals ?a ?b ?s] =>
          destruct (checkout_totals_stop a b s Hall)
            as (res & st' & E & (Hc & _ & Hsess) & Hres)
      end.
      rewrite E.
      destruct Hres as [-> | (ex & ->)]; simpl; rewrite Hc, Hsess;
        repeat split; discriminate. }
  rewrite checkout_totals_ok in Er by exact Hall.
  simpl working in Er. fold (Py.sum (amounts (products db) (e :: c'))) in Er.
  fold (subtotal_of (products db) (e :: c')) in Er.
  fold (normalized (form_promo_code form)) in Er.
  rewrite andb_true_l in Hs.
  unfold bind at 1 in Er.
  assert (Hpaid :
    forall st, committed st = db -> working st = db ->
      session_cart st = Some (e :: c') ->
      paid_and_change form (total_due_for db (e :: c') now form) = None ->
      exists res st',
        checkout_payment form (form_get (form_payment_method form) "cash")
          (normalized (form_promo_code form))
          (total_due_for db (e :: c') now form) st = (res, st')
        /\ committed st' = db /\ session_cart st' = Some (e :: c')
        /\ (res = Return (redirect_pos (Some (normalized (form_promo_code form))))
            \/ exists ex, res = Raise ex)).
  { intros st Hc Hw Hse Hp.
    destruct (checkout_payment_unpaid st (normalized (form_promo_code form)) _ Hp)
      as (res & st' & E & (Hc' & _ & Hse') & Hres).
    exists res, st'. rewrite Hc', Hse'. now repeat split. }
  destruct (nonempty (normalized (form_promo_code form))) eqn:Hne;
    simpl negb in Hs; simpl orb in Hs.
  - destruct (usable_promo (promocodes db) now (normalized (form_promo_code form)))
      as [pc | ] eqn:Hpc.
    + rewrite checkout_promo_usable in Er by (right; exists pc; now split).
      simpl working in Er.
      fold (total_due_of (subtotal_of (products db) (e :: c'))
              (discount_for (promocodes db) now (form_promo_code form)
                 (subtotal_of (products db) (e :: c')))) in Er.
      fold (total_due_for db (e :: c') now form) in Er.
      unfold bind at 1 in Er. subst r.
      match goal with
      | |- context [checkout_payment ?f ?m ?k ?t ?s] =>
          destruct (Hpaid s eq_refl eq_refl eq_refl Hs)
            as (res & st' & E & Hc & Hsess & Hres)
      end.
      rewrite E.
      destruct Hres as [-> | (ex & ->)]; simpl; rewrite Hc, Hsess;
        repeat split; discriminate.
    + rewrite checkout_promo_unusable in Er by assumption.
      subst r. repeat split; discriminate.
  - rewrite checkout_promo_usable in Er by now left.
    simpl working in Er.
    fold (total_due_of (subtotal_of (products db) (e :: c'))
            (discount_for (promocodes db) now (form_promo_code form)
               (subtotal_of (products db) (e :: c')))) in Er.
    fold (total_due_for db (e :: c') now form) in Er.
    unfold bind at 1 in Er. subst r.
    match goal with
    | |- context [checkout_payment ?f ?m ?k ?t ?s] =>
        destruct (Hpaid s eq_refl eq_refl eq_refl Hs)
          as (res & st' & E & Hc & Hsess & Hres)
    end.
    rewrite E.
    destruct Hres as [-> | (ex & ->)]; simpl; rewrite Hc, Hsess;
      repeat split; discriminate.
Qed.

End Checkout.

(** ** Replies of a checkout that stops *)

Section CheckoutReplies.

Variables (cashier : Z) (now stamp : Py.datetime) (form : checkout_form).
Variables (db : database).
Implicit Types (c : cart).

(** Up to the promo code: cart read, stock validated, subtotal known. *)
Lemma checkout_validated c :
  (exists e c', c = e :: c') ->
  List.forallb (sellable (products db)) c = true ->
  serve (checkout cashier now stamp form) db (Some c)
  = serve
      (promo_discount <-
         checkout_promo now (normalized (form_promo_code form))
           (subtotal_of (products db) c) ;;
       let total_due :=
         total_due_of (subtotal_of (products db) c) promo_discount in
       '(amount_paid, change_due) <-
         checkout_payment form (form_get (form_payment_method form) "cash")
           (normalized (form_promo_code form)) total_due ;;
       db' <- query ;;
       let order :=
         Order.mk (next_id (List.map Order.id (orders db'))) cashier total_due
           amount_paid change_due stamp
           (form_get (form_payment_method form) "cash") in
       update (add_order order) ;;;
       checkout_items (Order.id order) c ;;;
       commit ;;;
       set_cart [] ;;;
       ret (redirect_receipt (Order.id order)))
      db (Some c).
Proof.
  intros (e & c' & ->) Hall. unfold serve, checkout.
  unfold bind at 1; unfold get_cart at 1; simpl session_cart; cbv beta iota.
  unfold bind at 1. rewrite checkout_totals_ok by exact Hall.
  reflexivity.
Qed.

Lemma checkout_promo_rejected c :
  (exists e c', c = e :: c') ->
  List.forallb (sellable (products db)) c = true ->
  nonempty (normalized (form_promo_code form)) = true ->
  usable_promo (promocodes db) now (normalized (form_promo_code form)) = None ->
  serve (checkout cashier now stamp form) db (Some c)
  = mk_served db (Some c) [("Invalid or expired promo code.", "warning")]
      (Replied (redirect_pos (Some (normalized (form_promo_code form))))).
Proof.
  intros Hc Hall Hne Hpc. rewrite checkout_validated by assumption.
  unfold serve.
  erewrite bind_Return by (now apply checkout_promo_unusable).
  reflexivity.
Qed.

(** With a usable promo code or none, a payment that fails is either
    cash below the total or an amount that [float()] cannot read. *)
Lemma checkout_unpaid c :
  reaches_payment db c now form = true ->
  paid_and_change form (total_due_for db c now form) = None ->
  is_cash form = true
  /\ ((exists a, tendered form = inr a
                 /\ (a <? total_due_for db c now form)%float = true
                 /\ serve (checkout cashier now stamp form) db (Some c)
                    = mk_served db (Some c)
                        [("Paid amount is less than total.", "danger")]
                        (Replied (redirect_pos
                                    (Some (normalized (form_promo_code form))))))
      \/ (exists ex, tendered form = inl ex
                     /\ serve (checkout cashier now stamp form) db (Some c)
                        = mk_served db (Some c) [] (ServerError ex))).
Proof.
  intros Hr Hp. destruct (reaches_payment_inv _ _ _ _ Hr) as (Hc & Hall & Hpromo).
  rewrite checkout_validated by assumption.
  unfold serve.
  erewrite bind_Val by (apply checkout_promo_usable; exact Hpromo).
  simpl working. fold (total_due_for db c now form).
  unfold paid_and_change in Hp. unfold is_cash in *.
  destruct (form_get (form_payment_method form) "cash" =? "cash")%string eqn:Em;
    [ | discriminate].
  split; [reflexivity | ].
  destruct (tendered form) as [ex | a] eqn:Et.
  - right. exists ex. split; [reflexivity | ].
    rewrite bind_Raise with (st' := mk_hstate db db (Some c) []) (ex := ex);
      [reflexivity | ].
    unfold checkout_payment. rewrite Em.
    apply bind_Raise. unfold lift. now rewrite Et.
  - left. exists a. destruct (a <? total_due_for db c now form)%float eqn:E;
      [ | discriminate].
    repeat split.
    rewrite bind_Return
      with (st' := mk_hstate db db (Some c)
                     [("Paid amount is less than total.", "danger")])
           (r := redirect_pos (Some (normalized (form_promo_code form))));
      [reflexivity | ].
    unfold checkout_payment. rewrite Em.
    erewrite bind_Val by (unfold lift; now rewrite Et).
    rewrite E. reflexivity.
Qed.

End CheckoutReplies.

(** ** What a sale leaves in the database *)

Section Sold.

Variable order_id : Z.
Implicit Types (db : database) (entries : cart) (rows : list Product.t).

Lemma sold_orders entries : forall db,
  orders (sold order_id entries db) = orders db
  /\ promocodes (sold order_id entries db) = promocodes db.
Proof.
  induction entries as [ | [pid qty] entries IH]; intros db; simpl.
  - now split.
  - destruct (resolve (products db) pid) as [p | ]; [ | now split].
    destruct (IH (with_products
                    (fun rows => Product_set rows (Product.id p)
                                   (with_stock (Product.stock p - qty)))
                    (add_order_item order_id (Product.id p) qty
                       (Product.price p) db))) as [Ho Hp].
    now rewrite Ho, Hp.
Qed.

(** The stock update leaves identifiers and prices alone. *)
Lemma resolve_set rows i v k :
  option_map (fun p => (Product.id p, Product.price p))
    (resolve (Product_set rows i (with_stock v)) k)
  = option_map (fun p => (Product.id p, Product.price p)) (resolve rows k).
Proof.
  unfold resolve. destruct (int_of_key k) as [ex | j]; [reflexivity | ].
  rewrite Product_get_set by apply with_stock_id.
  destruct (Product_get rows j) as [p | ]; [ | reflexivity].
  simpl. now destruct (Product.id p =? i).
Qed.

Lemma sold_items entries : forall db rows,
  (forall k,
     option_map (fun p => (Product.id p, Product.price p))
       (resolve (products db) k)
     = option_map (fun p => (Product.id p, Product.price p)) (resolve rows k)) ->
  List.forallb (found rows) entries = true ->
  exists its,
    order_items (sold order_id entries db) = (order_items db ++ its)%list
    /\ Forall2 (sale_line rows order_id) entries its.
Proof.
  induction entries as [ | [pid qty] entries IH]; intros db rows Hkept Hall.
  - exists []. simpl. now rewrite app_nil_r.
  - simpl in Hall. apply andb_prop in Hall. destruct Hall as [He Hall].
    unfold found in He. simpl in He.
    destruct (resolve rows pid) as [p0 | ] eqn:Hp0; [ | discriminate].
    pose proof (Hkept pid) as Hk. rewrite Hp0 in Hk. simpl.
    destruct (resolve (products db) pid) as [p | ] eqn:Hp; [ | discriminate].
    simpl in Hk. injection Hk as Hid Hprice.
    match goal with
    | |- context [sold order_id entries ?d] =>
        destruct (IH d rows) as (its & Hits & Hlines)
    end.
    + intros k. simpl. rewrite resolve_set. apply Hkept.
    + exact Hall.
    + eexists. rewrite Hits. simpl. rewrite <- app_assoc. simpl.
      split; [reflexivity | ].
      constructor; [ | exact Hlines].
      exists p0. simpl. now repeat split.
Qed.

Lemma items_total_amounts rows entries its :
  Forall2 (sale_line rows order_id) entries its ->
  List.forallb (sellable rows) entries = true ->
  forall acc,
    items_total its acc
    = Some (List.fold_left PrimFloat.add (amounts rows entries) acc).
Proof.
  induction 1 as [ | e it entries its Hline Hrest IH]; intros Hall acc.
  - reflexivity.
  - simpl in Hall. apply andb_prop in Hall. destruct Hall as [He Hall].
    destruct (sellable_resolve _ _ He) as (p & a & Hp & Hm & Ha & _).
    destruct Hline as (p' & Hp' & _ & _ & Hq & Hu).
    assert (p' = p) by congruence. subst p'.
    unfold amounts. simpl. rewrite Ha. simpl.
    rewrite Hq, Hu, Hm. now apply IH.
Qed.

Lemma amounts_length rows entries :
  List.forallb (sellable rows) entries = true ->
  List.length (amounts rows entries) = List.length entries.
Proof.
  induction entries as [ | e entries IH]; intros Hall; [reflexivity | ].
  simpl in Hall. apply andb_prop in Hall. destruct Hall as [He Hall].
  destruct (sellable_resolve _ _ He) as (p & a & _ & _ & Ha & _).
  unfold amounts in *. simpl. rewrite Ha. simpl. now rewrite IH.
Qed.

End Sold.

(** ** Stock after a sale *)

Section Stock.

Variable order_id : Z.
Implicit Types (db : database) (entries : cart) (rows : list Product.t).

Lemma resolve_id_set rows i v k :
  option_map Product.id (resolve (Product_set rows i (with_stock v)) k)
  = option_map Product.id (resolve rows k).
Proof.
  pose proof (resolve_set rows i v k) as E.
  destruct (resolve (Product_set rows i (with_stock v)) k),
           (resolve rows k); simpl in *; congruence.
Qed.

Lemma sold_qty_set rows i v entries j :
  sold_qty (Product_set rows i (with_stock v)) entries j = sold_qty rows entries j.
Proof.
  induction entries as [ | e entries IH]; simpl; [reflexivity | ].
  pose proof (resolve_id_set rows i v (fst e)) as E.
  destruct (resolve (Product_set rows i (with_stock v)) (fst e)) as [p | ],
           (resolve rows (fst e)) as [q | ]; simpl in E; try discriminate.
  - injection E as E. rewrite E, IH. reflexivity.
  - exact IH.
Qed.

(** After the sale the stock of every product is lower by the quantity
    of that product in the cart. *)
Lemma sold_stock entries : forall db j p,
  List.forallb (found (products db)) entries = true ->
  Product_get (products db) j = Some p ->
  exists p',
    Product_get (products (sold order_id entries db)) j = Some p'
    /\ Product.stock p' = Product.stock p - sold_qty (products db) entries j.
Proof.
  induction entries as [ | [pid qty] entries IH]; intros db j p Hall Hj.
  - exists p. simpl. split; [exact Hj | lia].
  - simpl in Hall. apply andb_prop in Hall. destruct Hall as [He Hall].
    unfold found in He. simpl in He. simpl.
    destruct (resolve (products db) pid) as [p1 | ] eqn:Hp1; [ | discriminate].
    destruct (resolve_get _ _ _ Hp1) as (i & Hi & Hg).
    pose proof (get_id _ _ _ Hg) as Hid1.
    pose proof (get_id _ _ _ Hj) as Hidj.
    match goal with
    | |- context [sold order_id entries ?d] =>
        destruct (IH d j (if Product.id p =? Product.id p1
                          then with_stock (Product.stock p1 - qty) p else p))
          as (p' & Hp' & Hstock)
    end.
    + simpl. now rewrite forallb_found_set.
    + simpl. rewrite Product_get_set by apply with_stock_id. now rewrite Hj.
    + exists p'. split; [exact Hp' | ]. rewrite Hstock. simpl.
      rewrite sold_qty_set.
      destruct (Product.id p =? Product.id p1) eqn:E.
      * apply Z.eqb_eq in E.
        assert (p = p1) by congruence. subst p1.
        rewrite <- Hidj, Z.eqb_refl. simpl. lia.
      * rewrite Z.eqb_sym in E. rewrite <- Hidj, E. lia.
Qed.

(** A product that a single entry of a validated cart stands for keeps
    a stock that is not negative. *)
Lemma sold_qty_single rows entries e p :
  In e entries ->
  resolve rows (fst e) = Some p ->
  NoDup (cart_product_ids rows entries) ->
  sold_qty rows entries (Product.id p) = snd e.
Proof.
  unfold cart_product_ids.
  induction entries as [ | e' entries IH]; intros Hin Hp Hnd; [contradiction | ].
  simpl in Hnd. inversion Hnd as [ | ? ? Hnotin Hnd']; subst.
  assert (Hzero : ~ In (Some (Product.id p))
                    (map (fun e => option_map Product.id (resolve rows (fst e)))
                       entries) ->
                  sold_qty rows entries (Product.id p) = 0).
  { clear. induction entries as [ | e2 entries IH2]; simpl; intros Hn;
      [reflexivity | ].
    destruct (resolve rows (fst e2)) as [q | ]; simpl in Hn.
    - destruct (Product.id q =? Product.id p) eqn:E.
      + apply Z.eqb_eq in E. rewrite E in Hn. tauto.
      + apply IH2. tauto.
    - apply IH2. tauto. }
  simpl. destruct Hin as [-> | Hin].
  - rewrite Hp, Z.eqb_refl. rewrite Hp in Hnotin. simpl in Hnotin.
    rewrite (Hzero Hnotin). lia.
  - destruct (resolve rows (fst e')) as [q | ] eqn:Hq.
    + destruct (Product.id q =? Product.id p) eqn:E.
      * apply Z.eqb_eq in E. exfalso. apply Hnotin. simpl. rewrite E.
        apply in_map_iff. exists e. now rewrite Hp.
      * now apply IH.
    + now apply IH.
Qed.

End Stock.

(** ** Cart operations *)


(** ** Checkout *)

Lemma amounts_lines (rows : list Product.t) (entries : cart) :
  List.forallb (sellable rows) entries = true ->
  Forall2
    (fun e a =>
       exists p, resolve rows (fst e) = Some p
                 /\ Py.mul_int (Product.price p) (snd e) = inr a)
    entries (amounts rows entries).
Proof.
  induction entries as [ | e entries IH]; intros Hall; [constructor | ].
  simpl in Hall. apply andb_prop in Hall. destruct Hall as [He Hall].
  destruct (sellable_resolve _ _ He) as (p & a & Hp & Hm & Ha & _).
  unfold amounts in *. simpl. rewrite Ha. simpl.
  constructor; [now exists p | now apply IH].
Qed.

Section CheckoutTheorems.

Variables (cashier : Z) (now stamp : Py.datetime) (form : checkout_form).
Variables (db : database) (session : option cart).

#[local] Abbreviation r := (serve (checkout cashier now stamp form) db session).
#[local] Abbreviation c := (cart_of session).
#[local] Abbreviation code := (normalized (form_promo_code form)).

(** A receipt is answered exactly when the checkout settles. *)
Lemma receipt_settles (oid : Z) :
  answer r = Replied (redirect_receipt oid) ->
  exists paid change,
    settles db c now form = Some (paid, change)
    /\ session = Some c
    /\ r = (let o := new_order db cashier stamp form
                       (total_due_for db c now form) paid change in
            mk_served (sold (Order.id o) c (add_order o db)) (Some []) []
              (Replied (redirect_receipt (Order.id o)))).
Proof.
  intros Hr.
  destruct (settles db (cart_of session) now form) as [[paid change] | ] eqn:Hs.
  - exists paid, change.
    assert (Hsess : session = Some (cart_of session)).
    { destruct session as [c0 | ]; [reflexivity | ].
      unfold settles, reaches_payment in Hs. discriminate. }
    repeat split; [exact Hsess | ].
    rewrite Hsess at 1. now apply checkout_settled.
  - destruct (checkout_unsettled cashier now stamp form db session Hs)
      as (_ & _ & Hno).
    now elim (Hno oid).
Qed.


Lemma receipt_database (oid : Z) :
  answer r = Replied (redirect_receipt oid) ->
  exists paid change,
    settles db c now form = Some (paid, change)
    /\ let o := new_order db cashier stamp form (total_due_for db c now form)
                  paid change in
       Order.id o = oid
       /\ db_after r = sold oid c (add_order o db)
       /\ session_after r = Some []
       /\ flashed r = [].
Proof.
  intros Hr.
  destruct (receipt_settles oid Hr) as (paid & change & Hs & _ & E).
  exists paid, change. split; [exact Hs | ].
  rewrite E in Hr. simpl in Hr. injection Hr as Hoid.
  rewrite E. simpl. rewrite Hoid. now repeat split.
Qed.

Lemma settles_sellable (paid change : float) :
  settles db c now form = Some (paid, change) ->
  List.forallb (sellable (products db)) c = true.
Proof.
  unfold settles.
  destruct (reaches_payment db c now form) eqn:Hr; [ | discriminate].
  intros _. now destruct (reaches_payment_inv _ _ _ _ Hr) as (_ & Hall & _).
Qed.

(** C2.  For every successful checkout the order that is persisted has
    total [max(0, round(subtotal - discount, 2))], where the subtotal is
    the sum, not rounded, of [product.price * quantity] over the cart
    entries, one amount per entry, and the discount is the one of the
    promo code, zero when no promo code is supplied. *)
Theorem order_total_is_rounded_difference (oid : Z) :
  answer r = Replied (redirect_receipt oid) ->
  let subtotal := subtotal_of (products db) c in
  let discount :=
    discount_for (promocodes db) now (form_promo_code form) subtotal in
  exists o,
    orders (db_after r) = (orders db ++ [o])%list
    /\ Order.id o = oid
    /\ Order.total o = Py.max 0 (Py.round (subtotal - discount) 2)
    /\ subtotal = List.fold_left PrimFloat.add (amounts (products db) c) 0%float
    /\ Forall2
         (fun e a =>
            exists p, resolve (products db) (fst e) = Some p
                      /\ Py.mul_int (Product.price p) (snd e) = inr a)
         c (amounts (products db) c)
    /\ (nonempty (normalized (form_promo_code form)) = false ->
        discount = 0%float).
Proof.
  intros Hr subtotal discount.
  destruct (receipt_database oid Hr) as (paid & change & Hs & Hid & Hdb & _).
  exists (new_order db cashier stamp form (total_due_for db c now form) paid change).
  rewrite Hdb. repeat split.
  - now destruct (sold_orders oid c (add_order
      (new_order db cashier stamp form (total_due_for db c now form) paid change)
      db)) as [-> _].
  - exact Hid.
  - apply amounts_lines. exact (settles_sellable _ _ Hs).
  - subst discount. unfold discount_for. now intros ->.
Qed.



(** C7.  For every successful checkout each order item carries the price
    its product has at checkout time, and [quantity * unit_price] summed
    over the items of the order is the subtotal the order was priced
    from. *)
Theorem order_items_capture_prices (oid : Z) :
  answer r = Replied (redirect_receipt oid) ->
  exists o its,
    orders (db_after r) = (orders db ++ [o])%list
    /\ order_items (db_after r) = (order_items db ++ its)%list
    /\ Forall2 (sale_line (products db) oid) c its
    /\ items_total its 0%float = Some (subtotal_of (products db) c)
    /\ Order.id o = oid
    /\ Order.total o
       = total_due_of (subtotal_of (products db) c)
           (discount_for (promocodes db) now (form_promo_code form)
              (subtotal_of (products db) c)).
Proof.
  intros Hr.
  destruct (receipt_database oid Hr) as (paid & change & Hs & Hid & Hdb & _).
  pose proof (settles_sellable _ _ Hs) as Hall.
  set (o := new_order db cashier stamp form (total_due_for db c now form)
              paid change) in *.
  destruct (sold_items oid c (add_order o db) (products db))
    as (its & Hits & Hlines).
  { reflexivity. }
  { now apply sellable_found. }
  exists o, its. rewrite Hdb, Hits.
  destruct (sold_orders oid c (add_order o db)) as [-> _].
  repeat split; try assumption.
  now apply (items_total_amounts oid (products db) c its).
Qed.



End CheckoutTheorems.

(** ** The POS view *)

Section PosView.

Variables (now : Py.datetime) (promo : option string).
#[local] Abbreviation code := (normalized promo).

Lemma pos_lines_ok (entries : cart) : forall items acc st,
  List.forallb (viewable (products (working st))) entries = true ->
  exists items',
    pos_lines entries items acc st
    = (Val (items',
            List.fold_left PrimFloat.add (amounts (products (working st)) entries)
              acc), st).
Proof.
  induction entries as [ | [pid qty] entries IH]; intros items acc st Hall.
  - now exists items.
  - simpl in Hall. apply andb_prop in Hall. destruct Hall as [He Hall].
    unfold viewable in He. simpl in He. simpl. unfold_handler.
    unfold amounts, line_amount, resolve. simpl.
    destruct (int_of_key pid) as [ex | i]; [discriminate | ].
    destruct (Product_get (products (working st)) i) as [p | ].
    + destruct (Py.mul_int (Product.price p) qty) as [ex | a]; [discriminate | ].
      simpl. now apply IH.
    + now apply IH.
Qed.

Lemma pos_lines_raise (entries : cart) : forall items acc st,
  List.forallb (viewable (products (working st))) entries = false ->
  exists ex, pos_lines entries items acc st = (Raise ex, st).
Proof.
  induction entries as [ | [pid qty] entries IH]; intros items acc st Hall.
  - discriminate.
  - simpl in Hall. unfold viewable in Hall. simpl in Hall.
    simpl. unfold_handler.
    destruct (int_of_key pid) as [ex | i]; [now exists ex | ].
    destruct (Product_get (products (working st)) i) as [p | ].
    + destruct (Py.mul_int (Product.price p) qty) as [ex | a]; [now exists ex | ].
      now apply IH.
    + now apply IH.
Qed.

Lemma pos_promo_unusable st (subtotal : float) :
  nonempty code = true ->
  usable_promo (promocodes (working st)) now code = None ->
  pos_promo now code subtotal st
  = (Val 0%float,
     mk_hstate (committed st) (working st) (session_cart st)
       (flashes st ++ [("Invalid or expired promo code.", "warning")])%list).
Proof.
  unfold pos_promo, usable_promo. intros -> Hpc.
  unfold bind, query, flash, ret.
  destruct (PromoCode_active (promocodes (working st)) code) as [pc | ];
    [ | reflexivity].
  destruct (not_expired pc now); [discriminate | reflexivity].
Qed.

Lemma pos_promo_usable st (subtotal : float) :
  (nonempty code = false
   \/ exists pc, nonempty code = true
                 /\ usable_promo (promocodes (working st)) now code = Some pc) ->
  pos_promo now code subtotal st
  = (Val (discount_for (promocodes (working st)) now promo subtotal), st).
Proof.
  unfold pos_promo, discount_for.
  intros [-> | (pc & -> & Hpc)]; [reflexivity | ].
  rewrite Hpc. apply usable_promo_inv in Hpc. destruct Hpc as [Ha Hn].
  unfold bind, query. now rewrite Ha, Hn.
Qed.

(** C10.  In the POS view a promo code that is not found, inactive or
    expired does not abort: the page is rendered with a discount of zero,
    so the total shown is [max(0, round(subtotal, 2))], the warning is
    flashed, and the cart and the database are unchanged.  (The page is
    rendered whenever the cart can be shown at all.) *)
Theorem pos_view_ignores_unusable_promo (db : database) (session : option cart) :
  nonempty code = true ->
  usable_promo (promocodes db) now code = None ->
  let r := serve (pos_get now promo) db session in
  db_after r = db
  /\ cart_of (session_after r) = cart_of session
  /\ (List.forallb (viewable (products db)) (cart_of session) = true ->
      exists page,
        answer r = Replied (render_pos page)
        /\ subtotal page = subtotal_of (products db) (cart_of session)
        /\ promo_discount page = 0%float
        /\ total_after_discount page = Py.max 0 (Py.round (subtotal page) 2)
        /\ flashed r = [("Invalid or expired promo code.", "warning")])
  /\ (List.forallb (viewable (products db)) (cart_of session) = false ->
      exists ex, answer r = ServerError ex).
Proof.
  intros Hne Hpc r. subst r. unfold serve, pos_get.
  set (st0 := mk_hstate db db (Some (cart_of session)) []).
  assert (Hget : get_cart (mk_hstate db db session []) = (Val (cart_of session), st0)).
  { unfold get_cart. now destruct session. }
  rewrite (bind_Val _ _ _ _ _ Hget).
  destruct (forallb (viewable (products db)) (cart_of session)) eqn:Hall.
  - destruct (pos_lines_ok (cart_of session) [] 0%float st0 Hall) as (items' & E).
    rewrite (bind_Val _ _ _ _ _ E). cbv beta iota.
    fold code.
    rewrite (bind_Val _ _ _ _ _ (pos_promo_unusable st0 _ Hne Hpc)).
    unfold ret. simpl. repeat split; try discriminate.
    intros _. eexists. split; [reflexivity | ]. simpl.
    rewrite PyFacts.sub_zero. now repeat split.
  - destruct (pos_lines_raise (cart_of session) [] 0%float st0 Hall) as (ex & E).
    rewrite (bind_Raise _ _ _ _ _ E). simpl.
    repeat split; try discriminate. intros _. now exists ex.
Qed.

End PosView.

(** ** Promo discounts *)

Section PromoDiscount.

Variables (rows : list PromoCode.t) (now : Py.datetime) (field : option string).
#[local] Abbreviation code := (normalized field).

(** C1, as amended.  For a promo evaluation against a subtotal [s >= 0]:
    a fixed promo gives [min(s, value)], which is at least zero and at
    most [s] when the stored value is not negative; a percentage promo
    gives [round(s * value / 100, 2)], which the code keeps in no range;
    without a usable promo code the discount is zero. *)
Theorem promo_discount_bounds (s : float) :
  (0 <=? s)%float = true ->
  let d := discount_for rows now field s in
  (forall pc,
     nonempty code = true ->
     usable_promo rows now code = Some pc ->
     (PromoCode.discount_type pc = "percent" ->
      d = Py.round (s * (PromoCode.discount_value pc / 100)) 2)
     /\ (PromoCode.discount_type pc <> "percent" ->
         d = Py.min s (PromoCode.discount_value pc)
         /\ ((0 <=? PromoCode.discount_value pc)%float = true ->
             (0 <=? d)%float = true /\ (d <=? s)%float = true)))
  /\ (nonempty code = false \/ usable_promo rows now code = None ->
      d = 0%float /\ (0 <=? d)%float = true /\ (d <=? s)%float = true).
Proof.
  intros Hs d. subst d. unfold discount_for. split.
  - intros pc -> ->. unfold discount_of. split.
    + intros ->. reflexivity.
    + intros Hty.
      destruct (PromoCode.discount_type pc =? "percent")%string eqn:E.
      * apply String.eqb_eq in E. contradiction.
      * split; [reflexivity | ]. intros Hv. now apply PyFacts.min_bounds.
  - intros Hnone.
    assert (E : (if nonempty code
                 then match usable_promo rows now code with
                      | Some pc => discount_of pc s
                      | None => 0%float
                      end
                 else 0%float) = 0%float).
    { destruct Hnone as [-> | ->]; [reflexivity | ].
      now destruct (nonempty code). }
    rewrite E. repeat split; try reflexivity. exact Hs.
Qed.

End PromoDiscount.

(** ** Stock after a checkout *)

Section CheckoutStock.

Variables (cashier : Z) (now stamp : Py.datetime) (form : checkout_form).
Variables (db : database) (session : option cart).

#[local] Abbreviation r := (serve (checkout cashier now stamp form) db session).
#[local] Abbreviation c := (cart_of session).

(** After a successful checkout the stock of every product is lower by
    the quantity of that product in the cart, all entries that stand for
    it taken together. *)
Lemma checkout_stock (oid j : Z) (p : Product.t) :
  answer r = Replied (redirect_receipt oid) ->
  Product_get (products db) j = Some p ->
  exists p',
    Product_get (products (db_after r)) j = Some p'
    /\ Product.stock p' = Product.stock p - sold_qty (products db) c j.
Proof.
  intros Hr Hj.
  destruct (receipt_database cashier now stamp form db session oid Hr)
    as (paid & change & Hs & Hid & Hdb & _).
  rewrite Hdb.
  apply (sold_stock oid c
           (add_order (new_order db cashier stamp form
                         (total_due_for db c now form) paid change) db) j p).
  - apply sellable_found.
    exact (settles_sellable now form db session _ _ Hs).
  - exact Hj.
Qed.

(** When the entries of the cart stand for different products, a
    successful checkout lowers the stock of each by the quantity of its
    entry and leaves none negative. *)
Lemma checkout_stock_distinct (oid : Z) (e : option string * Z) (p : Product.t) :
  answer r = Replied (redirect_receipt oid) ->
  NoDup (cart_product_ids (products db) c) ->
  In e c ->
  resolve (products db) (fst e) = Some p ->
  exists p',
    Product_get (products (db_after r)) (Product.id p) = Some p'
    /\ Product.stock p' = Product.stock p - snd e
    /\ 0 <= Product.stock p'.
Proof.
  intros Hr Hnd Hin Hp.
  destruct (resolve_get _ _ _ Hp) as (i & Hi & Hg).
  pose proof (get_id _ _ _ Hg) as Hid. rewrite <- Hid in Hg.
  destruct (checkout_stock oid (Product.id p) p Hr Hg) as (p' & Hp' & Hstock).
  rewrite (sold_qty_single _ _ e p Hin Hp Hnd) in Hstock.
  exists p'. repeat split; try assumption.
  destruct (receipt_database cashier now stamp form db session oid Hr)
    as (paid & change & Hs & _).
  pose proof (settles_sellable now form db session _ _ Hs) as Hall.
  rewrite forallb_forall in Hall. specialize (Hall e Hin).
  destruct (sellable_resolve _ _ Hall) as (q & a & Hq & _ & _ & Hlt).
  assert (q = p) by congruence. subst q.
  apply Z.ltb_ge in Hlt. lia.
Qed.

End CheckoutStock.

(** C6, at a failing input.  [update_qty] stores the key it is sent, so
    a request with [pid=01] puts three more shirts beside the three under
    ["1"].  Each entry passes the stock validation against the five in
    stock, the checkout succeeds, and the stock of the shirt ends at
    minus one. *)
Theorem aliased_keys_oversell :
  let before := Some [(Some "1", 3)] in
  let post := mk_pos_form (Some "update_qty") None (Some "01") (Some "3") in
  let r := serve (checkout 7 sample_now sample_now (pay_by "card" None))
             sample_db (Some alias_cart) in
  session_after (serve (pos_post post) sample_db before) = Some alias_cart
  /\ List.forallb (sellable (products sample_db)) alias_cart = true
  /\ answer r = Replied (redirect_receipt 1)
  /\ List.map Product.stock (products sample_db) = [5; 5; 5]
  /\ List.map Product.stock (products (db_after r)) = [-1; 5; 5]
  /\ List.map OrderItem.quantity (order_items (db_after r)) = [3; 3].
Proof. vm_compute. repeat split. Qed.

(** ** Reports *)

Section Months.

Lemma valid_datetime_inv (t : Py.datetime) :
  Py.valid_datetime t = true ->
  Py.valid_date (Py.dt_date t) = true
  /\ 0 <= Py.hour t /\ 0 <= Py.minute t /\ 0 <= Py.second t
  /\ 0 <= Py.microsecond t.
Proof.
  unfold Py.valid_datetime. intros H.
  do 8 (apply andb_prop in H; destruct H as [H ?]).
  repeat match goal with
         | H : (_ <=? _) = true |- _ => apply Z.leb_le in H
         end.
  repeat split; assumption.
Qed.

(** Between the first instant of a month and the first instant of the
    next: created in that month. *)
Lemma created_in_month (y m : Z) (start stop : Py.datetime) (o : Order.t) :
  1 <= m <= 12 ->
  Py.valid_datetime (Order.created_at o) = true ->
  start = Py.mk_datetime (Py.mk_date y m 1) 0 0 0 0 ->
  stop = (if m =? 12 then Py.mk_datetime (Py.mk_date (y + 1) 1 1) 0 0 0 0
          else Py.mk_datetime (Py.mk_date y (m + 1) 1) 0 0 0 0) ->
  created_between start stop o = in_month y m o.
Proof.
  intros Hm Hv -> ->.
  destruct (valid_datetime_inv _ Hv) as (Hd & Hh & Hmi & Hs & Hus).
  destruct (valid_date_inv _ Hd) as (Hy & Hmo & Hday).
  unfold created_between, in_month, Py.datetime_ge, Py.datetime_lt,
    Py.datetime_compare, Py.datetime_fields.
  destruct (Order.created_at o) as [[ty tm td] th tmi ts tus]. simpl in *.
  destruct (Z.eqb_spec m 12) as [-> | Hne]; simpl.
  all: repeat match goal with
         | |- context [?a ?= ?b] => destruct (Z.compare_spec a b); simpl
         end.
  all: repeat match goal with
         | |- context [?a =? ?b] => destruct (Z.eqb_spec a b); simpl
         end.
  all: try reflexivity; lia.
Qed.

Lemma filter_ext_Forall {A : Type} (f g : A -> bool) (P : A -> Prop) (l : list A) :
  Forall P l -> (forall a, P a -> f a = g a) -> List.filter f l = List.filter g l.
Proof.
  induction 1 as [ | a l Ha Hl IH]; intros Hfg; [reflexivity | ].
  simpl. rewrite (Hfg a Ha), IH by assumption. reflexivity.
Qed.

Lemma valid_first_of_month (y m : Z) :
  1 <= y <= 9999 -> 1 <= m <= 12 -> Py.valid_date (Py.mk_date y m 1) = true.
Proof.
  intros Hy Hm. unfold Py.valid_date, Py.MINYEAR, Py.MAXYEAR. simpl.
  assert (1 <= Py.days_in_month y m).
  { unfold Py.days_in_month.
    destruct (Py.is_leap y);
      destruct (month_cases m Hm) as [-> | [-> | [-> | [-> | [-> | [-> | [-> |
        [-> | [-> | [-> | [-> | ->]]]]]]]]]]]; simpl; lia. }
  rewrite !andb_true_iff, !Z.leb_le. lia.
Qed.

Lemma datetime_ymd_ok (y m d : Z) :
  Py.valid_date (Py.mk_date y m d) = true ->
  Py.datetime_ymd y m d = inr (Py.mk_datetime (Py.mk_date y m d) 0 0 0 0).
Proof. unfold Py.datetime_ymd. now intros ->. Qed.

Lemma month_bucket_ok (rows : list Order.t) (y m : Z) :
  1 <= y <= 9998 -> 1 <= m <= 12 ->
  Forall (fun o => Py.valid_datetime (Order.created_at o) = true) rows ->
  month_bucket rows (y, m)
  = inr (mk_bucket (Py.str y ++ "-" ++ Py.fmt02 m)
           (Py.round (total_of (List.filter (in_month y m) rows)) 2)
           (count_of (List.filter (in_month y m) rows))).
Proof.
  intros Hy Hm Hrows. unfold month_bucket.
  rewrite (datetime_ymd_ok y m 1)
    by (apply valid_first_of_month; lia).
  assert (Hstop : (if m =? 12 then Py.datetime_ymd (y + 1) 1 1
                   else Py.datetime_ymd y (m + 1) 1)
                  = inr (if m =? 12
                         then Py.mk_datetime (Py.mk_date (y + 1) 1 1) 0 0 0 0
                         else Py.mk_datetime (Py.mk_date y (m + 1) 1) 0 0 0 0)).
  { destruct (Z.eqb_spec m 12) as [-> | Hne];
      apply datetime_ymd_ok, valid_first_of_month; lia. }
  rewrite Hstop. simpl.
  rewrite (filter_ext_Forall _ (in_month y m) _ rows Hrows).
  - reflexivity.
  - intros o Ho. now apply (created_in_month y m).
Qed.

End Months.

Section Reports.

Variables (now : Py.datetime) (rows : list Order.t).
Hypothesis now_valid : Py.valid_datetime now = true.
Hypothesis now_year : 2 <= Py.year (Py.dt_date now) <= 9998.
Hypothesis rows_valid :
  Forall (fun o => Py.valid_datetime (Order.created_at o) = true) rows.

Lemma range_down_In (n : nat) (i : Z) :
  In i (Py.range_down n) -> 0 <= i < Z.of_nat n.
Proof.
  unfold Py.range_down. rewrite in_map_iff. intros (k & <- & Hk).
  apply in_rev, in_seq in Hk. lia.
Qed.

Lemma today_ordinal : 366 <= Py.ymd2ord (Py.dt_date now).
Proof.
  destruct (valid_datetime_inv now now_valid) as (Hd & _).
  destruct (valid_date_inv _ Hd) as (Hy & Hm & Hday).
  destruct (ymd2ord_in_year _ Hm Hday) as [Hlo _].
  pose proof (days_before_year_mono 2 (Py.year (Py.dt_date now)) ltac:(lia)) as H.
  change (Py.days_before_year 2) with 365 in H. lia.
Qed.

#[local] Abbreviation first := (first_of_month now).

Lemma first_valid : Py.valid_date first = true.
Proof.
  destruct (valid_datetime_inv now now_valid) as (Hd & _).
  destruct (valid_date_inv _ Hd) as (Hy & Hm & Hday).
  apply valid_first_of_month; lia.
Qed.

Lemma first_ordinal : 366 <= Py.ymd2ord first.
Proof.
  destruct (valid_date_inv _ first_valid) as (Hy & Hm & Hday).
  destruct (ymd2ord_in_year _ Hm Hday) as [Hlo _].
  pose proof (days_before_year_mono 2 (Py.year first) (proj1 now_year)) as H.
  change (Py.days_before_year 2) with 365 in H. lia.
Qed.

Lemma monthly_months_ok :
  monthly_months now = inr (List.map (month_back now) (Py.range_down 12)).
Proof.
  unfold monthly_months.
  rewrite datetime_ymd_ok by exact first_valid. unfold Py.and_then at 1.
  apply for_each_map. intros i Hi. apply range_down_In in Hi.
  pose proof first_ordinal as Ho.
  unfold Py.datetime_sub_days. cbn [Py.dt_date]. fold (first_of_month now).
  destruct (date_sub_days_ok first (30 * i) first_valid ltac:(lia)) as (-> & _).
  reflexivity.
Qed.

Lemma month_back_range (i : Z) :
  0 <= i < 12 ->
  1 <= fst (month_back now i) <= 9998 /\ 1 <= snd (month_back now i) <= 12.
Proof.
  intros Hi. pose proof first_ordinal as Ho.
  destruct (date_sub_days_ok first (30 * i) first_valid ltac:(lia))
    as (_ & Hv & Hle & _).
  destruct (valid_date_inv _ Hv) as (Hy & Hm & _).
  unfold month_back. cbn [fst snd]. cbn [Py.year first_of_month] in Hle. lia.
Qed.

Lemma month_back_0 :
  month_back now 0 = (Py.year (Py.dt_date now), Py.month (Py.dt_date now)).
Proof.
  unfold month_back. replace (Py.ymd2ord first - 30 * 0) with (Py.ymd2ord first)
    by lia.
  destruct (valid_date_inv _ first_valid) as (Hy & Hm & Hday).
  rewrite ord2ymd_ymd2ord by (try assumption; lia). reflexivity.
Qed.


Lemma monthly_series_ok :
  monthly_series now rows
  = inr (List.map (bucket_of_month rows)
           (List.map (month_back now) (Py.range_down 12))).
Proof.
  unfold monthly_series. rewrite monthly_months_ok. unfold Py.and_then.
  apply for_each_map. intros ym Hym.
  apply in_map_iff in Hym. destruct Hym as (i & <- & Hi).
  apply range_down_In in Hi.
  destruct (month_back_range i Hi) as [Hy Hm].
  destruct (month_back now i) as [y m]. simpl in Hy, Hm.
  now apply month_bucket_ok.
Qed.

Lemma day_back_valid (i : Z) :
  0 <= i < 84 ->
  Py.date_sub_days (Py.dt_date now) i = inr (day_back now i)
  /\ Py.valid_date (day_back now i) = true
  /\ Py.ymd2ord (day_back now i) < Py.MAXORDINAL.
Proof.
  intros Hi. pose proof today_ordinal as Ho.
  destruct (valid_datetime_inv now now_valid) as (Hd & _).
  destruct (date_sub_days_ok (Py.dt_date now) i Hd ltac:(lia))
    as (E & Hv & Hle & Hord).
  repeat split; try assumption.
  destruct (valid_date_inv _ Hv) as (Hy & Hm & Hday).
  destruct (ymd2ord_in_year _ Hm Hday) as [_ Hhi].
  pose proof (days_before_year_mono
                (Py.year (Py.ord2ymd (Py.ymd2ord (Py.dt_date now) - i)) + 1) 9999
                ltac:(lia)) as H.
  change (Py.days_before_year 9999) with 3651694 in H.
  unfold day_back, Py.MAXORDINAL. lia.
Qed.

Lemma summarize_range_ok (n : nat) :
  (n <= 84)%nat ->
  summarize_range now rows n
  = inr (List.map (entry_of_day rows)
           (List.map (day_back now) (Py.range_down n))).
Proof.
  intros Hn. unfold summarize_range, daterange_days.
  rewrite (for_each_map _ (day_back now)).
  2:{ intros i Hi. apply range_down_In in Hi.
      now destruct (day_back_valid i ltac:(lia)) as (-> & _). }
  unfold Py.and_then at 1. apply for_each_map. intros d Hd.
  apply in_map_iff in Hd. destruct Hd as (i & <- & Hi).
  apply range_down_In in Hi.
  destruct (day_back_valid i ltac:(lia)) as (_ & Hv & Hlt).
  pose proof (valid_date_ordinal _ Hv) as Ho.
  destruct (day_back now i) as [y m dd] eqn:Ed. cbn [Py.year Py.month Py.day].
  rewrite (datetime_ymd_ok y m dd Hv). unfold Py.and_then at 1.
  unfold Py.datetime_sub_days, Py.date_sub_days. cbn [Py.dt_date].
  replace (Py.ymd2ord (Py.mk_date y m dd) - -1)
    with (Py.ymd2ord (Py.mk_date y m dd) + 1) by lia.
  replace (0 <? Py.ymd2ord (Py.mk_date y m dd) + 1) with true
    by (symmetry; apply Z.ltb_lt; lia).
  replace (Py.ymd2ord (Py.mk_date y m dd) + 1 <=? Py.MAXORDINAL) with true
    by (symmetry; apply Z.leb_le; lia).
  reflexivity.
Qed.

End Reports.

Section Weekly.

Implicit Types (raw : list day_entry) (buckets : Py.dict string bucket).

Lemma string_dict_set_keys buckets (k x : string) (v : bucket) :
  In x (List.map fst (Py.dict_set buckets k v)) ->
  x = k \/ In x (List.map fst buckets).
Proof.
  induction buckets as [ | [k' v'] buckets IH]; cbn [Py.dict_set].
  - simpl. intros [<- | []]. now left.
  - destruct (Py.key_eqb k' k); simpl.
    + tauto.
    + intros [<- | Hx]; [tauto | ]. destruct (IH Hx); tauto.
Qed.

Lemma weekly_buckets_keys raw : forall buckets (x : string),
  In x (List.map fst
          (List.fold_left
             (fun buckets d =>
                let week := Py.strftime_YWU (entry_date d) in
                let b := Py.dict_get_default buckets week (mk_bucket week 0 0) in
                Py.dict_set buckets week
                  (mk_bucket (label b) (total b + entry_total d)%float
                     (orders_count b + entry_orders d)))
             raw buckets)) ->
  In x (List.map fst buckets)
  \/ exists d, In d raw /\ x = Py.strftime_YWU (entry_date d).
Proof.
  induction raw as [ | d raw IH]; intros buckets x; simpl.
  - tauto.
  - intros Hx. apply IH in Hx. destruct Hx as [Hx | (d' & Hd' & ->)].
    + apply string_dict_set_keys in Hx. destruct Hx as [-> | Hx]; eauto.
    + eauto.
Qed.

Lemma insert_by_key_In {V : Type} (kv x : string * V) (l : list (string * V)) :
  In x (Py.insert_by_key kv l) -> x = kv \/ In x l.
Proof.
  induction l as [ | kv' l IH]; simpl.
  - intuition.
  - destruct (String.leb (fst kv) (fst kv')); simpl; intuition.
Qed.

Lemma sorted_items_In {V : Type} (d : Py.dict string V) (x : string * V) :
  In x (Py.sorted_items d) -> In x d.
Proof.
  unfold Py.sorted_items. induction d as [ | kv d IH]; simpl; [tauto | ].
  intros Hx. apply insert_by_key_In in Hx. intuition.
Qed.

Lemma last_n_In {A : Type} (n : nat) (l : list A) (x : A) :
  In x (Py.last_n n l) -> In x l.
Proof.
  unfold Py.last_n. intros Hx.
  rewrite <- (firstn_skipn (List.length l - n) l). apply in_or_app. now right.
Qed.

Lemma last_n_length {A : Type} (n : nat) (l : list A) :
  (List.length (Py.last_n n l) <= n)%nat.
Proof. unfold Py.last_n. rewrite length_skipn. lia. Qed.

Lemma weekly_series_labels raw (b : bucket) :
  In b (weekly_series raw) ->
  exists d, In d raw /\ label b = Py.strftime_YWU (entry_date d).
Proof.
  unfold weekly_series. intros Hb. apply last_n_In in Hb.
  apply in_map_iff in Hb. destruct Hb as ([k v] & <- & Hkv).
  apply sorted_items_In in Hkv. simpl.
  destruct (weekly_buckets_keys raw [] k) as [[] | Hd].
  - apply in_map_iff. now exists (k, v).
  - exact Hd.
Qed.

End Weekly.


(** ** Sample runs *)

(** C1 fails as stated: on the POS page of the sample shop a promo of 150
    percent gives a discount above the subtotal, a fixed promo of minus
    five a discount below zero, and a promo of 100 percent a discount of
    0.8 on a subtotal of 0.7999999999999999. *)
Lemma discount_outside_bounds :
  let violated r :=
    match answer r with
    | Replied (render_pos page) =>
        (0 <=? subtotal page)%float
        && negb ((0 <=? promo_discount page)%float
                 && (promo_discount page <=? subtotal page)%float)
    | _ => false
    end in
  violated (serve (pos_get sample_now (Some "big")) sample_db (Some sample_cart))
  = true
  /\ violated (serve (pos_get sample_now (Some "neg")) sample_db (Some sample_cart))
     = true
  /\ violated (serve (pos_get sample_now (Some "today")) sample_db (Some small_cart))
     = true.
Proof. vm_compute. repeat split. Qed.

Lemma promo_discount_bounds_witness :
  let d := discount_for sample_promocodes sample_now (Some "flat100") 50 in
  d = 50%float /\ (0 <=? d)%float = true /\ (d <=? 50)%float = true.
Proof.
  destruct (promo_discount_bounds sample_promocodes sample_now (Some "flat100") 50
              eq_refl) as [Hpc _].
  destruct (Hpc (PromoCode.mk 2 "FLAT100" "fixed" 100 true None) eq_refl eq_refl)
    as [_ Hfixed].
  assert (Hty : "fixed" <> "percent") by discriminate.
  destruct (Hfixed Hty) as [Hd Hb].
  destruct (Hb eq_refl) as [H0 Hs].
  split; [exact Hd | split; [exact H0 | exact Hs]].
Defined.

Lemma order_total_witness :
  let r := serve (checkout 7 sample_now sample_now (pay_cash 250 (Some "save10")))
             sample_db (Some sample_cart) in
  answer r = Replied (redirect_receipt 1)
  /\ exists o,
       orders (db_after r) = [o] /\ Order.id o = 1 /\ Order.total o = 180%float.
Proof.
  split; [reflexivity | ].
  destruct (order_total_is_rounded_difference 7 sample_now sample_now
              (pay_cash 250 (Some "save10")) sample_db (Some sample_cart) 1 eq_refl)
    as (o & Ho & Hid & Htotal & _).
  exists o. split; [exact Ho | split; [exact Hid | exact Htotal]].
Defined.

Lemma order_items_witness :
  let r := serve (checkout 7 sample_now sample_now (pay_by "upi" None))
             sample_db (Some small_cart) in
  exists its,
    order_items (db_after r) = its
    /\ Forall2 (sale_line sample_products 1) small_cart its
    /\ items_total its 0%float = Some (subtotal_of sample_products small_cart).
Proof.
  destruct (order_items_capture_prices 7 sample_now sample_now (pay_by "upi" None)
              sample_db (Some small_cart) 1 eq_refl)
    as (o & its & _ & Hits & Hlines & Htotal & _).
  exists its. split; [exact Hits | split; [exact Hlines | exact Htotal]].
Defined.




Lemma pos_view_witness :
  let r := serve (pos_get sample_now (Some "old")) sample_db (Some sample_cart) in
  db_after r = sample_db
  /\ cart_of (session_after r) = sample_cart.
Proof.
  destruct (pos_view_ignores_unusable_promo sample_now (Some "old") sample_db
              (Some sample_cart) eq_refl eq_refl) as (Hdb & Hcart & _).
  split; [exact Hdb | exact Hcart].
Defined.



(* ===================================================================== *)
(** * Further properties of the handlers                                 *)
(* ===================================================================== *)

(** ** Checkout: replay, catalogue and stock *)

Section CheckoutAgain.

Variables (cashier : Z) (now stamp : Py.datetime) (form : checkout_form).
Variables (db : database) (session : option cart).

Lemma checkout_empty :
  cart_of session = [] ->
  serve (checkout cashier now stamp form) db session
  = mk_served db (Some []) [("Cart is empty.", "warning")]
      (Replied (redirect_pos None)).
Proof.
  destruct session as [c | ]; simpl; intros E; [subst c | ]; reflexivity.
Qed.

End CheckoutAgain.

(** X1.  After a checkout that was answered with a receipt, the same request
    sent again (or any other checkout) finds the cart empty: it is answered
    "Cart is empty." and the database stays as the first checkout left it,
    so a double submission does not sell twice. *)
Theorem checkout_twice_is_refused
    (cashier cashier' : Z) (now stamp now' stamp' : Py.datetime)
    (form form' : checkout_form) (db : database) (session : option cart)
    (oid : Z) :
  let r := serve (checkout cashier now stamp form) db session in
  answer r = Replied (redirect_receipt oid) ->
  serve (checkout cashier' now' stamp' form') (db_after r) (session_after r)
  = mk_served (db_after r) (Some []) [("Cart is empty.", "warning")]
      (Replied (redirect_pos None)).
Proof.
  intros r Hr.
  destruct (receipt_database cashier now stamp form db session oid Hr)
    as (paid & change & _ & _ & _ & Hs & _).
  apply checkout_empty. fold r in Hs. now rewrite Hs.
Qed.

Lemma checkout_twice_witness :
  let r := serve (checkout 7 sample_now sample_now (pay_by "card" None))
             sample_db (Some sample_cart) in
  serve (checkout 7 sample_now sample_now (pay_by "card" None))
    (db_after r) (session_after r)
  = mk_served (db_after r) (Some []) [("Cart is empty.", "warning")]
      (Replied (redirect_pos None)).
Proof.
  exact (checkout_twice_is_refused 7 7 sample_now sample_now sample_now sample_now
           (pay_by "card" None) (pay_by "card" None) sample_db (Some sample_cart)
           1 eq_refl).
Defined.

Section Catalogue.

Lemma listing_set rows i v :
  List.map listing (Product_set rows i (with_stock v)) = List.map listing rows.
Proof.
  induction rows as [ | p rows IH]; [reflexivity | ].
  simpl. destruct (Product.id p =? i); simpl; [reflexivity | now rewrite IH].
Qed.

Lemma sold_listing order_id entries : forall db,
  List.map listing (products (sold order_id entries db))
  = List.map listing (products db).
Proof.
  induction entries as [ | [pid qty] entries IH]; intros db; [reflexivity | ].
  simpl. destruct (resolve (products db) pid) as [p | ]; [ | reflexivity].
  rewrite IH. simpl. apply listing_set.
Qed.

Lemma sold_appends order_id entries : forall db,
  exists its,
    order_items (sold order_id entries db) = (order_items db ++ its)%list.
Proof.
  induction entries as [ | [pid qty] entries IH]; intros db.
  - exists []. simpl. now rewrite app_nil_r.
  - simpl. destruct (resolve (products db) pid) as [p | ].
    + match goal with
      | |- context [sold order_id entries ?d] => destruct (IH d) as (its & E)
      end.
      rewrite E. simpl. rewrite <- app_assoc. eexists. reflexivity.
    + exists []. now rewrite app_nil_r.
Qed.

Lemma settles_session (db : database) (session : option cart) now form pc :
  settles db (cart_of session) now form = Some pc ->
  session = Some (cart_of session).
Proof.
  unfold settles, reaches_payment.
  destruct session as [c | ]; [reflexivity | ]. simpl. discriminate.
Qed.

Lemma sold_qty_nonneg rows entries j :
  cart_ok entries -> 0 <= sold_qty rows entries j.
Proof.
  induction 1 as [ | e entries He _ IH]; simpl; [lia | ].
  destruct (resolve rows (fst e)) as [p | ]; [ | exact IH].
  destruct (Product.id p =? j); lia.
Qed.

Lemma get_listing rows : forall rows' j p p',
  List.map listing rows' = List.map listing rows ->
  Product_get rows j = Some p ->
  Product_get rows' j = Some p' ->
  listing p' = listing p.
Proof.
  induction rows as [ | q rows IH]; intros [ | q' rows'] j p p' Hl Hq Hq';
    try discriminate.
  cbn [List.map] in Hl.
  assert (Hqq : listing q' = listing q) by congruence.
  assert (Hl' : List.map listing rows' = List.map listing rows) by congruence.
  assert (Hid : Product.id q' = Product.id q).
  { unfold listing in Hqq. congruence. }
  unfold Product_get in *. simpl in Hq, Hq'. rewrite Hid in Hq'.
  destruct (Product.id q =? j).
  - injection Hq as <-. injection Hq' as <-. exact Hqq.
  - now apply (IH rows' j).
Qed.

End Catalogue.

(** X2.  A checkout, whatever its outcome, changes of the products only
    their stock: identifiers, names, barcodes, prices, low-stock flags and
    images stay as they are, in the same row order; the promo codes are
    untouched and the orders and order items already there are kept. *)
Theorem checkout_changes_stock_only
    (cashier : Z) (now stamp : Py.datetime) (form : checkout_form)
    (db : database) (session : option cart) :
  let r := serve (checkout cashier now stamp form) db session in
  List.map listing (products (db_after r)) = List.map listing (products db)
  /\ promocodes (db_after r) = promocodes db
  /\ (exists new, orders (db_after r) = (orders db ++ new)%list)
  /\ (exists its, order_items (db_after r) = (order_items db ++ its)%list).
Proof.
  intros r. subst r.
  destruct (settles db (cart_of session) now form) as [[paid change] | ] eqn:Hs.
  - rewrite (settles_session _ _ _ _ _ Hs).
    rewrite (checkout_settled cashier now stamp form db _ paid change Hs).
    cbv zeta. cbn [db_after].
    set (o := new_order db cashier stamp form _ paid change).
    rewrite sold_listing.
    destruct (sold_orders (Order.id o) (cart_of session) (add_order o db)) as [Ho Hp].
    rewrite Ho, Hp.
    split; [reflexivity | ]. split; [reflexivity | ].
    split; [now exists [o] | ].
    apply (sold_appends (Order.id o) (cart_of session) (add_order o db)).
  - destruct (checkout_unsettled cashier now stamp form db session Hs) as (-> & _).
    split; [reflexivity | ]. split; [reflexivity | ].
    split; exists []; now rewrite app_nil_r.
Qed.

(** X3.  After a checkout that is answered with a receipt, the stock of
    every product is its stock before less the quantities of all the cart
    entries that stand for it; with positive quantities no stock goes up. *)
Theorem checkout_lowers_stock_by_cart_quantity
    (cashier : Z) (now stamp : Py.datetime) (form : checkout_form)
    (db : database) (session : option cart) (oid j : Z) (p : Product.t) :
  let r := serve (checkout cashier now stamp form) db session in
  answer r = Replied (redirect_receipt oid) ->
  Product_get (products db) j = Some p ->
  exists p',
    Product_get (products (db_after r)) j = Some p'
    /\ Product.stock p' = Product.stock p - sold_qty (products db) (cart_of session) j
    /\ listing p' = listing p
    /\ (cart_ok (cart_of session) -> Product.stock p' <= Product.stock p).
Proof.
  intros r Hr Hp. subst r.
  destruct (receipt_database cashier now stamp form db session oid Hr)
    as (paid & change & Hs & _ & Hdb & _).
  rewrite Hdb.
  set (o := new_order db cashier stamp form _ paid change) in *.
  assert (Hfound : forallb (found (products (add_order o db))) (cart_of session) = true).
  { apply sellable_found. apply (settles_sellable now form db session paid change Hs). }
  destruct (sold_stock oid (cart_of session) (add_order o db) j p Hfound Hp)
    as (p' & Hp' & Hstock).
  exists p'. split; [exact Hp' | ]. split; [exact Hstock | ].
  split.
  - apply (get_listing (products db) _ j p p'
             (sold_listing oid (cart_of session) (add_order o db)) Hp Hp').
  - intros Hok. simpl products in Hstock.
    pose proof (sold_qty_nonneg (products db) (cart_of session) j Hok). lia.
Qed.

Lemma checkout_lowers_stock_witness :
  let r := serve (checkout 7 sample_now sample_now (pay_by "card" None))
             sample_db (Some alias_cart) in
  exists p',
    Product_get (products (db_after r)) 1 = Some p'
    /\ Product.stock p' = 5 - sold_qty sample_products alias_cart 1
    /\ sold_qty sample_products alias_cart 1 = 6.
Proof.
  destruct (checkout_lowers_stock_by_cart_quantity 7 sample_now sample_now
              (pay_by "card" None) sample_db (Some alias_cart) 1 1
              (Product.mk 1 "Shirt" "CLOTH001" 100 5 false None)
              eq_refl eq_refl) as (p' & Hp & Hs & _).
  exists p'. split; [exact Hp | split; [exact Hs | reflexivity]].
Defined.

(** ** The POS page *)

Section PosPage.

Variables (now : Py.datetime) (promo : option string).

Lemma pos_lines_items (entries : cart) : forall items acc st,
  List.forallb (viewable (products (working st))) entries = true ->
  pos_lines entries items acc st
  = (Val ((items ++ page_lines (products (working st)) entries)%list,
          List.fold_left PrimFloat.add (amounts (products (working st)) entries)
            acc), st).
Proof.
  induction entries as [ | [pid qty] entries IH]; intros items acc st Hall.
  - simpl. now rewrite app_nil_r.
  - simpl in Hall. apply andb_prop in Hall. destruct Hall as [He Hall].
    unfold viewable in He. simpl in He. simpl. unfold_handler.
    unfold page_lines, page_line, amounts, line_amount, resolve. simpl.
    destruct (int_of_key pid) as [ex | i]; [discriminate | ].
    destruct (Product_get (products (working st)) i) as [p | ].
    + destruct (Py.mul_int (Product.price p) qty) as [ex | a]; [discriminate | ].
      simpl. rewrite IH by exact Hall. now rewrite <- app_assoc.
    + now apply IH.
Qed.

Lemma amounts_page_lines rows (entries : cart) :
  amounts rows entries = List.map line_total (page_lines rows entries).
Proof.
  unfold amounts, page_lines.
  induction entries as [ | e entries IH]; [reflexivity | ].
  simpl. rewrite map_app, <- IH. f_equal.
  unfold page_line, line_amount.
  destruct (resolve rows (fst e)) as [p | ]; [ | reflexivity].
  now destruct (Py.mul_int (Product.price p) (snd e)).
Qed.

Lemma pos_promo_discount st (subtotal : float) :
  exists fl,
    pos_promo now (normalized promo) subtotal st
    = (Val (discount_for (promocodes (working st)) now promo subtotal),
       mk_hstate (committed st) (working st) (session_cart st)
         (flashes st ++ fl)%list)
    /\ (nonempty (normalized promo) = false
        \/ (exists pc, usable_promo (promocodes (working st)) now (normalized promo)
                       = Some pc) ->
        fl = []).
Proof.
  destruct (nonempty (normalized promo)) eqn:Hne.
  - destruct (usable_promo (promocodes (working st)) now (normalized promo))
      as [pc | ] eqn:Hpc.
    + exists []. rewrite app_nil_r. split; [ | reflexivity].
      rewrite (pos_promo_usable now promo st subtotal)
        by (right; exists pc; now split).
      now destruct st.
    + exists [("Invalid or expired promo code.", "warning")]. split.
      * rewrite (pos_promo_unusable now promo st subtotal Hne Hpc).
        unfold discount_for. now rewrite Hne, Hpc.
      * intros [H | (pc & H)]; discriminate.
  - exists []. rewrite app_nil_r. split; [ | reflexivity].
    rewrite (pos_promo_usable now promo st subtotal) by now left.
    now destruct st.
Qed.

Lemma pos_get_served (db : database) (session : option cart) :
  List.forallb (viewable (products db)) (cart_of session) = true ->
  exists fl,
    serve (pos_get now promo) db session
    = mk_served db (Some (cart_of session)) fl
        (Replied (render_pos
           (mk_pos_page (page_lines (products db) (cart_of session))
              (subtotal_of (products db) (cart_of session))
              (normalized promo)
              (discount_for (promocodes db) now promo
                 (subtotal_of (products db) (cart_of session)))
              (total_due_of (subtotal_of (products db) (cart_of session))
                 (discount_for (promocodes db) now promo
                    (subtotal_of (products db) (cart_of session)))))))
    /\ (nonempty (normalized promo) = false
        \/ (exists pc, usable_promo (promocodes db) now (normalized promo) = Some pc) ->
        fl = []).
Proof.
  intros Hall. unfold serve, pos_get.
  set (st0 := mk_hstate db db (Some (cart_of session)) []).
  assert (Hget : get_cart (mk_hstate db db session []) = (Val (cart_of session), st0)).
  { unfold get_cart. now destruct session. }
  rewrite (bind_Val _ _ _ _ _ Hget).
  rewrite (bind_Val _ _ _ _ _ (pos_lines_items (cart_of session) [] 0%float st0 Hall)).
  cbv beta iota. fold (normalized promo).
  destruct (pos_promo_discount st0
              (fold_left PrimFloat.add
                 (amounts (products (working st0)) (cart_of session)) 0%float))
    as (fl & E & Hfl).
  rewrite (bind_Val _ _ _ _ _ E).
  exists fl. split; [reflexivity | exact Hfl].
Qed.

End PosPage.

(** X4.  The POS page changes neither the database nor the cart. When it can
    be rendered it lists, in cart order, one line per entry whose product
    still exists (entries of deleted products are left out), each with its
    price times its quantity; the subtotal is the sum of the line totals
    shown, the discount is that of the promo code of the request and the
    total is [max(0, round(subtotal - discount, 2))]. *)
Theorem pos_page_is_itemised
    (now : Py.datetime) (promo : option string) (db : database)
    (session : option cart) :
  let r := serve (pos_get now promo) db session in
  db_after r = db
  /\ cart_of (session_after r) = cart_of session
  /\ (List.forallb (viewable (products db)) (cart_of session) = true ->
      exists page,
        answer r = Replied (render_pos page)
        /\ items page = page_lines (products db) (cart_of session)
        /\ subtotal page = Py.sum (List.map line_total (items page))
        /\ promo_code page = normalized promo
        /\ promo_discount page
           = discount_for (promocodes db) now promo (subtotal page)
        /\ total_after_discount page
           = Py.max 0 (Py.round (subtotal page - promo_discount page) 2)).
Proof.
  intros r. subst r.
  destruct (forallb (viewable (products db)) (cart_of session)) eqn:Hall.
  - destruct (pos_get_served now promo db session Hall) as (fl & -> & _).
    split; [reflexivity | ]. split; [reflexivity | ].
    intros _. eexists. split; [reflexivity | ]. cbn [items subtotal promo_code
      promo_discount total_after_discount].
    split; [reflexivity | ].
    split; [unfold subtotal_of; now rewrite amounts_page_lines | ].
    now repeat split.
  - unfold serve, pos_get.
    set (st0 := mk_hstate db db (Some (cart_of session)) []).
    assert (Hget : get_cart (mk_hstate db db session []) = (Val (cart_of session), st0)).
    { unfold get_cart. now destruct session. }
    rewrite (bind_Val _ _ _ _ _ Hget).
    destruct (pos_lines_raise (cart_of session) [] 0%float st0 Hall) as (ex & E).
    rewrite (bind_Raise _ _ _ _ _ E). simpl.
    repeat split; discriminate.
Qed.

Lemma sellable_viewable rows entries :
  List.forallb (sellable rows) entries = true ->
  List.forallb (viewable rows) entries = true.
Proof.
  rewrite !forallb_forall. intros Hall x Hx. specialize (Hall x Hx).
  destruct (sellable_resolve _ _ Hall) as (p & a & Hr & Hm & _).
  destruct (resolve_get _ _ _ Hr) as (i & Hi & Hg).
  unfold viewable. now rewrite Hi, Hg, Hm.
Qed.

(** X5.  The total the POS page shows is the total a checkout charges: when
    a checkout is answered with a receipt, the page for the same cart, the
    same promo code and the same clock reading shows, without any warning,
    the total of the order created. *)
Theorem pos_total_is_charged
    (cashier : Z) (now stamp : Py.datetime) (form : checkout_form)
    (db : database) (session : option cart) (oid : Z) :
  let r := serve (checkout cashier now stamp form) db session in
  let v := serve (pos_get now (form_promo_code form)) db session in
  answer r = Replied (redirect_receipt oid) ->
  exists page o,
    answer v = Replied (render_pos page)
    /\ flashed v = []
    /\ orders (db_after r) = (orders db ++ [o])%list
    /\ Order.id o = oid
    /\ Order.total o = total_after_discount page.
Proof.
  intros r v Hr. subst r v.
  destruct (receipt_database cashier now stamp form db session oid Hr)
    as (paid & change & Hs & Hid & Hdb & _).
  pose proof (settles_sellable now form db session paid change Hs) as Hall.
  assert (Hreach : reaches_payment db (cart_of session) now form = true).
  { unfold settles in Hs.
    now destruct (reaches_payment db (cart_of session) now form). }
  destruct (reaches_payment_inv now form db _ Hreach) as (_ & _ & Hpromo).
  destruct (pos_get_served now (form_promo_code form) db session
              (sellable_viewable _ _ Hall)) as (fl & E & Hfl).
  rewrite E.
  assert (fl = []) as ->.
  { apply Hfl. destruct Hpromo as [H | (pc & _ & H)]; [now left | right; now exists pc]. }
  eexists. eexists. split; [reflexivity | ]. split; [reflexivity | ].
  rewrite Hdb.
  destruct (sold_orders oid (cart_of session)
              (add_order (new_order db cashier stamp form
                            (total_due_for db (cart_of session) now form) paid change) db))
    as [Ho _].
  rewrite Ho. split; [reflexivity | ]. split; [exact Hid | reflexivity].
Qed.

Lemma pos_total_witness :
  let r := serve (checkout 7 sample_now sample_now (pay_cash 250 (Some "save10")))
             sample_db (Some sample_cart) in
  let v := serve (pos_get sample_now (Some "save10")) sample_db (Some sample_cart) in
  exists page o,
    answer v = Replied (render_pos page)
    /\ orders (db_after r) = [o]
    /\ Order.total o = total_after_discount page.
Proof.
  destruct (pos_total_is_charged 7 sample_now sample_now
              (pay_cash 250 (Some "save10")) sample_db (Some sample_cart) 1
              eq_refl) as (page & o & Hv & _ & Ho & _ & Ht).
  exists page, o. split; [exact Hv | split; [exact Ho | exact Ht]].
Defined.

(** ** Stock validation, low-stock marks and unreadable keys *)

Section StockValidation.

Lemma checkout_totals_prefix (c1 rest : cart) : forall acc st,
  List.forallb (sellable (products (working st))) c1 = true ->
  checkout_totals (c1 ++ rest)%list acc st
  = checkout_totals rest
      (List.fold_left PrimFloat.add (amounts (products (working st)) c1) acc) st.
Proof.
  induction c1 as [ | [pid qty] c1 IH]; intros acc st Hall; [reflexivity | ].
  simpl in Hall. apply andb_prop in Hall. destruct Hall as [He Hall].
  destruct (sellable_resolve _ _ He) as (p & a & Hr & Hm & Ha & Hst).
  destruct (resolve_get _ _ _ Hr) as (i & Hi & Hg).
  simpl in Hi, Hm, Hst.
  rewrite <- app_comm_cons. simpl checkout_totals. unfold_handler.
  rewrite Hi, Hg, Hst, Hm.
  rewrite IH by exact Hall.
  unfold amounts. simpl. now rewrite Ha.
Qed.

End StockValidation.



Section LowStock.

Lemma unflagged_set rows i v :
  List.map unflagged (Product_set rows i (with_low_stock v))
  = List.map unflagged rows.
Proof.
  induction rows as [ | p rows IH]; [reflexivity | ].
  simpl. destruct (Product.id p =? i); simpl; [reflexivity | now rewrite IH].
Qed.

End LowStock.





(** ** The daily series *)

Section Days.

Lemma on_day_iff (d : Py.date) (o : Order.t) :
  on_day d o = true <-> Py.dt_date (Order.created_at o) = d.
Proof.
  unfold on_day. rewrite !andb_true_iff, !Z.eqb_eq.
  destruct (Py.dt_date (Order.created_at o)) as [y m dd], d as [y' m' dd'].
  simpl. split; [intros [[-> ->] ->]; reflexivity | intros E; injection E; auto].
Qed.

Lemma next_day_valid (d : Py.date) :
  Py.valid_date d = true ->
  Py.ymd2ord d < Py.MAXORDINAL ->
  Py.valid_date (Py.ord2ymd (Py.ymd2ord d + 1)) = true
  /\ Py.ymd2ord (Py.ord2ymd (Py.ymd2ord d + 1)) = Py.ymd2ord d + 1.
Proof.
  intros Hd Hmax. pose proof (valid_date_ordinal _ Hd) as Hod.
  destruct (ord2ymd_spec (Py.ymd2ord d + 1) _ ltac:(lia) eq_refl)
    as (Hy & Hm & Hday & Ho).
  split; [ | exact Ho].
  unfold Py.valid_date, Py.MINYEAR, Py.MAXYEAR.
  rewrite !andb_true_iff, !Z.leb_le. repeat split; try lia.
  destruct (Z.le_gt_cases (Py.year (Py.ord2ymd (Py.ymd2ord d + 1))) 9999)
    as [Hle | Hgt]; [exact Hle | ].
  destruct (ymd2ord_in_year _ Hm Hday) as [Hlo _].
  pose proof (days_before_year_mono 10000
                (Py.year (Py.ord2ymd (Py.ymd2ord d + 1))) ltac:(lia)) as H.
  change (Py.days_before_year 10000) with 3652059 in H.
  unfold Py.MAXORDINAL in Hmax. lia.
Qed.

(** From the midnight of a day to the next midnight: created on that
    day. *)
Lemma created_on_day (d : Py.date) (o : Order.t) :
  Py.valid_datetime (Order.created_at o) = true ->
  Py.valid_date d = true ->
  Py.ymd2ord d < Py.MAXORDINAL ->
  created_between (Py.mk_datetime d 0 0 0 0)
    (Py.mk_datetime (Py.ord2ymd (Py.ymd2ord d + 1)) 0 0 0 0) o
  = on_day d o.
Proof.
  intros Hv Hd Hmax.
  destruct (valid_datetime_inv _ Hv) as (Hvd & Hh & Hmi & Hs & Hus).
  destruct (next_day_valid d Hd Hmax) as [Hvs Hos].
  pose proof (date_compare_ordinal (Py.dt_date (Order.created_at o)) d Hvd Hd) as C1.
  pose proof (date_compare_ordinal (Py.dt_date (Order.created_at o)) _ Hvd Hvs) as C2.
  rewrite Hos in C2.
  assert (Hday : on_day d o
                 = (Py.ymd2ord (Py.dt_date (Order.created_at o)) =? Py.ymd2ord d)).
  { destruct (Z.eqb_spec (Py.ymd2ord (Py.dt_date (Order.created_at o))) (Py.ymd2ord d))
      as [E | E].
    - apply on_day_iff.
      destruct (valid_date_inv _ Hvd) as (? & ? & ?).
      destruct (valid_date_inv _ Hd) as (? & ? & ?).
      now apply ymd2ord_inj.
    - apply not_true_is_false. intros H. apply on_day_iff in H. now rewrite H in E. }
  rewrite Hday.
  unfold created_between, Py.datetime_ge, Py.datetime_lt, Py.datetime_compare,
    Py.datetime_fields. cbn [Py.dt_date Py.hour Py.minute Py.second Py.microsecond].
  set (dt := Py.dt_date (Order.created_at o)) in *.
  assert (L : forall b : Py.date,
    Py.lex_compare
      [Py.year dt; Py.month dt; Py.day dt; Py.hour (Order.created_at o);
       Py.minute (Order.created_at o); Py.second (Order.created_at o);
       Py.microsecond (Order.created_at o)]
      [Py.year b; Py.month b; Py.day b; 0; 0; 0; 0]
    = match Py.lex_compare [Py.year dt; Py.month dt; Py.day dt]
              [Py.year b; Py.month b; Py.day b] with
      | Eq => Py.lex_compare
                [Py.hour (Order.created_at o); Py.minute (Order.created_at o);
                 Py.second (Order.created_at o); Py.microsecond (Order.created_at o)]
                [0; 0; 0; 0]
      | c => c
      end).
  { intros b. simpl.
    destruct (Py.year dt ?= Py.year b); try reflexivity.
    destruct (Py.month dt ?= Py.month b); try reflexivity.
    destruct (Py.day dt ?= Py.day b); reflexivity. }
  rewrite !L, C1, C2. clear L C1 C2 Hday.
  assert (T : Py.lex_compare
                [Py.hour (Order.created_at o); Py.minute (Order.created_at o);
                 Py.second (Order.created_at o); Py.microsecond (Order.created_at o)]
                [0; 0; 0; 0] <> Lt).
  { simpl.
    repeat match goal with
           | |- context [?a ?= 0] => destruct (Z.compare_spec a 0); try lia
           end; discriminate. }
  destruct (Z.compare_spec (Py.ymd2ord dt) (Py.ymd2ord d)) as [E | E | E];
    destruct (Z.compare_spec (Py.ymd2ord dt) (Py.ymd2ord d + 1)) as [E' | E' | E'];
    try lia;
    destruct (Z.eqb_spec (Py.ymd2ord dt) (Py.ymd2ord d)); try lia;
    try reflexivity.
  all: destruct (Py.lex_compare _ _); try reflexivity; try contradiction.
Qed.

Lemma range_down_S (n : nat) :
  Py.range_down (S n) = Z.of_nat n :: Py.range_down n.
Proof.
  unfold Py.range_down. rewrite seq_S, rev_app_distr. reflexivity.
Qed.

Lemma range_down_ordinals (t : Z) (n : nat) :
  List.map (fun i => t - i) (Py.range_down n) = ordinals_until t n.
Proof.
  unfold ordinals_until. induction n as [ | n IH]; [reflexivity | ].
  rewrite range_down_S. cbn [List.map List.seq].
  f_equal; [lia | ].
  rewrite IH, <- seq_shift, map_map. apply map_ext. intros k. lia.
Qed.

Lemma range_down_In_iff (n : nat) (i : Z) :
  In i (Py.range_down n) <-> 0 <= i < Z.of_nat n.
Proof.
  split; [apply range_down_In | ].
  intros Hi. unfold Py.range_down. apply in_map_iff.
  exists (Z.to_nat i). split; [lia | ].
  apply -> in_rev. apply in_seq. lia.
Qed.

Lemma ordinals_until_NoDup (t : Z) (n : nat) : NoDup (ordinals_until t n).
Proof.
  unfold ordinals_until. apply NoDup_map_NoDup_ForallPairs; [ | apply seq_NoDup].
  intros a b _ _. lia.
Qed.

Lemma count_or (p q : Order.t -> bool) (l : list Order.t) :
  (forall o, p o = true -> q o = true -> False) ->
  count_of (List.filter (fun o => p o || q o) l)
  = count_of (List.filter p l) + count_of (List.filter q l).
Proof.
  intros Hex. unfold count_of. induction l as [ | o l IH]; [reflexivity | ].
  cbn [List.filter]. specialize (Hex o).
  destruct (p o) eqn:Hp, (q o) eqn:Hq; cbn [orb List.length];
    rewrite ?Nat2Z.inj_succ; lia.
Qed.

Lemma orders_total_days (rows : list Order.t) (days : list Py.date) :
  NoDup days ->
  orders_total (List.map (entry_on_day rows) days)
  = count_of (List.filter (fun o => List.existsb (fun d => on_day d o) days) rows).
Proof.
  unfold orders_total.
  induction 1 as [ | d days Hd _ IH]; simpl.
  - unfold count_of. induction rows; simpl; [reflexivity | assumption].
  - rewrite IH, count_or; [reflexivity | ].
    intros o Ho Hex. apply on_day_iff in Ho.
    apply existsb_exists in Hex. destruct Hex as (d' & Hin & Hd').
    apply on_day_iff in Hd'. congruence.
Qed.

End Days.

Section DailySeries.

Variables (now : Py.datetime) (rows : list Order.t).
Hypothesis now_valid : Py.valid_datetime now = true.
Hypothesis now_year : 2 <= Py.year (Py.dt_date now) <= 9998.
Hypothesis rows_valid :
  Forall (fun o => Py.valid_datetime (Order.created_at o) = true) rows.

#[local] Abbreviation days n := (List.map (day_back now) (Py.range_down n)).

Lemma summarize_range_by_day (n : nat) :
  (n <= 84)%nat ->
  summarize_range now rows n = inr (List.map (entry_on_day rows) (days n)).
Proof.
  intros Hn. rewrite (summarize_range_ok now rows now_valid now_year n Hn).
  f_equal. apply map_ext_in. intros d Hd.
  apply in_map_iff in Hd. destruct Hd as (i & <- & Hi).
  apply range_down_In in Hi.
  destruct (day_back_valid now now_valid now_year i ltac:(lia)) as (_ & Hv & Hlt).
  unfold entry_of_day, entry_on_day.
  rewrite (filter_ext_Forall _ (on_day (day_back now i)) _ rows rows_valid).
  - reflexivity.
  - intros o Ho. now apply created_on_day.
Qed.

Lemma day_back_ordinal (i : Z) :
  0 <= i < 84 -> Py.ymd2ord (day_back now i) = Py.ymd2ord (Py.dt_date now) - i.
Proof.
  intros Hi. pose proof (today_ordinal now now_valid now_year) as Ho.
  destruct (valid_datetime_inv now now_valid) as (Hd & _).
  now destruct (date_sub_days_ok (Py.dt_date now) i Hd ltac:(lia))
    as (_ & _ & _ & Hord).
Qed.

Lemma days_ordinals (n : nat) :
  (n <= 84)%nat ->
  List.map Py.ymd2ord (days n) = ordinals_until (Py.ymd2ord (Py.dt_date now)) n.
Proof.
  intros Hn. rewrite map_map, <- range_down_ordinals. apply map_ext_in.
  intros i Hi. apply range_down_In in Hi. apply day_back_ordinal. lia.
Qed.

(** The orders of the days of the series are the orders of the period,
    each counted once. *)
Lemma days_orders_total (n : nat) :
  (n <= 84)%nat ->
  orders_total (List.map (entry_on_day rows) (days n))
  = count_of (List.filter (in_last_days now n) rows).
Proof.
  intros Hn. rewrite orders_total_days.
  2:{ apply (NoDup_map_inv Py.ymd2ord). rewrite days_ordinals by exact Hn.
      apply ordinals_until_NoDup. }
  f_equal. apply (filter_ext_Forall _ _ _ rows rows_valid). intros o Ho.
  destruct (valid_datetime_inv _ Ho) as (Hvd & _).
  destruct (valid_date_inv _ Hvd) as (Hy & Hm & Hday).
  unfold in_last_days.
  set (t := Py.ymd2ord (Py.dt_date now)).
  set (c := Py.ymd2ord (Py.dt_date (Order.created_at o))).
  destruct ((t - Z.of_nat n <? c) && (c <=? t)) eqn:Hwin.
  - apply andb_prop in Hwin. destruct Hwin as [Hlo Hhi].
    apply Z.ltb_lt in Hlo. apply Z.leb_le in Hhi.
    apply existsb_exists. exists (Py.dt_date (Order.created_at o)).
    split; [ | now apply on_day_iff].
    apply in_map_iff. exists (t - c). split.
    + unfold day_back. fold t. replace (t - (t - c)) with c by lia.
      apply ord2ymd_ymd2ord; lia.
    + apply range_down_In_iff. lia.
  - apply not_true_is_false. intros Hex.
    apply existsb_exists in Hex. destruct Hex as (d & Hin & Hd).
    apply on_day_iff in Hd. apply in_map_iff in Hin.
    destruct Hin as (i & Ei & Hi). apply range_down_In in Hi.
    pose proof (day_back_ordinal i ltac:(lia)) as Eo.
    rewrite Ei, <- Hd in Eo. fold c t in Eo.
    apply andb_false_iff in Hwin.
    destruct Hwin as [H | H]; [apply Z.ltb_ge in H | apply Z.leb_gt in H]; lia.
Qed.

End DailySeries.

(** X9.  [daterange_days(n)] returns the [n] consecutive calendar days that
    end today, oldest first, when that many days exist up to today;
    otherwise the date arithmetic overflows. *)
Theorem daterange_days_are_consecutive (now : Py.datetime) (n : nat) :
  Py.valid_date (Py.dt_date now) = true ->
  (Z.of_nat n <= Py.ymd2ord (Py.dt_date now) ->
   exists dates,
     daterange_days now n = inr dates
     /\ List.map Py.ymd2ord dates
        = ordinals_until (Py.ymd2ord (Py.dt_date now)) n
     /\ Forall (fun d => Py.valid_date d = true) dates
     /\ ((0 < n)%nat -> List.last dates (Py.mk_date 0 0 0) = Py.dt_date now))
  /\ (Py.ymd2ord (Py.dt_date now) < Z.of_nat n ->
      daterange_days now n = inl Py.OverflowError).
Proof.
  intros Hd. set (today := Py.dt_date now) in *. split.
  - intros Hn.
    exists (List.map (fun i => Py.ord2ymd (Py.ymd2ord today - i)) (Py.range_down n)).
    split.
    { unfold daterange_days. fold today. apply for_each_map.
      intros i Hi. apply range_down_In in Hi.
      now destruct (date_sub_days_ok today i Hd ltac:(lia)) as (E & _). }
    split.
    { rewrite map_map, <- range_down_ordinals. apply map_ext_in.
      intros i Hi. apply range_down_In in Hi.
      now destruct (date_sub_days_ok today i Hd ltac:(lia)) as (_ & _ & _ & E). }
    split.
    { apply Forall_forall. intros d Hin. apply in_map_iff in Hin.
      destruct Hin as (i & <- & Hi). apply range_down_In in Hi.
      now destruct (date_sub_days_ok today i Hd ltac:(lia)) as (_ & E & _). }
    intros Hpos. destruct n as [ | n]; [lia | ].
    unfold Py.range_down. cbn [seq rev]. rewrite !map_app. cbn [List.map].
    rewrite last_last. change (Z.of_nat 0) with 0.
    replace (Py.ymd2ord today - 0) with (Py.ymd2ord today) by lia.
    destruct (valid_date_inv _ Hd) as (Hy & Hm & Hday).
    apply ord2ymd_ymd2ord; lia.
  - intros Hn. destruct n as [ | n].
    { pose proof (valid_date_ordinal _ Hd) as Ho. simpl in Hn. lia. }
    unfold daterange_days. fold today. rewrite range_down_S. cbn [Py.for_each].
    unfold Py.date_sub_days at 1.
    replace (0 <? Py.ymd2ord today - Z.of_nat n) with false
      by (symmetry; apply Z.ltb_ge; lia).
    reflexivity.
Qed.

Lemma daterange_days_witness :
  exists dates,
    daterange_days sample_now 7 = inr dates
    /\ List.map Py.ymd2ord dates
       = ordinals_until (Py.ymd2ord (Py.mk_date 2024 3 15)) 7.
Proof.
  destruct (daterange_days_are_consecutive sample_now 7 eq_refl) as [Hok _].
  destruct Hok as (dates & E & Ho & _).
  - apply Z.leb_le. reflexivity.
  - exists dates. split; [exact E | exact Ho].
Defined.

(** X10.  The daily series: for a valid clock and valid timestamps,
    [summarize_range(n)] (with [n] up to the 84 the handler asks for)
    returns one entry for each of the [n] consecutive days ending today,
    oldest first; the entry of a day counts the orders created on that
    calendar day and gives their total, rounded; every order of those [n]
    days is counted in exactly one entry, so the counts add up to the number
    of orders of the period. *)
Theorem daily_series_counts_by_date
    (now : Py.datetime) (rows : list Order.t) (n : nat) :
  Py.valid_datetime now = true ->
  2 <= Py.year (Py.dt_date now) <= 9998 ->
  Forall (fun o => Py.valid_datetime (Order.created_at o) = true) rows ->
  (n <= 84)%nat ->
  exists entries,
    summarize_range now rows n = inr entries
    /\ List.map (fun e => Py.ymd2ord (entry_date e)) entries
       = ordinals_until (Py.ymd2ord (Py.dt_date now)) n
    /\ Forall
         (fun e =>
            entry_orders e = count_of (List.filter (on_day (entry_date e)) rows)
            /\ entry_total e
               = Py.round (total_of (List.filter (on_day (entry_date e)) rows)) 2)
         entries
    /\ orders_total entries = count_of (List.filter (in_last_days now n) rows).
Proof.
  intros Hnow Hyear Hrows Hn.
  exists (List.map (entry_on_day rows)
            (List.map (day_back now) (Py.range_down n))).
  split; [now apply summarize_range_by_day | ].
  split.
  { rewrite <- (days_ordinals now Hnow Hyear n Hn), !map_map.
    now apply map_ext. }
  split.
  { apply Forall_forall. intros e He. apply in_map_iff in He.
    destruct He as (d & <- & _). now split. }
  now apply days_orders_total.
Qed.

Lemma daily_series_witness :
  exists entries,
    summarize_range sample_now sample_orders 84 = inr entries
    /\ orders_total entries = 1.
Proof.
  destruct (daily_series_counts_by_date sample_now sample_orders 84 eq_refl)
    as (entries & E & _ & _ & Hsum).
  - simpl. lia.
  - repeat constructor.
  - lia.
  - exists entries. split; [exact E | ]. rewrite Hsum. reflexivity.
Defined.

(** X11.  A range value other than [weekly] and [monthly], or none at all,
    is answered with the daily series of the last seven days, labelled
    [daily]. *)
Theorem unknown_range_is_answered_daily
    (now : Py.datetime) (rows : list Order.t) (range_arg : option string) :
  Py.valid_datetime now = true ->
  2 <= Py.year (Py.dt_date now) <= 9998 ->
  form_get range_arg "daily" <> "weekly" ->
  form_get range_arg "daily" <> "monthly" ->
  exists entries,
    summarize_range now rows 7 = inr entries
    /\ List.length entries = 7%nat
    /\ admin_sales_summary now rows range_arg = inr (summary_days "daily" entries)
    /\ admin_sales_summary now rows range_arg = admin_sales_summary now rows None.
Proof.
  intros Hnow Hyear Hw Hm.
  pose proof (summarize_range_ok now rows Hnow Hyear 7 ltac:(lia)) as E.
  eexists. split; [exact E | ].
  split; [now rewrite !length_map | ].
  unfold admin_sales_summary. cbn [form_get]. simpl (String.eqb "daily" "daily").
  apply String.eqb_neq in Hw, Hm. rewrite Hw, Hm, E. cbn [Py.and_then].
  split; now destruct (String.eqb (form_get range_arg "daily") "daily").
Qed.

Lemma unknown_range_witness :
  exists entries,
    List.length entries = 7%nat
    /\ admin_sales_summary sample_now sample_orders (Some "yearly")
       = inr (summary_days "daily" entries).
Proof.
  destruct (unknown_range_is_answered_daily sample_now sample_orders (Some "yearly")
              eq_refl) as (entries & _ & Hlen & Hs & _).
  - simpl. lia.
  - discriminate.
  - discriminate.
  - exists entries. split; [exact Hlen | exact Hs].
Defined.

(** ** The weekly rollup *)

Section WeeklyRollup.

Implicit Types (raw : list day_entry) (buckets : Py.dict string bucket).

#[local] Arguments Py.key_eqb : simpl never.

(** The body of the weekly loop. *)
#[local] Abbreviation week_step :=
  (fun buckets (d : day_entry) =>
     let week := Py.strftime_YWU (entry_date d) in
     let b := Py.dict_get_default buckets week (mk_bucket week 0 0) in
     Py.dict_set buckets week
       (mk_bucket (label b) (total b + entry_total d)%float
          (orders_count b + entry_orders d))).

Lemma string_key_eqb (k k' : string) : Py.key_eqb k k' = String.eqb k k'.
Proof. reflexivity. Qed.

Lemma dict_set_orders buckets (k : string) (v dflt : bucket) :
  orders_count dflt = 0 ->
  buckets_orders (List.map snd (Py.dict_set buckets k v))
  = buckets_orders (List.map snd buckets)
    - orders_count (Py.dict_get_default buckets k dflt) + orders_count v.
Proof.
  intros Hd. unfold buckets_orders, Py.dict_get_default.
  induction buckets as [ | [k' v'] buckets IH]; cbn [Py.dict_set Py.dict_get].
  - simpl. lia.
  - destruct (Py.key_eqb k' k); simpl in *; lia.
Qed.

Lemma week_fold_orders raw : forall buckets,
  buckets_orders (List.map snd (List.fold_left week_step raw buckets))
  = buckets_orders (List.map snd buckets) + orders_total raw.
Proof.
  induction raw as [ | d raw IH]; intros buckets.
  - unfold orders_total. simpl. lia.
  - cbn [List.fold_left]. rewrite IH.
    rewrite (dict_set_orders _ _ _ (mk_bucket (Py.strftime_YWU (entry_date d)) 0 0))
      by reflexivity.
    unfold orders_total. simpl. lia.
Qed.

Lemma string_dict_set_In buckets (k : string) (v : bucket) :
  In k (List.map fst (Py.dict_set buckets k v))
  /\ forall x, In x (List.map fst buckets) ->
               In x (List.map fst (Py.dict_set buckets k v)).
Proof.
  induction buckets as [ | [k' v'] buckets [IH1 IH2]]; cbn [Py.dict_set].
  - split; [now left | intros x []].
  - destruct (Py.key_eqb k' k) eqn:E.
    + rewrite string_key_eqb in E. apply String.eqb_eq in E. subst k'.
      split; [now left | intros x Hx; exact Hx].
    + split; [right; exact IH1 | ].
      intros x [Hx | Hx]; [now left | right; now apply IH2].
Qed.

Lemma string_dict_set_unique buckets (k : string) (v : bucket) :
  NoDup (List.map fst buckets) -> NoDup (List.map fst (Py.dict_set buckets k v)).
Proof.
  induction buckets as [ | [k' v'] buckets IH]; cbn [Py.dict_set]; intros Hn.
  - repeat constructor. intros [].
  - inversion Hn as [ | ? ? Hnot Hrest]; subst.
    destruct (Py.key_eqb k' k) eqn:E.
    + constructor; assumption.
    + cbn [List.map fst]. constructor; [ | now apply IH].
      intros Hin. apply string_dict_set_keys in Hin.
      destruct Hin as [-> | Hin]; [ | contradiction].
      rewrite string_key_eqb, String.eqb_refl in E. discriminate.
Qed.

Lemma week_fold_unique raw : forall buckets,
  NoDup (List.map fst buckets) ->
  NoDup (List.map fst (List.fold_left week_step raw buckets)).
Proof.
  induction raw as [ | d raw IH]; intros buckets Hn; [exact Hn | ].
  cbn [List.fold_left]. apply IH. now apply string_dict_set_unique.
Qed.

Lemma week_fold_labels raw : forall buckets d,
  In d raw ->
  In (Py.strftime_YWU (entry_date d))
    (List.map fst (List.fold_left week_step raw buckets)).
Proof.
  assert (Hkeep : forall raw buckets x,
            In x (List.map fst buckets) ->
            In x (List.map fst (List.fold_left week_step raw buckets))).
  { induction raw0 as [ | d raw0 IH]; intros buckets x Hx; [exact Hx | ].
    cbn [List.fold_left]. apply IH. now apply (proj2 (string_dict_set_In _ _ _)). }
  induction raw as [ | d' raw IH]; intros buckets d; [intros [] | ].
  intros [-> | Hin]; cbn [List.fold_left].
  - apply Hkeep. apply (proj1 (string_dict_set_In _ _ _)).
  - now apply IH.
Qed.

Lemma insert_by_key_perm {V : Type} (kv : string * V) (l : list (string * V)) :
  Permutation (Py.insert_by_key kv l) (kv :: l).
Proof.
  induction l as [ | kv' l IH]; simpl; [reflexivity | ].
  destruct (String.leb (fst kv) (fst kv')); [reflexivity | ].
  rewrite IH. apply perm_swap.
Qed.

Lemma sorted_items_perm {V : Type} (d : Py.dict string V) :
  Permutation (Py.sorted_items d) d.
Proof.
  unfold Py.sorted_items. induction d as [ | kv d IH]; simpl; [reflexivity | ].
  rewrite insert_by_key_perm. now constructor.
Qed.

Lemma insert_by_key_sorted {V : Type} (kv : string * V) (l : list (string * V)) :
  StronglySorted Py.key_le l -> StronglySorted Py.key_le (Py.insert_by_key kv l).
Proof.
  induction 1 as [ | kv' l Hs IH Hall]; simpl.
  - repeat constructor.
  - destruct (String.leb (fst kv) (fst kv')) eqn:E.
    + constructor; [now constructor | ].
      constructor; [exact E | ].
      eapply Forall_impl; [ | exact Hall].
      intros x Hx. unfold Py.key_le in *. now apply (string_leb_trans _ (fst kv')).
    + constructor; [exact IH | ].
      apply Forall_forall. intros x Hx. apply insert_by_key_In in Hx.
      destruct Hx as [-> | Hx].
      * unfold Py.key_le. destruct (String.leb_total (fst kv) (fst kv')); congruence.
      * rewrite Forall_forall in Hall. now apply Hall.
Qed.

Lemma sorted_items_sorted {V : Type} (d : Py.dict string V) :
  StronglySorted Py.key_le (Py.sorted_items d).
Proof.
  unfold Py.sorted_items. induction d as [ | kv d IH]; simpl; [constructor | ].
  now apply insert_by_key_sorted.
Qed.

Lemma sorted_strict (l : list (string * bucket)) :
  StronglySorted Py.key_le l -> NoDup (List.map fst l) ->
  StronglySorted label_lt
    (List.map (fun kv => mk_bucket (fst kv) (Py.round (total (snd kv)) 2)
                           (orders_count (snd kv))) l).
Proof.
  induction 1 as [ | kv l Hs IH Hall]; simpl; intros Hn; [constructor | ].
  inversion Hn as [ | ? ? Hnot Hrest]; subst.
  constructor; [now apply IH | ].
  apply Forall_forall. intros b Hb. apply in_map_iff in Hb.
  destruct Hb as (kv' & <- & Hin).
  rewrite Forall_forall in Hall. specialize (Hall kv' Hin).
  unfold label_lt. simpl. apply string_leb_ltb; [exact Hall | ].
  intros E. apply Hnot. rewrite E. now apply in_map.
Qed.

Lemma perm_orders (l l' : list (string * bucket)) :
  Permutation l l' ->
  buckets_orders
    (List.map (fun kv => mk_bucket (fst kv) (Py.round (total (snd kv)) 2)
                           (orders_count (snd kv))) l)
  = buckets_orders (List.map snd l').
Proof.
  unfold buckets_orders. rewrite !map_map. cbn [orders_count].
  induction 1; simpl in *; lia.
Qed.

End WeeklyRollup.

(** The weekly rollup of a daily series: the buckets come in strictly
    ascending order of label, every day's label has its bucket and the
    order counts of the buckets add up to those of the days; the answer is
    the last twelve of these buckets. *)
Lemma weekly_series_facts (raw : list day_entry) :
  exists cut,
    StronglySorted label_lt (cut ++ weekly_series raw)%list
    /\ buckets_orders (cut ++ weekly_series raw)%list = orders_total raw
    /\ (forall d, In d raw ->
          In (Py.strftime_YWU (entry_date d))
            (List.map label (cut ++ weekly_series raw)%list))
    /\ List.length (weekly_series raw)
       = Nat.min 12 (List.length (cut ++ weekly_series raw)%list).
Proof.
  exists (List.firstn (List.length (weekly_sorted raw) - 12) (weekly_sorted raw)).
  change (weekly_series raw) with (Py.last_n 12 (weekly_sorted raw)).
  unfold Py.last_n at 1 2 3. rewrite !firstn_skipn.
  split.
  { apply sorted_strict; [apply sorted_items_sorted | ].
    apply (Permutation_NoDup (l := List.map fst (weekly_buckets raw))).
    - apply Permutation_map. symmetry. apply sorted_items_perm.
    - apply (week_fold_unique raw []). constructor. }
  split.
  { unfold weekly_sorted. rewrite (perm_orders _ _ (sorted_items_perm _)).
    apply (week_fold_orders raw []). }
  split.
  { intros d Hd. unfold weekly_sorted. rewrite map_map. cbn [label].
    apply (Permutation_in (l := List.map fst (weekly_buckets raw))).
    - apply Permutation_map. symmetry. apply sorted_items_perm.
    - now apply week_fold_labels. }
  unfold Py.last_n. rewrite length_skipn. lia.
Qed.



(** ** The date text of the daily entries *)

Section ParseBack.

Lemma chars_app (a b : string) :
  list_ascii_of_string (a ++ b)
  = (list_ascii_of_string a ++ list_ascii_of_string b)%list.
Proof. induction a as [ | c a IH]; simpl; [reflexivity | now rewrite IH]. Qed.

Lemma digit_cases (k : Z) :
  0 <= k <= 9 ->
  k = 0 \/ k = 1 \/ k = 2 \/ k = 3 \/ k = 4 \/ k = 5 \/ k = 6 \/ k = 7
  \/ k = 8 \/ k = 9.
Proof. lia. Qed.

Lemma digit_uint_value (k : Z) (rest : Decimal.uint) (acc : Z) :
  0 <= k <= 9 ->
  Py.uint_value (Py.digit_uint k rest) acc = Py.uint_value rest (10 * acc + k).
Proof.
  intros Hk.
  destruct (digit_cases k Hk) as [-> | [-> | [-> | [-> | [-> | [-> | [-> |
    [-> | [-> | ->]]]]]]]]]; reflexivity.
Qed.

Lemma digit_uint_text (k : Z) (rest : Decimal.uint) :
  0 <= k <= 9 ->
  exists c,
    NilEmpty.string_of_uint (Py.digit_uint k rest)
    = String c (NilEmpty.string_of_uint rest)
    /\ Py.is_digit c = true
    /\ Py.digit_value c = k.
Proof.
  intros Hk.
  destruct (digit_cases k Hk) as [-> | [-> | [-> | [-> | [-> | [-> | [-> |
    [-> | [-> | ->]]]]]]]]]; eexists; (split; [reflexivity | split; reflexivity]).
Qed.

Lemma digit_uint_head (k : Z) (rest : Decimal.uint) :
  1 <= k <= 9 -> Decimal.unorm (Py.digit_uint k rest) = Py.digit_uint k rest.
Proof.
  intros Hk.
  destruct (digit_cases k ltac:(lia)) as [-> | [-> | [-> | [-> | [-> | [-> | [-> |
    [-> | [-> | ->]]]]]]]]]; try lia; reflexivity.
Qed.

Lemma year_text (y : Z) :
  1000 <= y <= 9999 ->
  exists y1 y2 y3 y4,
    list_ascii_of_string (Py.str y) = [y1; y2; y3; y4]
    /\ Py.is_digit y1 && Py.is_digit y2 && Py.is_digit y3 && Py.is_digit y4 = true
    /\ 1000 * Py.digit_value y1 + 100 * Py.digit_value y2
       + 10 * Py.digit_value y3 + Py.digit_value y4 = y.
Proof.
  intros Hy.
  set (a := y / 1000). set (b := y / 100 mod 10).
  set (c := y / 10 mod 10). set (d := y mod 10).
  assert (Ha : 1 <= a <= 9) by (unfold a; Z.div_mod_to_equations; lia).
  assert (Hb : 0 <= b <= 9) by (unfold b; Z.div_mod_to_equations; lia).
  assert (Hc : 0 <= c <= 9) by (unfold c; Z.div_mod_to_equations; lia).
  assert (Hd : 0 <= d <= 9) by (unfold d; Z.div_mod_to_equations; lia).
  assert (Hsum : 1000 * a + 100 * b + 10 * c + d = y)
    by (unfold a, b, c, d; Z.div_mod_to_equations; lia).
  set (u3 := Py.digit_uint b (Py.digit_uint c (Py.digit_uint d Decimal.Nil))).
  set (u := Py.digit_uint a u3).
  assert (Hval : Py.uint_value u 0 = y).
  { unfold u, u3. rewrite !digit_uint_value by lia. cbn [Py.uint_value]. lia. }
  destruct y as [ | p | p]; try lia.
  assert (Hu : Pos.to_uint p = u).
  { rewrite uint_value_0 in Hval.
    assert (E : Pos.of_uint u = Npos p) by lia.
    pose proof (Unsigned.to_of u) as T. rewrite E in T. cbn [N.to_uint] in T.
    rewrite T. unfold u. apply digit_uint_head. exact Ha. }
  unfold Py.str. cbn [Z.to_int NilZero.string_of_int]. rewrite Hu.
  assert (Hs : NilZero.string_of_uint u = NilEmpty.string_of_uint u).
  { unfold u.
    destruct (digit_cases a ltac:(lia)) as [-> | [-> | [-> | [-> | [-> | [-> | [-> |
      [-> | [-> | ->]]]]]]]]]; reflexivity. }
  rewrite Hs. unfold u.
  destruct (digit_uint_text a u3 ltac:(lia)) as (y1 & -> & D1 & V1). unfold u3.
  destruct (digit_uint_text b (Py.digit_uint c (Py.digit_uint d Decimal.Nil)) Hb)
    as (y2 & -> & D2 & V2).
  destruct (digit_uint_text c (Py.digit_uint d Decimal.Nil) Hc) as (y3 & -> & D3 & V3).
  destruct (digit_uint_text d Decimal.Nil Hd) as (y4 & -> & D4 & V4).
  exists y1, y2, y3, y4. cbn [NilEmpty.string_of_uint list_ascii_of_string].
  split; [reflexivity | ].
  split; [now rewrite D1, D2, D3, D4 | ].
  rewrite V1, V2, V3, V4. exact Hsum.
Qed.

Lemma month_day_text (m d : Z) :
  1 <= m <= 12 -> 1 <= d <= 31 ->
  Py.strptime_month
    (list_ascii_of_string (Py.fmt02 m) ++ "-"%char :: list_ascii_of_string (Py.fmt02 d))
  = Some (m, list_ascii_of_string (Py.fmt02 d))
  /\ Py.strptime_day (list_ascii_of_string (Py.fmt02 d)) = Some d.
Proof.
  intros Hm Hd.
  assert (Hall :
    List.forallb
      (fun i =>
         List.forallb
           (fun j =>
              let mm := Z.of_nat i in
              let dd := Z.of_nat j in
              match Py.strptime_month
                      (list_ascii_of_string (Py.fmt02 mm)
                       ++ "-"%char :: list_ascii_of_string (Py.fmt02 dd)),
                    Py.strptime_day (list_ascii_of_string (Py.fmt02 dd)) with
              | Some (m', rest), Some d' =>
                  (m' =? mm) && (d' =? dd)
                  && String.eqb (string_of_list_ascii rest) (Py.fmt02 dd)
              | _, _ => false
              end)
           (List.seq 1 31))
      (List.seq 1 12) = true) by (vm_compute; reflexivity).
  rewrite forallb_forall in Hall.
  specialize (Hall (Z.to_nat m) ltac:(apply in_seq; lia)).
  rewrite forallb_forall in Hall.
  specialize (Hall (Z.to_nat d) ltac:(apply in_seq; lia)).
  cbv zeta in Hall. rewrite !Z2Nat.id in Hall by lia.
  destruct (Py.strptime_month _) as [[m' rest] | ]; [ | discriminate].
  destruct (Py.strptime_day _) as [d' | ]; [ | discriminate].
  apply andb_prop in Hall. destruct Hall as [Hall Hrest].
  apply andb_prop in Hall. destruct Hall as [Em Ed].
  apply Z.eqb_eq in Em, Ed. apply String.eqb_eq in Hrest. subst m' d'.
  split; [ | reflexivity].
  rewrite <- Hrest. now rewrite list_ascii_of_string_of_list_ascii.
Qed.

End ParseBack.

(** X23.  The date text of a daily entry parses back to its day: for a valid
    date from the year 1000 on, [strptime] with ['%Y-%m-%d'] reads the text
    [strftime] wrote with the same format as the midnight of that date, so
    the weekly loop labels every day by its own week. *)
Theorem summary_date_parses_back (d : Py.date) :
  Py.valid_date d = true ->
  1000 <= Py.year d ->
  Py.strptime_Ymd (Py.strftime_Ymd d) = inr (Py.mk_datetime d 0 0 0 0).
Proof.
  intros Hv Hy.
  destruct (valid_date_inv _ Hv) as (Hyr & Hm & Hd).
  assert (Hd31 : 1 <= Py.day d <= 31).
  { split; [lia | ].
    assert (Py.days_in_month (Py.year d) (Py.month d) <= 31).
    { unfold Py.days_in_month.
      destruct (Py.is_leap (Py.year d));
        destruct (month_cases _ Hm) as [-> | [-> | [-> | [-> | [-> | [-> | [-> |
          [-> | [-> | [-> | [-> | ->]]]]]]]]]]]; simpl; lia. }
    lia. }
  destruct (year_text (Py.year d) ltac:(lia)) as (y1 & y2 & y3 & y4 & Ey & Hdig & Hval).
  destruct (month_day_text _ _ Hm Hd31) as [Emonth Eday].
  unfold Py.strptime_Ymd, Py.strftime_Ymd.
  rewrite !chars_app, Ey. cbn [app list_ascii_of_string].
  rewrite Hdig. change (Py.code "-" =? 45) with true. cbn [andb].
  rewrite Emonth, Eday, Hval.
  unfold Py.datetime_ymd.
  destruct d as [y m dd]. cbn [Py.year Py.month Py.day]. now rewrite Hv.
Qed.

Lemma summary_date_witness :
  Py.strptime_Ymd (Py.strftime_Ymd (Py.mk_date 2024 2 29))
  = inr (Py.mk_datetime (Py.mk_date 2024 2 29) 0 0 0 0).
Proof.
  apply summary_date_parses_back; [reflexivity | ].
  apply Z.leb_le. reflexivity.
Defined.

(** ** Cart keys *)

Section Canonical.

#[local] Arguments Py.key_eqb : simpl never.

Lemma canonical_str (i : Z) : printable i -> canonical_key (Some (Py.str i)) = true.
Proof.
  intros Hi. unfold canonical_key. rewrite (int_str i Hi). apply String.eqb_refl.
Qed.

Lemma canonical_key_inj (k k' : option string) (i : Z) :
  canonical_key k = true -> canonical_key k' = true ->
  int_of_key k = inr i -> int_of_key k' = inr i -> k = k'.
Proof.
  unfold canonical_key, int_of_key.
  destruct k as [s | ], k' as [s' | ]; try discriminate.
  intros H H' E E'. rewrite E in H. rewrite E' in H'.
  apply String.eqb_eq in H, H'. congruence.
Qed.

Lemma get_unique (rows : list Product.t) (p : Product.t) :
  NoDup (List.map Product.id rows) -> In p rows ->
  Product_get rows (Product.id p) = Some p.
Proof.
  unfold Product_get. induction rows as [ | q rows IH]; simpl; [intros _ [] | ].
  intros Hn [-> | Hin].
  - now rewrite Z.eqb_refl.
  - inversion Hn as [ | ? ? Hnot Hrest]; subst.
    destruct (Z.eqb_spec (Product.id q) (Product.id p)) as [E | E].
    + exfalso. apply Hnot. rewrite E. now apply in_map.
    + now apply IH.
Qed.

Lemma dict_set_canonical (c : cart) (k : option string) (v : Z) :
  canonical c -> canonical_key k = true -> canonical (Py.dict_set c k v).
Proof.
  intros Hc Hk. induction Hc as [ | [k' v'] c Hk' Hc IH]; cbn [Py.dict_set].
  - repeat constructor. exact Hk.
  - destruct (Py.key_eqb k' k); constructor; assumption.
Qed.

Lemma dict_pop_canonical (c : cart) (k : option string) :
  canonical c -> canonical (Py.dict_pop c k).
Proof.
  induction 1 as [ | [k' v'] c Hk' Hc IH]; cbn [Py.dict_pop]; [constructor | ].
  destruct (Py.key_eqb k' k); [exact Hc | now constructor].
Qed.

Lemma find_In {A : Type} (f : A -> bool) (l : list A) (a : A) :
  List.find f l = Some a -> In a l.
Proof. intros H. now apply find_some in H. Qed.

End Canonical.



(** X14.  Carts stay canonical: when every key of the cart is the decimal
    text of an integer, it is so again after any POST to [pos], provided an
    [update_qty] names its product by such a text (as the forms of the POS
    page do). *)
Theorem cart_keys_stay_canonical
    (db : database) (session : option cart) (form : pos_form) :
  Forall (fun p => printable (Product.id p)) (products db) ->
  canonical (cart_of session) ->
  (action_is form "update_qty" = true -> canonical_key (form_pid form) = true) ->
  canonical (cart_of (session_after (serve (pos_post form) db session))).
Proof.
  intros Hrows Hc Hupd. rewrite pos_post_cart. unfold cart_after.
  assert (Hadd : forall p, In p (products db) ->
            canonical (cart_add (cart_of session) (Some (Py.str (Product.id p))))).
  { intros p Hin. apply dict_set_canonical; [exact Hc | ].
    apply canonical_str. rewrite Forall_forall in Hrows. now apply Hrows. }
  destruct (action_is form "add_by_barcode").
  { destruct (Product_by_barcode _ _) as [p | ] eqn:Hp; [ | exact Hc].
    destruct (nonempty _); [ | exact Hc].
    apply Hadd. now apply find_In in Hp. }
  destruct (action_is form "update_qty").
  { destruct (form_int (form_qty form) (Some 1)) as [ex | n]; [exact Hc | ].
    destruct (0 <? n).
    - apply dict_set_canonical; [exact Hc | now apply Hupd].
    - now apply dict_pop_canonical. }
  destruct (action_is form "clear"); [constructor | ].
  destruct (action_is form "mark_low"); [exact Hc | ].
  destruct (action_is form "unmark_low"); [exact Hc | ].
  destruct (action_is form "add_by_id"); [ | exact Hc].
  destruct (form_int (form_pid form) None) as [ex | i]; [exact Hc | ].
  destruct (Product_get (products db) i) as [p | ] eqn:Hp; [ | exact Hc].
  apply Hadd. now apply find_In in Hp.
Qed.

Lemma cart_keys_witness :
  canonical
    (cart_of (session_after
       (serve (pos_post (mk_pos_form (Some "add_by_id") None (Some " 02 ") None))
          sample_db (Some sample_cart)))).
Proof.
  apply (cart_keys_stay_canonical sample_db (Some sample_cart)).
  - repeat constructor.
  - repeat constructor.
  - discriminate.
Defined.

Section CanonicalStock.

Lemma canonical_ids_distinct (rows : list Product.t) (c : cart) :
  keys_unique c -> canonical c ->
  List.forallb (found rows) c = true ->
  NoDup (cart_product_ids rows c).
Proof.
  intros Hu Hc Hf. unfold cart_product_ids.
  rewrite <- (map_map fst (fun k => option_map Product.id (resolve rows k))).
  apply NoDup_map_NoDup_ForallPairs; [ | exact Hu].
  intros k k' Hk Hk' E.
  apply in_map_iff in Hk, Hk'.
  destruct Hk as (e & <- & He), Hk' as (e' & <- & He').
  unfold canonical in Hc. rewrite Forall_forall in Hc.
  rewrite forallb_forall in Hf.
  pose proof (Hf e He) as F. pose proof (Hf e' He') as F'.
  unfold found in F, F'.
  destruct (resolve rows (fst e)) as [p | ] eqn:R; [ | discriminate].
  destruct (resolve rows (fst e')) as [p' | ] eqn:R'; [ | discriminate].
  destruct (resolve_get _ _ _ R) as (i & Hi & Hg).
  destruct (resolve_get _ _ _ R') as (i' & Hi' & Hg').
  simpl in E. injection E as E.
  rewrite (get_id _ _ _ Hg), (get_id _ _ _ Hg') in E. subst i'.
  apply (canonical_key_inj _ _ i); auto.
Qed.

End CanonicalStock.

(** X15.  With a canonical cart a checkout never oversells: when it is
    answered with a receipt, the stock of the product of every cart entry is
    lowered by exactly the quantity of that entry, and it does not go below
    zero. *)
Theorem canonical_cart_sells_exact_quantities
    (cashier : Z) (now stamp : Py.datetime) (form : checkout_form)
    (db : database) (session : option cart) (oid : Z) :
  let r := serve (checkout cashier now stamp form) db session in
  keys_unique (cart_of session) ->
  canonical (cart_of session) ->
  answer r = Replied (redirect_receipt oid) ->
  forall e, In e (cart_of session) ->
    exists p p',
      resolve (products db) (fst e) = Some p
      /\ Product_get (products (db_after r)) (Product.id p) = Some p'
      /\ Product.stock p' = Product.stock p - snd e
      /\ 0 <= Product.stock p'.
Proof.
  intros r Hu Hc Hr e He. subst r.
  destruct (receipt_database cashier now stamp form db session oid Hr)
    as (paid & change & Hs & _).
  pose proof (settles_sellable now form db session paid change Hs) as Hall.
  pose proof (sellable_found _ _ Hall) as Hf.
  pose proof (canonical_ids_distinct _ _ Hu Hc Hf) as Hn.
  rewrite forallb_forall in Hf. specialize (Hf e He). unfold found in Hf.
  destruct (resolve (products db) (fst e)) as [p | ] eqn:R; [ | discriminate].
  destruct (checkout_stock_distinct cashier now stamp form db session oid e p
              Hr Hn He R) as (p' & Hp' & Hst & H0).
  exists p, p'. now repeat split.
Qed.

Lemma canonical_cart_witness :
  let r := serve (checkout 7 sample_now sample_now (pay_by "card" None))
             sample_db (Some small_cart) in
  exists p p',
    resolve sample_products (Some "3") = Some p
    /\ Product_get (products (db_after r)) (Product.id p) = Some p'
    /\ Product.stock p' = Product.stock p - 1
    /\ 0 <= Product.stock p'.
Proof.
  refine (canonical_cart_sells_exact_quantities 7 sample_now sample_now
            (pay_by "card" None) sample_db (Some small_cart) 1 _ _ _
            (Some "3", 1) _).
  - repeat constructor; simpl; intuition discriminate.
  - repeat constructor.
  - reflexivity.
  - right. left. reflexivity.
Defined.

(** ** Admin: promo codes *)

Lemma normalized_idem (field : option string) :
  normalized (Some (normalized field)) = normalized field.
Proof.
  unfold normalized. cbn [form_get].
  now rewrite strip_upper, strip_idem, upper_idem.
Qed.

Section PromoAdmin.

Lemma PromoCode_set_twice rows i (f g : PromoCode.t -> PromoCode.t) pc :
  PromoCode_get rows i = Some pc ->
  PromoCode.id (f pc) = PromoCode.id pc ->
  g (f pc) = pc ->
  PromoCode_set (PromoCode_set rows i f) i g = rows.
Proof.
  unfold PromoCode_get. intros Hget Hid Hgf.
  induction rows as [ | q rows IH]; [reflexivity | ].
  simpl in *. destruct (PromoCode.id q =? i) eqn:E; simpl.
  - injection Hget as ->. now rewrite Hid, E, Hgf.
  - now rewrite E, IH.
Qed.

Lemma PromoCode_get_set rows i (f : PromoCode.t -> PromoCode.t) pc :
  (forall pc, PromoCode.id (f pc) = PromoCode.id pc) ->
  PromoCode_get rows i = Some pc ->
  PromoCode_get (PromoCode_set rows i f) i = Some (f pc).
Proof.
  intros Hid. unfold PromoCode_get.
  induction rows as [ | q rows IH]; simpl; [discriminate | ].
  destruct (PromoCode.id q =? i) eqn:E; simpl.
  - intros [= ->]. now rewrite Hid, E.
  - now rewrite E.
Qed.

Lemma promocode_toggle_served (pid : Z) (db : database) :
  serve_admin (promocode_toggle pid) db
  = match PromoCode_get (promocodes db) pid with
    | None => mk_admin_served db [] (Val (aborted 404))
    | Some pc =>
        mk_admin_served
          (with_promocodes
             (fun rows => PromoCode_set rows pid
                            (with_active (negb (PromoCode.active pc)))) db)
          [] (Val (redirect_to "promocodes_list"))
    end.
Proof.
  unfold serve_admin, promocode_toggle. unfold_handler. simpl.
  now destruct (PromoCode_get (promocodes db) pid).
Qed.

End PromoAdmin.

(** X16.  Toggling a promo code twice gives back the table as it was: the
    first toggle flips [active] of the row with that id (and of no other
    row), the second flips it back. An id that names no row is answered 404
    and changes nothing. *)
Theorem promocode_toggle_twice_restores (pid : Z) (db : database) :
  let r1 := serve_admin (promocode_toggle pid) db in
  let r2 := serve_admin (promocode_toggle pid) (admin_db_after r1) in
  admin_db_after r2 = db
  /\ (PromoCode_get (promocodes db) pid = None ->
      admin_db_after r1 = db /\ admin_answer r1 = Val (aborted 404))
  /\ (forall pc,
        PromoCode_get (promocodes db) pid = Some pc ->
        admin_answer r1 = Val (redirect_to "promocodes_list")
        /\ PromoCode_get (promocodes (admin_db_after r1)) pid
           = Some (with_active (negb (PromoCode.active pc)) pc)
        /\ List.map PromoCode.code (promocodes (admin_db_after r1))
           = List.map PromoCode.code (promocodes db)).
Proof.
  intros r1 r2. subst r1 r2. rewrite !promocode_toggle_served.
  destruct (PromoCode_get (promocodes db) pid) as [pc | ] eqn:Hpc.
  - cbn [admin_db_after admin_answer with_promocodes promocodes].
    rewrite (PromoCode_get_set _ _ _ pc) by (try exact Hpc; now intros []).
    cbn [admin_db_after with_promocodes promocodes products orders order_items].
    split.
    { unfold with_promocodes. cbn [promocodes products orders order_items].
      rewrite (PromoCode_set_twice _ _ _ _ pc Hpc).
      - now destruct db.
      - reflexivity.
      - destruct pc as [i c t v a e]. unfold with_active. simpl.
        now rewrite negb_involutive. }
    split; [discriminate | ].
    intros pc0 [= <-]. split; [reflexivity | ]. split; [reflexivity | ].
    clear. induction (promocodes db) as [ | q rows IH]; [reflexivity | ].
    simpl. destruct (PromoCode.id q =? pid); simpl; [reflexivity | now rewrite IH].
  - cbn [admin_db_after admin_answer]. rewrite Hpc. cbn [admin_db_after].
    split; [reflexivity | ]. split; [now split | discriminate].
Qed.

Section PromoNew.

Variables (db : database) (form : promocode_form).
Variables (raw discount_type : string) (discount_value : float).
Hypothesis code_given : form_code form = Some raw.
Hypothesis type_given : form_discount_type form = Some discount_type.
Hypothesis value_given : form_discount_value form = Some (inr discount_value).

Lemma promocode_new_served :
  serve_admin (promocode_new (Some form)) db
  = match PromoCode_by_code (promocodes db) (normalized (form_code form)) with
    | Some _ =>
        mk_admin_served db [("Promo code already exists.", "danger")]
          (Val (redirect_to "promocode_new"))
    | None =>
        match expiry_of (form_expires_at form) with
        | inl e => mk_admin_served db [] (Raise e)
        | inr exp_dt =>
            mk_admin_served
              (with_promocodes
                 (fun rows =>
                    rows ++ [new_promocode rows form discount_type discount_value
                               exp_dt])%list db)
              [("Promo code created.", "success")]
              (Val (redirect_to "promocodes_list"))
        end
    end.
Proof.
  unfold serve_admin, promocode_new, required, expiry_of, new_promocode, normalized.
  rewrite code_given, type_given, value_given. cbn [form_get].
  unfold_handler. cbn [working promocodes].
  destruct (PromoCode_by_code (promocodes db) (Py.upper (Py.strip raw)));
    [reflexivity | ].
  destruct (Py.truthy (form_expires_at form)); [ | reflexivity].
  now destruct (Py.strptime_Ymd (form_get (form_expires_at form) "")).
Qed.

End PromoNew.

Section PromoTable.

Lemma by_code_none rows code :
  PromoCode_by_code rows code = None <-> ~ In code (List.map PromoCode.code rows).
Proof.
  unfold PromoCode_by_code. induction rows as [ | pc rows IH]; simpl; [tauto | ].
  destruct (String.eqb_spec (PromoCode.code pc) code) as [E | E].
  - split; [discriminate | ]. intros H. exfalso. apply H. now left.
  - rewrite IH. tauto.
Qed.

Lemma active_appended rows pc code :
  PromoCode_by_code rows code = None ->
  PromoCode.code pc = code ->
  PromoCode_active (rows ++ [pc]) code
  = if PromoCode.active pc then Some pc else None.
Proof.
  unfold PromoCode_by_code, PromoCode_active. intros Hnone <-.
  induction rows as [ | q rows IH]; simpl.
  - rewrite String.eqb_refl. simpl. now destruct (PromoCode.active pc).
  - simpl in Hnone.
    destruct (String.eqb (PromoCode.code q) (PromoCode.code pc));
      [discriminate | ].
    simpl. now apply IH.
Qed.

Lemma promocode_new_cases (db : database) (post : option promocode_form) :
  admin_db_after (serve_admin (promocode_new post) db) = db
  \/ exists pc,
       admin_db_after (serve_admin (promocode_new post) db)
       = with_promocodes (fun rows => rows ++ [pc])%list db
       /\ PromoCode_by_code (promocodes db) (PromoCode.code pc) = None
       /\ exists form, post = Some form
                       /\ PromoCode.code pc = normalized (form_code form).
Proof.
  destruct post as [form | ]; [ | now left].
  destruct (form_code form) as [raw | ] eqn:Hc.
  2:{ left. unfold serve_admin, promocode_new, required. now rewrite Hc. }
  destruct (form_discount_type form) as [ty | ] eqn:Ht.
  2:{ left. unfold serve_admin, promocode_new, required. now rewrite Hc, Ht. }
  destruct (form_discount_value form) as [[ex | v] | ] eqn:Hv.
  2:{ rewrite (promocode_new_served db form raw ty v Hc Ht Hv).
      destruct (PromoCode_by_code _ _) eqn:Hdup; [now left | ].
      destruct (expiry_of (form_expires_at form)) as [e | exp_dt]; [now left | ].
      right. eexists. split; [reflexivity | ].
      split; [exact Hdup | ]. exists form. now split. }
  all: left; unfold serve_admin, promocode_new, required; rewrite Hc, Ht, Hv;
    reflexivity.
Qed.

End PromoTable.

(** X17.  [promocode_new] keeps the promo codes distinct: it adds at most
    one row, after the rows already there, it touches no other table, and a
    form whose normalised code is already in the table is refused with
    "Promo code already exists." and changes nothing. *)
Theorem promocode_new_keeps_codes_distinct
    (db : database) (post : option promocode_form) :
  NoDup (List.map PromoCode.code (promocodes db)) ->
  let r := serve_admin (promocode_new post) db in
  NoDup (List.map PromoCode.code (promocodes (admin_db_after r)))
  /\ products (admin_db_after r) = products db
  /\ orders (admin_db_after r) = orders db
  /\ order_items (admin_db_after r) = order_items db
  /\ (exists new, promocodes (admin_db_after r) = (promocodes db ++ new)%list
                  /\ (List.length new <= 1)%nat)
  /\ (forall form raw ty v,
        post = Some form ->
        form_code form = Some raw ->
        form_discount_type form = Some ty ->
        form_discount_value form = Some (inr v) ->
        In (normalized (Some raw)) (List.map PromoCode.code (promocodes db)) ->
        r = mk_admin_served db [("Promo code already exists.", "danger")]
              (Val (redirect_to "promocode_new"))).
Proof.
  intros Hn r. subst r.
  assert (Hdup : forall form raw ty v,
        post = Some form ->
        form_code form = Some raw ->
        form_discount_type form = Some ty ->
        form_discount_value form = Some (inr v) ->
        In (normalized (Some raw)) (List.map PromoCode.code (promocodes db)) ->
        serve_admin (promocode_new post) db
        = mk_admin_served db [("Promo code already exists.", "danger")]
              (Val (redirect_to "promocode_new"))).
  { intros form raw ty v -> Hc Ht Hv Hin.
    rewrite (promocode_new_served db form raw ty v Hc Ht Hv). rewrite Hc.
    destruct (PromoCode_by_code (promocodes db) (normalized (Some raw))) eqn:E;
      [reflexivity | ].
    apply by_code_none in E. contradiction. }
  destruct (promocode_new_cases db post) as [-> | (pc & -> & Hnone & _)].
  - split; [exact Hn | ]. do 3 (split; [reflexivity | ]).
    split; [ | exact Hdup].
    exists []. rewrite app_nil_r. split; [reflexivity | simpl; lia].
  - cbn [with_promocodes promocodes products orders order_items].
    split.
    { rewrite map_app. cbn [List.map].
      apply NoDup_app; [exact Hn | repeat constructor; intros [] | ].
      intros x Hx [<- | []]. now apply by_code_none in Hnone. }
    do 3 (split; [reflexivity | ]).
    split; [ | exact Hdup].
    exists [pc]. split; [reflexivity | simpl; lia].
Qed.

Lemma promocode_new_witness :
  let post := Some (mk_promocode_form (Some " save10 ") (Some "fixed")
                      (Some (inr 5%float)) (Some "on") None) in
  serve_admin (promocode_new post) sample_db
  = mk_admin_served sample_db [("Promo code already exists.", "danger")]
      (Val (redirect_to "promocode_new")).
Proof.
  destruct (promocode_new_keeps_codes_distinct sample_db
              (Some (mk_promocode_form (Some " save10 ") (Some "fixed")
                       (Some (inr 5%float)) (Some "on") None)))
    as (_ & _ & _ & _ & _ & Hdup).
  - repeat constructor; simpl; intuition discriminate.
  - apply (Hdup (mk_promocode_form (Some " save10 ") (Some "fixed")
                   (Some (inr 5%float)) (Some "on") None)
             " save10 " "fixed" 5%float eq_refl eq_refl eq_refl eq_refl).
    left. reflexivity.
Defined.



Section Deactivated.

Lemma set_products pid f db :
  products (with_promocodes (fun rows => PromoCode_set rows pid f) db) = products db.
Proof. reflexivity. Qed.

Lemma find_none_all {A : Type} (f : A -> bool) (l : list A) :
  (forall x, In x l -> f x = false) -> List.find f l = None.
Proof.
  induction l as [ | a l IH]; intros H; [reflexivity | ].
  simpl. rewrite (H a (in_eq a l)). apply IH. intros x Hx. apply H. now right.
Qed.

Lemma active_after_toggle rows pid pc :
  NoDup (List.map PromoCode.code rows) ->
  PromoCode_get rows pid = Some pc ->
  PromoCode_active (PromoCode_set rows pid (with_active false)) (PromoCode.code pc)
  = None.
Proof.
  unfold PromoCode_get, PromoCode_active.
  induction rows as [ | q rows IH]; simpl; [discriminate | ].
  intros Hn Hget. inversion Hn as [ | ? ? Hnot Hrest]; subst.
  destruct (PromoCode.id q =? pid) eqn:E.
  - injection Hget as ->. simpl. rewrite andb_false_r.
    apply find_none_all. intros x Hx.
    destruct (String.eqb_spec (PromoCode.code x) (PromoCode.code pc)) as [Ec | Ec];
      [ | reflexivity].
    exfalso. apply Hnot. rewrite <- Ec. now apply in_map.
  - simpl.
    destruct (String.eqb_spec (PromoCode.code q) (PromoCode.code pc)) as [Ec | Ec].
    + exfalso. apply Hnot. rewrite Ec. apply in_map.
      now apply find_some in Hget.
    + simpl. now apply IH.
Qed.

End Deactivated.



Section Expiry.

Lemma strptime_midnight (text : string) (t : Py.datetime) :
  Py.strptime_Ymd text = inr t ->
  t = Py.mk_datetime (Py.dt_date t) 0 0 0 0
  /\ Py.valid_date (Py.dt_date t) = true
  /\ Py.truthy (Some text) = true.
Proof.
  unfold Py.strptime_Ymd.
  destruct text as [ | y1 text]; [discriminate | ].
  cbn [list_ascii_of_string].
  destruct (list_ascii_of_string text) as [ | y2 [ | y3 [ | y4 [ | dash rest]]]];
    try discriminate.
  destruct (_ && _); [ | discriminate].
  destruct (Py.strptime_month rest) as [[m rest'] | ]; [ | discriminate].
  destruct (Py.strptime_day rest') as [d | ]; [ | discriminate].
  unfold Py.datetime_ymd.
  destruct (Py.valid_date _) eqn:Hv; [ | discriminate].
  intros [= <-]. now repeat split.
Qed.

Lemma same_day_ge (t now : Py.datetime) :
  t = Py.mk_datetime (Py.dt_date t) 0 0 0 0 ->
  Py.valid_datetime now = true ->
  Py.dt_date now = Py.dt_date t ->
  Py.datetime_ge t now = at_midnight now.
Proof.
  intros -> Hv Hd. cbn [Py.dt_date] in Hd.
  destruct (valid_datetime_inv _ Hv) as (_ & Hh & Hmi & Hs & Hus).
  unfold Py.datetime_ge, Py.datetime_lt, Py.datetime_compare, Py.datetime_fields,
    at_midnight.
  cbn [Py.dt_date Py.hour Py.minute Py.second Py.microsecond].
  rewrite Hd. cbn [Py.lex_compare]. rewrite !Z.compare_refl.
  repeat match goal with
         | |- context [0 ?= ?a] => destruct (Z.compare_spec 0 a)
         end;
  repeat match goal with
         | |- context [?a =? 0] => destruct (Z.eqb_spec a 0)
         end;
  try reflexivity; lia.
Qed.

End Expiry.

(** X20.  An expiry date given to [promocode_new] is stored as the midnight
    that starts that day, and a code is usable only up to its expiry
    instant: on the day written in the form the code is accepted at midnight
    sharp and refused for the rest of the day. *)
Theorem promo_expires_as_its_day_begins
    (db : database) (form : promocode_form) (raw ty text : string) (v : float)
    (t now : Py.datetime) (field : option string) :
  form_code form = Some raw ->
  form_discount_type form = Some ty ->
  form_discount_value form = Some (inr v) ->
  Py.truthy (form_active form) = true ->
  form_expires_at form = Some text ->
  Py.strptime_Ymd text = inr t ->
  ~ In (normalized (Some raw)) (List.map PromoCode.code (promocodes db)) ->
  normalized field = normalized (Some raw) ->
  Py.valid_datetime now = true ->
  Py.dt_date now = Py.dt_date t ->
  let db' := admin_db_after (serve_admin (promocode_new (Some form)) db) in
  exists pc,
    promocodes db' = (promocodes db ++ [pc])%list
    /\ PromoCode.expires_at pc = Some t
    /\ at_midnight t = true
    /\ usable_promo (promocodes db') now (normalized field)
       = (if at_midnight now then Some pc else None).
Proof.
  intros Hc Ht Hv Ha He Hp Hnew Hf Hnow Hday db'. subst db'.
  destruct (strptime_midnight text t Hp) as (Emid & Hvalid & Htruthy).
  rewrite (promocode_new_served db form raw ty v Hc Ht Hv).
  apply by_code_none in Hnew. rewrite Hc, Hnew.
  unfold expiry_of. rewrite He, Htruthy. cbn [form_get]. rewrite Hp.
  cbn [Py.and_then admin_db_after with_promocodes promocodes].
  set (pc := new_promocode (promocodes db) form ty v (Some t)).
  assert (Hcode : PromoCode.code pc = normalized (Some raw)).
  { unfold pc, new_promocode. simpl. now rewrite Hc. }
  exists pc. split; [reflexivity | ]. split; [reflexivity | ].
  split; [rewrite Emid; reflexivity | ].
  unfold usable_promo. rewrite Hf.
  rewrite (active_appended _ pc _ Hnew Hcode).
  unfold pc at 1, new_promocode at 1. cbn [PromoCode.active]. rewrite Ha.
  unfold not_expired. unfold pc at 1, new_promocode at 1.
  cbn [PromoCode.expires_at].
  now rewrite (same_day_ge t now Emid Hnow Hday).
Qed.

Lemma promo_expiry_witness :
  let form := mk_promocode_form (Some "ides") (Some "percent")
                (Some (inr 10%float)) (Some "on") (Some "2024-03-15") in
  let db' := admin_db_after (serve_admin (promocode_new (Some form)) sample_db) in
  exists pc,
    PromoCode.expires_at pc
    = Some (Py.mk_datetime (Py.mk_date 2024 3 15) 0 0 0 0)
    /\ usable_promo (promocodes db') sample_now (normalized (Some "IDES")) = None.
Proof.
  destruct (promo_expires_as_its_day_begins sample_db
              (mk_promocode_form (Some "ides") (Some "percent")
                 (Some (inr 10%float)) (Some "on") (Some "2024-03-15"))
              "ides" "percent" "2024-03-15" 10
              (Py.mk_datetime (Py.mk_date 2024 3 15) 0 0 0 0) sample_now
              (Some "IDES") eq_refl eq_refl eq_refl eq_refl eq_refl eq_refl)
    as (pc & _ & He & _ & Hu).
  - simpl. intuition discriminate.
  - reflexivity.
  - reflexivity.
  - reflexivity.
  - exists pc. split; [exact He | exact Hu].
Defined.

(** ** Admin: products *)

Section ProductNew.

Variables (db : database) (form : product_form).
Variables (raw_name raw_barcode : string) (price : float) (stock : Z).
Hypothesis name_given : form_name form = Some raw_name.
Hypothesis barcode_given : form_product_barcode form = Some raw_barcode.
Hypothesis price_given : form_price form = Some (inr price).
Hypothesis stock_given : form_int (form_stock form) (Some 0) = inr stock.

Lemma product_new_served :
  serve_admin (product_new (Some form)) db
  = match Product_by_barcode (products db) (Py.strip raw_barcode) with
    | Some _ =>
        mk_admin_served db [("Barcode already exists.", "danger")]
          (Val (redirect_to "product_new"))
    | None =>
        mk_admin_served
          (with_products
             (fun rows => rows ++ [new_product rows form price stock])%list db)
          [("Product created.", "success")]
          (Val (redirect_to "products_list"))
    end.
Proof.
  unfold serve_admin, product_new, required, new_product.
  rewrite name_given, barcode_given, price_given. cbn [form_get].
  unfold_handler. rewrite stock_given. cbn [working products].
  now destruct (Product_by_barcode (products db) (Py.strip raw_barcode)).
Qed.

End ProductNew.

Section ProductTable.

Lemma by_barcode_none rows code :
  Product_by_barcode rows code = None
  <-> ~ In code (List.map Product.barcode rows).
Proof.
  unfold Product_by_barcode. induction rows as [ | p rows IH]; simpl; [tauto | ].
  destruct (String.eqb_spec (Product.barcode p) code) as [E | E].
  - split; [discriminate | ]. intros H. exfalso. apply H. now left.
  - rewrite IH. tauto.
Qed.

Lemma by_barcode_appended rows p :
  Product_by_barcode rows (Product.barcode p) = None ->
  Product_by_barcode (rows ++ [p]) (Product.barcode p) = Some p.
Proof.
  unfold Product_by_barcode. intros Hnone.
  induction rows as [ | q rows IH]; simpl.
  - now rewrite String.eqb_refl.
  - simpl in Hnone.
    destruct (String.eqb (Product.barcode q) (Product.barcode p));
      [discriminate | now apply IH].
Qed.

Lemma product_new_cases (db : database) (post : option product_form) :
  admin_db_after (serve_admin (product_new post) db) = db
  \/ exists p,
       admin_db_after (serve_admin (product_new post) db)
       = with_products (fun rows => rows ++ [p])%list db
       /\ Product_by_barcode (products db) (Product.barcode p) = None.
Proof.
  destruct post as [form | ]; [ | now left].
  destruct (form_name form) as [raw_name | ] eqn:Hn.
  2:{ left. unfold serve_admin, product_new, required. now rewrite Hn. }
  destruct (form_product_barcode form) as [raw_barcode | ] eqn:Hb.
  2:{ left. unfold serve_admin, product_new, required. now rewrite Hn, Hb. }
  destruct (form_price form) as [[ex | v] | ] eqn:Hv.
  2:{ destruct (form_int (form_stock form) (Some 0)) as [ex | n] eqn:Hs.
      - left. unfold serve_admin, product_new, required. rewrite Hn, Hb, Hv.
        unfold_handler. now rewrite Hs.
      - rewrite (product_new_served db form raw_name raw_barcode v n Hn Hb Hv Hs).
        destruct (Product_by_barcode _ _) eqn:Hdup; [now left | ].
        right. eexists. split; [reflexivity | ].
        unfold new_product. cbn [Product.barcode]. rewrite Hb. exact Hdup. }
  all: left; unfold serve_admin, product_new, required; rewrite Hn, Hb, Hv;
    reflexivity.
Qed.

End ProductTable.

(** X21.  [product_new] keeps the barcodes distinct: it adds at most one
    row, after the rows already there, it touches no other table, and a form
    whose barcode (surrounding whitespace removed) is already in the table
    is refused with "Barcode already exists." and changes nothing. *)
Theorem product_new_keeps_barcodes_distinct
    (db : database) (post : option product_form) :
  NoDup (List.map Product.barcode (products db)) ->
  let r := serve_admin (product_new post) db in
  NoDup (List.map Product.barcode (products (admin_db_after r)))
  /\ orders (admin_db_after r) = orders db
  /\ order_items (admin_db_after r) = order_items db
  /\ promocodes (admin_db_after r) = promocodes db
  /\ (exists new, products (admin_db_after r) = (products db ++ new)%list
                  /\ (List.length new <= 1)%nat)
  /\ (forall form raw_name raw_barcode v n,
        post = Some form ->
        form_name form = Some raw_name ->
        form_product_barcode form = Some raw_barcode ->
        form_price form = Some (inr v) ->
        form_int (form_stock form) (Some 0) = inr n ->
        In (Py.strip raw_barcode) (List.map Product.barcode (products db)) ->
        r = mk_admin_served db [("Barcode already exists.", "danger")]
              (Val (redirect_to "product_new"))).
Proof.
  intros Hn r. subst r.
  assert (Hdup : forall form raw_name raw_barcode v n,
        post = Some form ->
        form_name form = Some raw_name ->
        form_product_barcode form = Some raw_barcode ->
        form_price form = Some (inr v) ->
        form_int (form_stock form) (Some 0) = inr n ->
        In (Py.strip raw_barcode) (List.map Product.barcode (products db)) ->
        serve_admin (product_new post) db
        = mk_admin_served db [("Barcode already exists.", "danger")]
              (Val (redirect_to "product_new"))).
  { intros form raw_name raw_barcode v n -> Hna Hb Hv Hs Hin.
    rewrite (product_new_served db form raw_name raw_barcode v n Hna Hb Hv Hs).
    destruct (Product_by_barcode (products db) (Py.strip raw_barcode)) eqn:E;
      [reflexivity | ].
    apply by_barcode_none in E. contradiction. }
  destruct (product_new_cases db post) as [-> | (p & -> & Hnone)].
  - split; [exact Hn | ]. do 3 (split; [reflexivity | ]).
    split; [ | exact Hdup].
    exists []. rewrite app_nil_r. split; [reflexivity | simpl; lia].
  - cbn [with_products promocodes products orders order_items].
    split.
    { rewrite map_app. cbn [List.map].
      apply NoDup_app; [exact Hn | repeat constructor; intros [] | ].
      intros x Hx [<- | []]. now apply by_barcode_none in Hnone. }
    do 3 (split; [reflexivity | ]).
    split; [ | exact Hdup].
    exists [p]. split; [reflexivity | simpl; lia].
Qed.

Lemma product_new_witness :
  let post := Some (mk_product_form (Some "Cap") (Some " CLOTH001 ")
                      (Some (inr 50%float)) None None) in
  serve_admin (product_new post) sample_db
  = mk_admin_served sample_db [("Barcode already exists.", "danger")]
      (Val (redirect_to "product_new")).
Proof.
  destruct (product_new_keeps_barcodes_distinct sample_db
              (Some (mk_product_form (Some "Cap") (Some " CLOTH001 ")
                       (Some (inr 50%float)) None None)))
    as (_ & _ & _ & _ & _ & Hdup).
  - repeat constructor; simpl; intuition discriminate.
  - apply (Hdup (mk_product_form (Some "Cap") (Some " CLOTH001 ")
                   (Some (inr 50%float)) None None)
             "Cap" " CLOTH001 " 50%float 0 eq_refl eq_refl eq_refl eq_refl
             eq_refl).
    left. reflexivity.
Defined.



End MallFacts.
